(** * log_process.py : timestamp extraction and interval aggregation

    A shallow embedding of [src/log_process.py] (the code-server log
    activity tool) together with the parts of CPython's [datetime],
    [_strptime] and [re] modules that the script calls.

    - Python [int] is [Z]; Python [str] is [string].
    - A [datetime] is a record of its seven fields, as in CPython.
    - A [timedelta] is represented by its [_to_microseconds()] value, the
      quantity every operation the script uses goes through; the
      constructor's range check on the number of days is kept.
    - A [dict] is an association list in insertion order.
    - Exceptions are values of an error monad; the unbounded [while] loop
      of the first scan takes a fuel argument.
    - The locator and [main] run over an explicit file system, with the
      parts of [posixpath], [pathlib] and [str] they call; what [main]
      prints and draws is a list of events.  Of the bar plot the labels
      are modelled. *)

From Stdlib Require Import ZArith List String Ascii Bool Lia Arith.
Import ListNotations.
Local Open Scope Z_scope.

(** ** Exceptions *)

Inductive exn : Type :=
| ValueError
| OverflowError
| ZeroDivisionError.

(** The result of running a piece of Python: a value, a raised exception,
    or a loop that has not finished within the fuel it was given. *)
Inductive outcome (A : Type) : Type :=
| Ok (a : A)
| Raise (e : exn)
| OutOfFuel.
Arguments Ok {A} a.
Arguments Raise {A} e.
Arguments OutOfFuel {A}.

Definition bind {A B : Type} (m : outcome A) (k : A -> outcome B) : outcome B :=
  match m with
  | Ok a => k a
  | Raise e => Raise e
  | OutOfFuel => OutOfFuel
  end.

Declare Scope py_scope.
Notation "x <- m ;; k" := (bind m (fun x => k))
  (at level 61, m at next level, right associativity) : py_scope.
Local Open Scope py_scope.

(** ** CPython [datetime]: calendar helpers *)

Module Calendar.

Definition MINYEAR : Z := 1.
Definition MAXYEAR : Z := 9999.
Definition _MAXORDINAL : Z := 3652059.

Definition _DAYS_IN_MONTH : list Z :=
  [-1; 31; 28; 31; 30; 31; 30; 31; 31; 30; 31; 30; 31].

Definition _DAYS_BEFORE_MONTH : list Z :=
  [-1; 0; 31; 59; 90; 120; 151; 181; 212; 243; 273; 304; 334].

(** List indexing by a non-negative integer. *)
Definition index (l : list Z) (i : Z) : Z := nth (Z.to_nat i) l 0.

Definition _is_leap (year : Z) : bool :=
  (year mod 4 =? 0) && (negb (year mod 100 =? 0) || (year mod 400 =? 0)).

Definition _days_before_year (year : Z) : Z :=
  let y := year - 1 in
  y * 365 + y / 4 - y / 100 + y / 400.

Definition _days_in_month (year month : Z) : Z :=
  if (month =? 2) && _is_leap year then 29 else index _DAYS_IN_MONTH month.

Definition _days_before_month (year month : Z) : Z :=
  index _DAYS_BEFORE_MONTH month
  + (if (2 <? month) && _is_leap year then 1 else 0).

Definition _ymd2ord (year month day : Z) : Z :=
  _days_before_year year + _days_before_month year month + day.

Definition _DI400Y : Z := 146097.
Definition _DI100Y : Z := 36524.
Definition _DI4Y : Z := 1461.

Definition _ord2ymd (n : Z) : Z * Z * Z :=
  let n := n - 1 in
  let n400 := n / _DI400Y in
  let n := n mod _DI400Y in
  let year := n400 * 400 + 1 in
  let n100 := n / _DI100Y in
  let n := n mod _DI100Y in
  let n4 := n / _DI4Y in
  let n := n mod _DI4Y in
  let n1 := n / 365 in
  let n := n mod 365 in
  let year := year + (n100 * 100 + n4 * 4 + n1) in
  if (n1 =? 4) || (n100 =? 4) then (year - 1, 12, 31)
  else
    let leapyear := (n1 =? 3) && (negb (n4 =? 24) || (n100 =? 3)) in
    let month := Z.shiftr (n + 50) 5 in
    let preceding :=
      index _DAYS_BEFORE_MONTH month
      + (if (2 <? month) && leapyear then 1 else 0) in
    if n <? preceding then
      let month := month - 1 in
      let preceding :=
        preceding - (index _DAYS_IN_MONTH month
                     + (if (month =? 2) && leapyear then 1 else 0)) in
      (year, month, n - preceding + 1)
    else (year, month, n - preceding + 1).

(** [_check_date_fields], as a test. *)
Definition valid_date (year month day : Z) : bool :=
  (MINYEAR <=? year) && (year <=? MAXYEAR)
  && (1 <=? month) && (month <=? 12)
  && (1 <=? day) && (day <=? _days_in_month year month).

End Calendar.

(** ** CPython [datetime]: [timedelta] and [datetime] *)

Module Datetime.
Import Calendar.

(** Python's [divmod] on integers is floor division, as [Z.div] and
    [Z.modulo] are; a zero divisor raises. *)
Definition py_floordiv (a b : Z) : outcome Z :=
  if b =? 0 then Raise ZeroDivisionError else Ok (a / b).
Definition py_mod (a b : Z) : outcome Z :=
  if b =? 0 then Raise ZeroDivisionError else Ok (a mod b).

Definition US_PER_SECOND : Z := 1000000.
Definition US_PER_DAY : Z := 24 * 3600 * 1000000.

Record timedelta : Type := mk_timedelta { _to_microseconds : Z }.

Definition td_days (t : timedelta) : Z := _to_microseconds t / US_PER_DAY.
Definition td_seconds (t : timedelta) : Z :=
  (_to_microseconds t mod US_PER_DAY) / US_PER_SECOND.
Definition td_microseconds (t : timedelta) : Z :=
  _to_microseconds t mod US_PER_SECOND.

(** [timedelta.__new__] on integer arguments: everything is carried into
    days, seconds and microseconds, and too many days overflow. *)
Definition timedelta_new
    (days seconds microseconds milliseconds minutes hours weeks : Z)
    : outcome timedelta :=
  let us :=
    (((weeks * 7 + days) * 24 + hours) * 3600 + minutes * 60 + seconds)
      * US_PER_SECOND
    + milliseconds * 1000 + microseconds in
  if 999999999 <? Z.abs (us / US_PER_DAY) then Raise OverflowError
  else Ok (mk_timedelta us).

(** [timedelta.__add__] *)
Definition timedelta_add (a b : timedelta) : outcome timedelta :=
  timedelta_new (td_days a + td_days b) (td_seconds a + td_seconds b)
                (td_microseconds a + td_microseconds b) 0 0 0 0.

(** [timedelta.__mul__] by an [int] *)
Definition timedelta_mul (a : timedelta) (i : Z) : outcome timedelta :=
  timedelta_new (td_days a * i) (td_seconds a * i) (td_microseconds a * i)
                0 0 0 0.

(** [timedelta.__floordiv__] by a [timedelta] *)
Definition timedelta_floordiv (a b : timedelta) : outcome Z :=
  py_floordiv (_to_microseconds a) (_to_microseconds b).

(** [timedelta.__mod__] *)
Definition timedelta_mod (a b : timedelta) : outcome timedelta :=
  r <- py_mod (_to_microseconds a) (_to_microseconds b) ;;
  timedelta_new 0 0 r 0 0 0 0.

Record datetime : Type := mk_datetime {
  year : Z; month : Z; day : Z;
  hour : Z; minute : Z; second : Z; microsecond : Z
}.

(** [_check_time_fields], as a test. *)
Definition valid_time (hour minute second microsecond : Z) : bool :=
  (0 <=? hour) && (hour <=? 23) && (0 <=? minute) && (minute <=? 59)
  && (0 <=? second) && (second <=? 59)
  && (0 <=? microsecond) && (microsecond <=? 999999).

(** [datetime.__new__]: the field checks raise [ValueError]. *)
Definition datetime_new (y m d hh mm ss us : Z) : outcome datetime :=
  if valid_date y m d && valid_time hh mm ss us
  then Ok (mk_datetime y m d hh mm ss us)
  else Raise ValueError.

(** The invariant of every [datetime] object. *)
Definition valid_datetime (t : datetime) : bool :=
  valid_date (year t) (month t) (day t)
  && valid_time (hour t) (minute t) (second t) (microsecond t).

(** [datetime.min] *)
Definition datetime_min : datetime := mk_datetime 1 1 1 0 0 0 0.

Definition toordinal (t : datetime) : Z :=
  _ymd2ord (year t) (month t) (day t).

(** [datetime.combine(d, time())]: the date of [d] at midnight. *)
Definition combine_midnight (d : datetime) : outcome datetime :=
  datetime_new (year d) (month d) (day d) 0 0 0 0.

(** [datetime.__add__] with a [timedelta] *)
Definition datetime_add (self : datetime) (other : timedelta)
    : outcome datetime :=
  delta <- timedelta_new (toordinal self) (second self) (microsecond self)
                         0 (minute self) (hour self) 0 ;;
  delta <- timedelta_add delta other ;;
  let hh := td_seconds delta / 3600 in
  let rem := td_seconds delta mod 3600 in
  let mm := rem / 60 in
  let ss := rem mod 60 in
  if (0 <? td_days delta) && (td_days delta <=? _MAXORDINAL) then
    let '(y, m, d) := _ord2ymd (td_days delta) in
    datetime_new y m d hh mm ss (td_microseconds delta)
  else Raise OverflowError.

(** [datetime.__sub__] with a [datetime] *)
Definition datetime_sub (self other : datetime) : outcome timedelta :=
  let days1 := toordinal self in
  let days2 := toordinal other in
  let secs1 := second self + minute self * 60 + hour self * 3600 in
  let secs2 := second other + minute other * 60 + hour other * 3600 in
  timedelta_new (days1 - days2) (secs1 - secs2)
                (microsecond self - microsecond other) 0 0 0 0.

(** Equality of naive datetimes compares the seven fields. *)
Definition datetime_eqb (a b : datetime) : bool :=
  (year a =? year b) && (month a =? month b) && (day a =? day b)
  && (hour a =? hour b) && (minute a =? minute b)
  && (second a =? second b) && (microsecond a =? microsecond b).

(** [datetime.__lt__]: the fields compared as a tuple. *)
Fixpoint tuple_ltb (a b : list Z) : bool :=
  match a, b with
  | x :: a', y :: b' => (x <? y) || ((x =? y) && tuple_ltb a' b')
  | [], _ :: _ => true
  | _, [] => false
  end.

Definition fields (t : datetime) : list Z :=
  [year t; month t; day t; hour t; minute t; second t; microsecond t].

Definition datetime_ltb (a b : datetime) : bool :=
  tuple_ltb (fields a) (fields b).

End Datetime.

(** ** Python [str] methods used by the script

    Characters are the values of [ascii].  The digits and blanks beyond
    ASCII that Python's [\d], [\s] and [int] also accept are outside the
    model. *)

Module Str.

(** [s.startswith(p)] *)
Definition startswith (s p : string) : bool := prefix p s.

(** [s.split(sep)] for a one-character separator. *)
Fixpoint split (sep : ascii) (s : string) : list string :=
  match s with
  | EmptyString => [EmptyString]
  | String c s' =>
      if Ascii.eqb c sep then EmptyString :: split sep s'
      else match split sep s' with
           | h :: t => String c h :: t
           | [] => [String c EmptyString]
           end
  end.

(** [s.lstrip(c)] for a one-character set. *)
Fixpoint lstrip (c : ascii) (s : string) : string :=
  match s with
  | String c' s' => if Ascii.eqb c' c then lstrip c s' else s
  | EmptyString => EmptyString
  end.

Definition code (c : ascii) : Z := Z.of_N (N_of_ascii c).

(** [0-9] *)
Definition is_digit (c : ascii) : bool := (48 <=? code c) && (code c <=? 57).

(** Whitespace among the ASCII characters: tab to carriage return, the
    four separators 0x1c-0x1f, and the space. *)
Definition is_space (c : ascii) : bool :=
  ((9 <=? code c) && (code c <=? 13))
  || ((28 <=? code c) && (code c <=? 31))
  || (code c =? 32).

Definition char_between (lo hi : ascii) (c : ascii) : bool :=
  (code lo <=? code c) && (code c <=? code hi).

Fixpoint lstrip_space (s : string) : string :=
  match s with
  | String c s' => if is_space c then lstrip_space s' else s
  | EmptyString => EmptyString
  end.

Fixpoint digits_value (acc : Z) (s : string) : Z :=
  match s with
  | String c s' => digits_value (acc * 10 + (code c - 48)) s'
  | EmptyString => acc
  end.

(** [int(s)] on a string of decimal digits, leading blanks allowed. *)
Definition int (s : string) : Z := digits_value 0 (lstrip_space s).

(** ["0" * n] *)
Fixpoint zeros (n : nat) : string :=
  match n with
  | O => EmptyString
  | S k => String "0"%char (zeros k)
  end.

End Str.

(** ** The fragment of [re] that [_strptime] needs

    [matches r s] lists every way in which [r] matches a prefix of [s], in
    the order in which a backtracking matcher tries them; each entry carries
    the named groups and the text left over.  [re.match] is the first entry.
    ([_strptime] compiles its pattern with [IGNORECASE], which changes
    nothing for digits, blanks and punctuation.) *)

Module Re.

Inductive group_name : Type := gY | gm | gd | gH | gM | gS | gf.

Definition group_eqb (a b : group_name) : bool :=
  match a, b with
  | gY, gY | gm, gm | gd, gd | gH, gH | gM, gM | gS, gS | gf, gf => true
  | _, _ => false
  end.

Inductive regex : Type :=
| Chr (c : ascii)                               (* a literal character *)
| Class (p : ascii -> bool)                     (* a character class *)
| Cat (r1 r2 : regex)                           (* r1 r2 *)
| Alt (r1 r2 : regex)                           (* r1 | r2 *)
| Rep (p : ascii -> bool) (lo : nat) (hi : option nat)
                                                (* class{lo,hi}, class+ *)
| Group (g : group_name) (r : regex).           (* (?P<g> r) *)

Definition groupdict : Type := list (group_name * string).

(** What is left of [s] after a greedy run of at most [max] characters
    of the class, the longest run first. *)
Fixpoint runs (p : ascii -> bool) (max : nat) (s : string) : list string :=
  match max, s with
  | S k, String c s' => if p c then runs p k s' ++ [s] else [s]
  | _, _ => [s]
  end.

Definition consumed (s rest : string) : nat :=
  (String.length s - String.length rest)%nat.

Fixpoint matches (r : regex) (s : string) : list (groupdict * string) :=
  match r with
  | Chr c =>
      match s with
      | String c' s' => if Ascii.eqb c' c then [([], s')] else []
      | EmptyString => []
      end
  | Class p =>
      match s with
      | String c' s' => if p c' then [([], s')] else []
      | EmptyString => []
      end
  | Cat r1 r2 =>
      flat_map (fun '(g1, s1) =>
                  map (fun '(g2, s2) => (g1 ++ g2, s2)) (matches r2 s1))
               (matches r1 s)
  | Alt r1 r2 => matches r1 s ++ matches r2 s
  | Rep p lo hi =>
      let max := match hi with Some h => h | None => String.length s end in
      map (fun rest => ([], rest))
          (filter (fun rest => (lo <=? consumed s rest)%nat) (runs p max s))
  | Group g r =>
      map (fun '(gs, rest) => ((g, substring 0 (consumed s rest) s) :: gs, rest))
          (matches r s)
  end.

(** [pattern.match(s)]: the groups and the unmatched tail. *)
Definition re_match (r : regex) (s : string) : option (groupdict * string) :=
  hd_error (matches r s).

Fixpoint group (d : groupdict) (g : group_name) : string :=
  match d with
  | [] => EmptyString
  | (g', v) :: d' => if group_eqb g' g then v else group d' g
  end.

End Re.

(** ** [_strptime] for the format of the script *)

Module Strptime.
Import Str Re Datetime.

Definition digit : regex := Class is_digit.                     (* \d *)
Definition rng (lo hi : ascii) : regex := Class (char_between lo hi).

(** The entries of [TimeRE] that the format uses. *)
Definition re_Y : regex := Group gY (Cat digit (Cat digit (Cat digit digit))).
Definition re_m : regex :=
  Group gm (Alt (Cat (Chr "1") (rng "0" "2"))
           (Alt (Cat (Chr "0") (rng "1" "9"))
                (rng "1" "9"))).
Definition re_d : regex :=
  Group gd (Alt (Cat (Chr "3") (rng "0" "1"))
           (Alt (Cat (rng "1" "2") digit)
           (Alt (Cat (Chr "0") (rng "1" "9"))
           (Alt (rng "1" "9")
                (Cat (Chr " ") (rng "1" "9")))))).
Definition re_H : regex :=
  Group gH (Alt (Cat (Chr "2") (rng "0" "3"))
           (Alt (Cat (rng "0" "1") digit)
                digit)).
Definition re_M : regex :=
  Group gM (Alt (Cat (rng "0" "5") digit) digit).
Definition re_S : regex :=
  Group gS (Alt (Cat (Chr "6") (rng "0" "1"))
           (Alt (Cat (rng "0" "5") digit)
                digit)).
Definition re_f : regex := Group gf (Rep (char_between "0" "9") 1 (Some 6%nat)).

(** [TimeRE.pattern("%Y-%m-%d %H:%M:%S.%f")]: each directive replaced by
    its entry, the blank by [\s+], the other characters literal. *)
Definition format_regex : regex :=
  Cat re_Y (Cat (Chr "-") (Cat re_m (Cat (Chr "-") (Cat re_d
 (Cat (Rep is_space 1 None)
 (Cat re_H (Cat (Chr ":") (Cat re_M (Cat (Chr ":") (Cat re_S
 (Cat (Chr ".") re_f))))))))))).

(** [datetime.strptime(data_string, "%Y-%m-%d %H:%M:%S.%f")] *)
Definition strptime (data_string : string) : outcome datetime :=
  match re_match format_regex data_string with
  | None => Raise ValueError                 (* does not match format *)
  | Some (found, rest) =>
      match rest with
      | String _ _ => Raise ValueError       (* unconverted data remains *)
      | EmptyString =>
          let year := int (group found gY) in
          let month := int (group found gm) in
          let day := int (group found gd) in
          let hour := int (group found gH) in
          let minute := int (group found gM) in
          let second := int (group found gS) in
          let s := group found gf in
          let s := (s ++ zeros (6 - String.length s))%string in
          let fraction := int s in
          datetime_new year month day hour minute second fraction
      end
  end.

End Strptime.

(** ** Dictionaries keyed by [datetime], in insertion order *)

Module Dict.
Import Datetime.

Definition dict : Type := list (datetime * Z).

(** [d.get(k)] *)
Fixpoint get (k : datetime) (d : dict) : option Z :=
  match d with
  | [] => None
  | (k', v) :: d' => if datetime_eqb k' k then Some v else get k d'
  end.

(** [d[k] = v]: an existing key keeps its place, a new one goes last. *)
Fixpoint set (k : datetime) (v : Z) (d : dict) : dict :=
  match d with
  | [] => [(k, v)]
  | (k', v') :: d' =>
      if datetime_eqb k' k then (k', v) :: d' else (k', v') :: set k v d'
  end.

Definition keys (d : dict) : list datetime := map fst d.
Definition values (d : dict) : list Z := map snd d.

(** [sum(d.values())] *)
Definition total (d : dict) : Z := fold_right Z.add 0 (values d).

End Dict.

(** ** [log_process.py] *)

Module LogProcess.
Import Str Datetime Dict.

(** An open text file: the lines not read yet, each with its line end. *)
Definition file : Type := list string.

(** [log_file.readline()]: the next line, or the empty string at the end
    of the file. *)
Definition readline (f : file) : string * file :=
  match f with
  | [] => (EmptyString, [])
  | l :: f' => (l, f')
  end.

Definition get_datetime_from_log_line (log_line : string)
    : outcome (option datetime) :=
  if startswith log_line "[" then
    let log_datetime := lstrip "[" (hd EmptyString (split "]" log_line)) in
    log_date_object <- Strptime.strptime log_datetime ;;
    Ok (Some log_date_object)
  else Ok None.

(** The [interval] argument: the keyword arguments of [timedelta]. *)
Record interval : Type := mk_interval {
  weeks : Z; days : Z; hours : Z; minutes : Z; seconds : Z;
  milliseconds : Z; microseconds : Z
}.

(** The default, [{"minutes": 30}]. *)
Definition default_interval : interval := mk_interval 0 0 0 30 0 0 0.

(** [timedelta] called with the entries of [interval] as keyword
    arguments. *)
Definition timedelta_of (i : interval) : outcome timedelta :=
  timedelta_new (days i) (seconds i) (microseconds i) (milliseconds i)
                (minutes i) (hours i) (weeks i).

(** The [while] loop of the first scan: read lines until one yields a
    datetime. *)
Fixpoint first_datetime (fuel : nat) (log_file : file) : outcome datetime :=
  match fuel with
  | O => OutOfFuel
  | S fuel' =>
      let '(log_line, log_file') := readline log_file in
      log_date_object <- get_datetime_from_log_line log_line ;;
      match log_date_object with
      | None => first_datetime fuel' log_file'
      | Some d => Ok d
      end
  end.

(** [range(n)] *)
Definition range (n : Z) : list Z := map Z.of_nat (seq 0 (Z.to_nat n)).

(** The dictionary comprehension
    [{log_date_object + i * delta: 0 for i in range(...)}]. *)
Fixpoint preseed (log_date_object : datetime) (delta : timedelta)
    (indices : list Z) (acc : dict) : outcome dict :=
  match indices with
  | [] => Ok acc
  | log_time_object :: indices' =>
      step <- timedelta_mul delta log_time_object ;;
      key <- datetime_add log_date_object step ;;
      preseed log_date_object delta indices' (set key 0 acc)
  end.

(** [log_date_object + (datetime.min - log_date_object) % delta] *)
Definition round_to_interval (log_date_object : datetime) (delta : timedelta)
    : outcome datetime :=
  diff <- datetime_sub datetime_min log_date_object ;;
  remainder <- timedelta_mod diff delta ;;
  datetime_add log_date_object remainder.

(** The body of the [if log_date_object is not None] branch. *)
Definition count_one (rounded_log_date_object : datetime) (acc : dict) : dict :=
  match get rounded_log_date_object acc with
  | None => set rounded_log_date_object 1 acc
  | Some existing_value => set rounded_log_date_object (existing_value + 1) acc
  end.

(** The [for] loop of the second scan. *)
Fixpoint count_lines (delta : timedelta) (log_file : file) (acc : dict)
    : outcome dict :=
  match log_file with
  | [] => Ok acc
  | log_line :: log_file' =>
      log_date_object <- get_datetime_from_log_line log_line ;;
      match log_date_object with
      | None => count_lines delta log_file' acc
      | Some t =>
          rounded_log_date_object <- round_to_interval t delta ;;
          count_lines delta log_file' (count_one rounded_log_date_object acc)
      end
  end.

(** The histogram after the first [with] block. *)
Definition initialize (fuel : nat) (log_file : file) (delta : timedelta)
    : outcome dict :=
  log_date_object <- first_datetime fuel log_file ;;
  log_date_object <- combine_midnight log_date_object ;;
  one_day <- timedelta_new 1 0 0 0 0 0 0 ;;
  n <- timedelta_floordiv one_day delta ;;
  preseed log_date_object delta (range n) [].

Definition get_log_activity_interval (fuel : nat) (log_path : file)
    (interval : interval) : outcome dict :=
  delta <- timedelta_of interval ;;
  time_interval_to_log_count <- initialize fuel log_path delta ;;
  count_lines delta log_path time_interval_to_log_count.

End LogProcess.

(** ** Auxiliary definitions for the proofs *)

Module CalendarAux.
Import Calendar.

(** The second half of [_ord2ymd]: month and day of the [n]-th day
    (counted from 0) of a year. *)
Definition month_day (leapyear : bool) (n : Z) : Z * Z :=
  let month := Z.shiftr (n + 50) 5 in
  let preceding :=
    index _DAYS_BEFORE_MONTH month
    + (if (2 <? month) && leapyear then 1 else 0) in
  if n <? preceding then
    let month := month - 1 in
    let preceding :=
      preceding - (index _DAYS_IN_MONTH month
                   + (if (month =? 2) && leapyear then 1 else 0)) in
    (month, n - preceding + 1)
  else (month, n - preceding + 1).

Definition dim_of (leapyear : bool) (m : Z) : Z :=
  if (m =? 2) && leapyear then 29 else index _DAYS_IN_MONTH m.

Definition dbm_of (leapyear : bool) (m : Z) : Z :=
  index _DAYS_BEFORE_MONTH m + (if (2 <? m) && leapyear then 1 else 0).

Definition zrange (k : nat) : list Z := map Z.of_nat (seq 0 k).

Definition month_day_ok (leapyear : bool) (n : Z) : bool :=
  let '(m, d) := month_day leapyear n in
  (1 <=? m) && (m <=? 12) && (1 <=? d) && (d <=? dim_of leapyear m)
  && (dbm_of leapyear m + d =? n + 1).

Definition month_order_ok (lp : bool) (m : Z) : bool :=
  (0 <=? dbm_of lp m)
  && (dbm_of lp m + dim_of lp m <=? 365 + (if lp then 1 else 0))
  && forallb (fun m' => (m' <=? m) || (dbm_of lp m + dim_of lp m <=? dbm_of lp m'))
             (zrange 13).

End CalendarAux.

Module TimeAux.
Import Calendar Datetime.

(** The microseconds from the start of ordinal day 0 to [t]. *)
Definition ticks (t : datetime) : Z :=
  ((toordinal t * 24 + hour t) * 3600 + minute t * 60 + second t)
    * US_PER_SECOND + microsecond t.

(** [t - datetime.min], in microseconds. *)
Definition since_epoch (t : datetime) : Z := ticks t - ticks datetime_min.

(** The ticks of the datetimes that exist: from [datetime.min] up to, not
    including, the end of the last day of year 9999. *)
Definition in_range (s : Z) : bool :=
  (US_PER_DAY <=? s) && (s <? (_MAXORDINAL + 1) * US_PER_DAY).

(** The datetime at a given number of ticks. *)
Definition of_ticks (s : Z) : datetime :=
  let '(y, m, d) := _ord2ymd (s / US_PER_DAY) in
  let secs := s mod US_PER_DAY / US_PER_SECOND in
  mk_datetime y m d (secs / 3600) (secs mod 3600 / 60) (secs mod 3600 mod 60)
              (s mod US_PER_SECOND).

(** The invariant of every [timedelta] object. *)
Definition valid_timedelta (d : timedelta) : bool :=
  Z.abs (_to_microseconds d / US_PER_DAY) <=? 999999999.

End TimeAux.

Module LogAux.
Import Datetime Dict LogProcess.

(** Whether a line yields a datetime. *)
Definition yields_timestamp (log_line : string) : bool :=
  match get_datetime_from_log_line log_line with
  | Ok (Some _) => true
  | _ => false
  end.

(** The number of lines of a file that yield a datetime. *)
Definition count_timestamped (log_file : file) : Z :=
  Z.of_nat (List.length (filter yields_timestamp log_file)).

(** Whether the second scan gets past a line: the line is not malformed and
    its rounded datetime exists. *)
Definition line_ok (delta : timedelta) (log_line : string) : bool :=
  match get_datetime_from_log_line log_line with
  | Ok None => true
  | Ok (Some t) =>
      match round_to_interval t delta with Ok _ => true | _ => false end
  | _ => false
  end.

(** Whether a line is counted in bucket [k]. *)
Definition hits_bucket (delta : timedelta) (k : datetime) (log_line : string)
    : bool :=
  match get_datetime_from_log_line log_line with
  | Ok (Some t) =>
      match round_to_interval t delta with
      | Ok k' => datetime_eqb k' k
      | _ => false
      end
  | _ => false
  end.

(** The number of lines of a file counted in bucket [k]. *)
Definition hits (delta : timedelta) (k : datetime) (log_file : file) : Z :=
  Z.of_nat (List.length (filter (hits_bucket delta k) log_file)).

(** The count of a bucket, 0 for one that is absent. *)
Definition count_of (k : datetime) (d : dict) : Z :=
  match get k d with Some v => v | None => 0 end.

End LogAux.

Module SeedAux.
Import Datetime TimeAux Dict LogProcess.

(** The date of [t] at midnight: the day anchor. *)
Definition midnight (t : datetime) : datetime :=
  mk_datetime (year t) (month t) (day t) 0 0 0 0.

(** The [i]-th key of the dictionary comprehension. *)
Definition bucket_key (anchor : datetime) (delta : timedelta) (i : Z) : datetime :=
  of_ticks (ticks anchor + _to_microseconds delta * i).

(** The dictionary that the comprehension builds. *)
Definition preseeded (anchor : datetime) (delta : timedelta) : dict :=
  map (fun i => (bucket_key anchor delta i, 0))
      (range (US_PER_DAY / _to_microseconds delta)).

(** The datetime that [round_to_interval] computes, in ticks. *)
Definition rounded_ticks (t : datetime) (delta : timedelta) : Z :=
  ticks t + (- since_epoch t) mod _to_microseconds delta.

End SeedAux.

Module SpecAux.
Import Str Datetime TimeAux Dict LogProcess.

(** The text that [get_datetime_from_log_line] hands to [strptime]. *)
Definition bracketed (log_line : string) : string :=
  lstrip "[" (hd EmptyString (split "]" log_line)).

(** The rounding as the specification words it:
    [timestamp - ((timestamp - epoch) mod interval)]. *)
Definition round_down_spec (t : datetime) (delta : timedelta) : datetime :=
  of_ticks (ticks t - since_epoch t mod _to_microseconds delta).

(** Thirty minutes, the value of [timedelta(minutes=30)]. *)
Definition half_hour : timedelta := mk_timedelta (30 * 60 * US_PER_SECOND).

(** The line of the specification's scenario. *)
Definition scenario_line : string :=
  "[2021-05-01 21:10:30.781] some text"%string.

End SpecAux.

Module ScenarioAux.
Import Datetime.

(** The timestamp of the scenario line, and the half-hour boundaries on
    either side of it. *)
Definition scenario_time : datetime := mk_datetime 2021 5 1 21 10 30 781000.
Definition scenario_lower : datetime := mk_datetime 2021 5 1 21 0 0 0.
Definition scenario_upper : datetime := mk_datetime 2021 5 1 21 30 0 0.

(** The day anchor of the scenario. *)
Definition scenario_anchor : datetime := mk_datetime 2021 5 1 0 0 0 0.

End ScenarioAux.

Module FormatAux.
Import Str Datetime.

(** The character of a decimal digit. *)
Definition digit_char (d : Z) : ascii := ascii_of_N (Z.to_N (48 + d)).

(** [n] in decimal, zero-padded to [width] digits. *)
Fixpoint pad (width : nat) (n : Z) : string :=
  match width with
  | O => EmptyString
  | S k => String (digit_char (n / 10 ^ Z.of_nat k)) (pad k (n mod 10 ^ Z.of_nat k))
  end.

(** A timestamp in the layout [YYYY-MM-DD HH:MM:SS.ffffff] that
    [LOG_TIME_FORMAT] names, every field zero-padded to its width. *)
Definition format_timestamp (t : datetime) : string :=
  (pad 4 (year t) ++ "-" ++ pad 2 (month t) ++ "-" ++ pad 2 (day t) ++ " "
   ++ pad 2 (hour t) ++ ":" ++ pad 2 (minute t) ++ ":" ++ pad 2 (second t)
   ++ "." ++ pad 6 (microsecond t))%string.

(** Whether a character occurs in a string. *)
Fixpoint has_char (c : ascii) (s : string) : bool :=
  match s with
  | EmptyString => false
  | String c' s' => Ascii.eqb c' c || has_char c s'
  end.

(** A run of [n] opening brackets. *)
Fixpoint brackets (n : nat) : string :=
  match n with
  | O => EmptyString
  | S k => String "[" (brackets k)
  end.

(** The text to parse as the specification words it: up to the first
    closing bracket, with the single leading bracket removed. *)
Definition bracketed_spec (log_line : string) : string :=
  match hd EmptyString (split "]" log_line) with
  | String "[" s => s
  | s => s
  end.

(** Whether every character of a string is a digit. *)
Fixpoint all_digits (s : string) : bool :=
  match s with
  | EmptyString => true
  | String c s' => is_digit c && all_digits s'
  end.

(** The pattern inside a named group. *)
Definition inner (r : Re.regex) : Re.regex :=
  match r with
  | Re.Group _ r' => r'
  | _ => r
  end.

(** The pattern [r] takes the two digits of [n] and nothing else first. *)
Definition two_digit_ok (r : Re.regex) (n : Z) : Prop :=
  forall tail,
    hd_error (Re.matches r (pad 2 n ++ tail)) = Some ([], tail).

End FormatAux.

Module OrderAux.
Import Datetime Dict LogProcess.

(** The keys of a dictionary after an assignment to [k]: a new key goes
    last. *)
Definition add_key (ks : list datetime) (k : datetime) : list datetime :=
  if existsb (datetime_eqb k) ks then ks else ks ++ [k].

(** The rounded datetimes of the timestamped lines of a file, in file
    order. *)
Definition rounded_keys (delta : timedelta) (log_file : file) : list datetime :=
  flat_map (fun l =>
              match get_datetime_from_log_line l with
              | Ok (Some t) =>
                  match round_to_interval t delta with
                  | Ok k => [k]
                  | _ => []
                  end
              | _ => []
              end) log_file.

End OrderAux.

Module WindowAux.
Import Datetime TimeAux.

(** Midnight of the day after [anchor]'s. *)
Definition next_midnight (anchor : datetime) : datetime :=
  of_ticks (ticks anchor + US_PER_DAY).

End WindowAux.

Module ExtractAux.
Import Str Datetime FormatAux.

(** A timestamp written with [k] digits after the point, as the log lines
    are when [k] is 3: [YYYY-MM-DD HH:MM:SS.mmm]. *)
Definition format_timestamp_digits (k : nat) (t : datetime) : string :=
  (pad 4 (year t) ++ "-" ++ pad 2 (month t) ++ "-" ++ pad 2 (day t) ++ " "
   ++ pad 2 (hour t) ++ ":" ++ pad 2 (minute t) ++ ":" ++ pad 2 (second t)
   ++ "." ++ pad k (microsecond t / 10 ^ Z.of_nat (6 - k)))%string.

(** Whether the last character of a string is a digit. *)
Fixpoint last_is_digit (s : string) : bool :=
  match s with
  | EmptyString => false
  | String c EmptyString => is_digit c
  | String _ s' => last_is_digit s'
  end.

(** The line feed. *)
Definition newline : string := String (ascii_of_nat 10) EmptyString.

(** Every match of [r] takes a text that ends with a digit. *)
Definition ends_with_digit (r : Re.regex) : Prop :=
  forall s g rest,
    In (g, rest) (Re.matches r s) ->
    exists q, s = (q ++ rest)%string /\ last_is_digit q = true.

End ExtractAux.

(** ** The rest of the script: the log locator and [main]

    What the script does to its surroundings is kept as data.  The file
    system is a [world]: the home directory that [os.path.expanduser]
    returns, the directory listings and the contents of the files; a
    missing directory or file is [None] and makes the call raise
    [OSError].  The world does not change while [main] runs.  What [main]
    does is a list of [event]s, in order: the calls of [print] with their
    arguments, and of the calls into matplotlib the ones that draw, show,
    save or close a figure (titles, axis labels and date formats are left
    out; matplotlib itself is not modelled and does not raise). *)

Module StrMore.
Import Str.

(** [s.endswith(p)] *)
Fixpoint endswith (s p : string) : bool :=
  if String.eqb s p then true
  else match s with
       | EmptyString => false
       | String _ s' => endswith s' p
       end.

(** [c * n] *)
Fixpoint replicate (n : nat) (c : ascii) : string :=
  match n with
  | O => EmptyString
  | S n' => String c (replicate n' c)
  end.

(** [s.center(width, fillchar)], as in CPython's [unicode_center_impl]. *)
Definition center (s : string) (width : nat) (fillchar : ascii) : string :=
  if (width <=? String.length s)%nat then s
  else
    let marg := (width - String.length s)%nat in
    let left := (marg / 2 + Nat.land (Nat.land marg width) 1)%nat in
    (replicate left fillchar ++ s ++ replicate (marg - left) fillchar)%string.

End StrMore.

(** [posixpath.join] *)
Module Posixpath.
Import Str StrMore.

(** One round of the loop over the later components. *)
Definition join_step (path b : string) : string :=
  if startswith b "/" then b
  else if String.eqb path "" || endswith path "/" then (path ++ b)%string
  else (path ++ "/" ++ b)%string.

Definition join (a : string) (p : list string) : string :=
  fold_left join_step p a.

End Posixpath.

(** [pathlib.Path] on a POSIX system, built from one string.  The drive is
    always empty there and is left out. *)
Module Pathlib.
Import Str FormatAux.

Record path : Type := mk_path {
  _root : string;
  _parts : list string
}.

(** [_PosixFlavour.splitroot]: the root and the rest. *)
Definition splitroot (part : string) : string * string :=
  match part with
  | String c _ =>
      if Ascii.eqb c "/" then
        let stripped_part := lstrip "/" part in
        if (String.length part - String.length stripped_part =? 2)%nat
        then ("//", stripped_part)
        else ("/", stripped_part)
      else (EmptyString, part)
  | EmptyString => (EmptyString, part)
  end%string.

(** [x and x != '.'] *)
Definition kept (x : string) : bool :=
  negb (String.eqb x "") && negb (String.eqb x ".").

(** [_Flavour.parse_parts] for a single part. *)
Definition parse_parts (part : string) : string * list string :=
  if String.eqb part "" then (EmptyString, [])
  else
    let '(root, rel) := splitroot part in
    let parsed :=
      if has_char "/" rel then filter kept (rev (split "/" rel))
      else if kept rel then [rel] else [] in
    let parsed := if String.eqb root "" then parsed else parsed ++ [root] in
    (root, rev parsed).

Definition Path (s : string) : path :=
  let '(root, parts) := parse_parts s in mk_path root parts.

(** [p.parent] *)
Definition parent (p : path) : path :=
  if (List.length (_parts p) =? 1)%nat && negb (String.eqb (_root p) "")
  then p
  else mk_path (_root p) (removelast (_parts p)).

(** [p.name] *)
Definition name (p : path) : string :=
  if (List.length (_parts p)
      =? (if String.eqb (_root p) "" then 0 else 1))%nat
  then EmptyString
  else last (_parts p) EmptyString.

End Pathlib.

Module LogProcessMain.
Import Datetime Str StrMore Posixpath Dict LogProcess.

Record world : Type := mk_world {
  home : string;
  listdir : string -> option (list string);
  open_ : string -> option file
}.

Inductive failure : Type :=
| OSError
| LogError (e : exn).

(** How a run ends: it returns, it raises, or it is still going when the
    fuel is used up. *)
Inductive ending (A : Type) : Type :=
| Return (a : A)
| Throw (e : failure)
| Spin.
Arguments Return {A} a.
Arguments Throw {A} e.
Arguments Spin {A}.

Inductive value : Type :=
| VStr (s : string)
| VDatetime (d : datetime)
| VInt (n : Z).

Inductive event : Type :=
| Print (args : list value)
| Plot (times : list datetime) (activity : list Z)
| Show
| Savefig (fname : string)
| Close.

Definition CODE_SERVER_LOG_PATH (w : world) : string :=
  (home w ++ "/.local/share/code-server/logs")%string.

Definition get_exthost_log_paths (w : world) : ending (list string) :=
  match listdir w (CODE_SERVER_LOG_PATH w) with
  | None => Throw OSError
  | Some log_dir_names =>
      Return (map (fun log_dir_name =>
                     join (CODE_SERVER_LOG_PATH w)
                          [log_dir_name; "extension-host/exthost.log"%string])
                  log_dir_names)
  end.

(** [get_log_activity_interval] called with a path: the interval is turned
    into a [timedelta] first, then the file is opened. *)
Definition get_log_activity_interval_at (fuel : nat) (w : world)
    (log_path : string) (interval : interval) : ending dict :=
  match timedelta_of interval with
  | Raise e => Throw (LogError e)
  | OutOfFuel => Spin
  | Ok _ =>
      match open_ w log_path with
      | None => Throw OSError
      | Some log_file =>
          match get_log_activity_interval fuel log_file interval with
          | Ok h => Return h
          | Raise e => Throw (LogError e)
          | OutOfFuel => Spin
          end
      end
  end.

Definition draw_line_plot_from_time_dict (interval_to_log_activity : dict)
    (view : bool) (save_file : option string) : list event :=
  [Plot (keys interval_to_log_activity) (values interval_to_log_activity)]
  ++ (if view then [Show] else [])
  ++ match save_file with
     | Some f => [Savefig (f ++ "-line")%string]
     | None => []
     end
  ++ [Close].

(** The body of the loop of [main] for one path, up to the call that may
    fail. *)
Definition identifying_folder (log_path : string) : string :=
  Pathlib.name (Pathlib.parent (Pathlib.parent (Pathlib.Path log_path))).

Definition print_item (kv : datetime * Z) : event :=
  Print [VDatetime (fst kv); VStr ":"; VInt (snd kv)].

Fixpoint main_loop (fuel : nat) (w : world) (log_paths : list string)
    : list event * ending unit :=
  match log_paths with
  | [] => ([], Return tt)
  | log_path :: rest =>
      let banner := Print [VStr (center (identifying_folder log_path) 50 "=")] in
      match get_log_activity_interval_at fuel w log_path default_interval with
      | Return interval_to_log_activity =>
          let '(later, e) := main_loop fuel w rest in
          (banner :: map print_item interval_to_log_activity
             ++ draw_line_plot_from_time_dict
                  interval_to_log_activity false
                  (Some (identifying_folder log_path))
             ++ later, e)
      | Throw e => ([banner], Throw e)
      | Spin => ([banner], Spin)
      end
  end.

Definition main (fuel : nat) (w : world) : list event * ending unit :=
  match get_exthost_log_paths w with
  | Return log_paths => main_loop fuel w log_paths
  | Throw e => ([], Throw e)
  | Spin => ([], Spin)
  end.

End LogProcessMain.

Module MainAux.
Import Datetime Str StrMore FormatAux Dict LogProcess LogProcessMain.

(** A directory entry as [os.listdir] gives them: not empty, without a
    slash, and not the entry of the directory itself. *)
Definition entry_name (n : string) : bool :=
  negb (String.eqb n "") && negb (String.eqb n ".") && negb (has_char "/" n).

Definition log_path_of (w : world) (n : string) : string :=
  (CODE_SERVER_LOG_PATH w ++ "/" ++ n ++ "/extension-host/exthost.log")%string.


End MainAux.

(** ** The labels of the bar plot *)

Module BarPlot.
Import Datetime FormatAux Dict.

(** [timing.time().isoformat()]: the time of day of a datetime as
    [HH:MM:SS], followed by a point and six digits when the microseconds
    are not zero.  The fields of a datetime are within their ranges, where
    the formats [%02d] and [%06d] give exactly two and six digits. *)
Definition time_isoformat (timing : datetime) : string :=
  (pad 2 (hour timing) ++ ":" ++ pad 2 (minute timing) ++ ":"
   ++ pad 2 (second timing)
   ++ (if Z.eqb (microsecond timing) 0 then EmptyString
       else "." ++ pad 6 (microsecond timing)))%string.

(** [times] in [draw_bar_plot_from_time_dict]: the labels of the bars. *)
Definition times (interval_to_log_activity : dict) : list string :=
  map time_isoformat (keys interval_to_log_activity).

End BarPlot.

(** * Properties *)

(** [Forall P l] for an explicit list [l], one element at a time. *)
Ltac forall_cases tac :=
  repeat (apply Forall_cons; [tac|]); apply Forall_nil.

(** ** The proleptic Gregorian calendar *)

Module CalendarFacts.
Import Calendar CalendarAux.

Lemma is_leap_cases (y : Z) :
  _is_leap y = true <-> (y mod 4 = 0 /\ (y mod 100 <> 0 \/ y mod 400 = 0)).
Proof.
  unfold _is_leap.
  rewrite andb_true_iff, orb_true_iff, negb_true_iff, !Z.eqb_eq, Z.eqb_neq.
  tauto.
Qed.

Lemma days_before_year_succ (y : Z) :
  _days_before_year (y + 1)
  = _days_before_year y + 365 + (if _is_leap y then 1 else 0).
Proof.
  unfold _days_before_year.
  destruct (_is_leap y) eqn:L.
  - apply is_leap_cases in L. Z.div_mod_to_equations. lia.
  - assert (N : ~ (y mod 4 = 0 /\ (y mod 100 <> 0 \/ y mod 400 = 0))).
    { rewrite <- is_leap_cases. congruence. }
    Z.div_mod_to_equations. lia.
Qed.

Lemma days_before_year_mono (y y' : Z) :
  y <= y' -> _days_before_year y <= _days_before_year y'.
Proof.
  unfold _days_before_year. intros H. Z.div_mod_to_equations. lia.
Qed.

Lemma in_zrange (k : nat) (n : Z) : 0 <= n < Z.of_nat k -> In n (zrange k).
Proof.
  intros H. unfold zrange. apply in_map_iff. exists (Z.to_nat n). split.
  - lia.
  - apply in_seq. lia.
Qed.

Lemma month_day_table :
  forallb (fun n => month_day_ok false n && month_day_ok true n) (zrange 365) = true.
Proof. vm_compute. reflexivity. Qed.

Lemma month_day_spec (leapyear : bool) (n : Z) :
  0 <= n < 365 ->
  let '(m, d) := month_day leapyear n in
  1 <= m <= 12 /\ 1 <= d <= dim_of leapyear m /\ dbm_of leapyear m + d = n + 1.
Proof.
  intros H.
  pose proof (proj1 (forallb_forall _ _) month_day_table n (in_zrange 365 n H)) as T.
  apply andb_true_iff in T. destruct T as [Tf Tt].
  assert (T : month_day_ok leapyear n = true) by (destruct leapyear; assumption).
  unfold month_day_ok in T. destruct (month_day leapyear n) as [m d].
  rewrite !andb_true_iff in T. lia.
Qed.

Lemma ord2ymd_unfold (n : Z) :
  _ord2ymd n =
  let n0 := n - 1 in
  let n400 := n0 / 146097 in
  let r400 := n0 mod 146097 in
  let n100 := r400 / 36524 in
  let r100 := r400 mod 36524 in
  let n4 := r100 / 1461 in
  let r4 := r100 mod 1461 in
  let n1 := r4 / 365 in
  let r1 := r4 mod 365 in
  let year := n400 * 400 + 1 + (n100 * 100 + n4 * 4 + n1) in
  if (n1 =? 4) || (n100 =? 4) then (year - 1, 12, 31)
  else
    let '(m, d) := month_day ((n1 =? 3) && (negb (n4 =? 24) || (n100 =? 3))) r1 in
    (year, m, d).
Proof.
  unfold _ord2ymd, month_day, _DI400Y, _DI100Y, _DI4Y. cbv zeta.
  destruct (_ || _); [reflexivity|].
  destruct (_ <? _); reflexivity.
Qed.

Lemma ord2ymd_sound (n : Z) :
  1 <= n ->
  let '(y, m, d) := _ord2ymd n in
  1 <= y /\ 1 <= m <= 12 /\ 1 <= d <= _days_in_month y m /\ _ymd2ord y m d = n.
Proof.
  intros Hn. rewrite ord2ymd_unfold. cbv zeta.
  set (n0 := n - 1).
  set (n400 := n0 / 146097). set (r400 := n0 mod 146097).
  set (n100 := r400 / 36524). set (r100 := r400 mod 36524).
  set (n4 := r100 / 1461). set (r4 := r100 mod 1461).
  set (n1 := r4 / 365). set (r1 := r4 mod 365).
  assert (E400 : n0 = 146097 * n400 + r400 /\ 0 <= r400 < 146097)
    by (subst n400 r400; split; [apply Z.div_mod; lia | apply Z.mod_pos_bound; lia]).
  assert (E100 : r400 = 36524 * n100 + r100 /\ 0 <= r100 < 36524)
    by (subst n100 r100; split; [apply Z.div_mod; lia | apply Z.mod_pos_bound; lia]).
  assert (E4 : r100 = 1461 * n4 + r4 /\ 0 <= r4 < 1461)
    by (subst n4 r4; split; [apply Z.div_mod; lia | apply Z.mod_pos_bound; lia]).
  assert (E1 : r4 = 365 * n1 + r1 /\ 0 <= r1 < 365)
    by (subst n1 r1; split; [apply Z.div_mod; lia | apply Z.mod_pos_bound; lia]).
  assert (0 <= n400) by (subst n400; apply Z.div_pos; lia).
  assert (N0 : n = n0 + 1) by (subst n0; lia).
  clearbody n0 n400 r400 n100 r100 n4 r4 n1 r1.
  destruct ((n1 =? 4) || (n100 =? 4)) eqn:Sp.
  - apply orb_true_iff in Sp. rewrite !Z.eqb_eq in Sp.
    set (y := n400 * 400 + 1 + (n100 * 100 + n4 * 4 + n1) - 1).
    assert (Y : y = 400 * n400 + 100 * n100 + 4 * n4 + n1) by (subst y; lia).
    clearbody y.
    assert (L : _is_leap y = true).
    { apply is_leap_cases. Z.div_mod_to_equations. lia. }
    unfold _days_in_month, _ymd2ord, _days_before_month, _days_before_year.
    rewrite L.
    change (index _DAYS_IN_MONTH 12) with 31.
    change (index _DAYS_BEFORE_MONTH 12) with 334.
    change ((12 =? 2) && true) with false.
    change ((2 <? 12) && true) with true. cbv iota.
    repeat split; try lia.
    Z.div_mod_to_equations; lia.
  - apply orb_false_iff in Sp. rewrite !Z.eqb_neq in Sp.
    set (y := n400 * 400 + 1 + (n100 * 100 + n4 * 4 + n1)).
    assert (Y : y = 400 * n400 + 100 * n100 + 4 * n4 + n1 + 1) by (subst y; lia).
    clearbody y.
    set (lp := (n1 =? 3) && (negb (n4 =? 24) || (n100 =? 3))).
    assert (L : _is_leap y = lp).
    { subst lp. destruct (_is_leap y) eqn:L.
      - apply is_leap_cases in L. symmetry.
        rewrite andb_true_iff, orb_true_iff, negb_true_iff, !Z.eqb_eq, Z.eqb_neq.
        Z.div_mod_to_equations. lia.
      - assert (N : ~ (y mod 4 = 0 /\ (y mod 100 <> 0 \/ y mod 400 = 0))).
        { rewrite <- is_leap_cases. congruence. }
        symmetry. apply not_true_is_false. intros T. apply N.
        rewrite andb_true_iff, orb_true_iff, negb_true_iff, !Z.eqb_eq, Z.eqb_neq in T.
        Z.div_mod_to_equations. lia. }
    pose proof (month_day_spec lp r1 (proj2 E1)) as M.
    destruct (month_day lp r1) as [m d].
    unfold _days_in_month, _ymd2ord, _days_before_month, _days_before_year.
    rewrite L. unfold dim_of, dbm_of in M.
    repeat split; try lia.
    Z.div_mod_to_equations. lia.
Qed.



Lemma days_in_month_dim_of (y m : Z) : _days_in_month y m = dim_of (_is_leap y) m.
Proof. reflexivity. Qed.

Lemma days_before_month_dbm_of (y m : Z) :
  _days_before_month y m = dbm_of (_is_leap y) m.
Proof. reflexivity. Qed.

Lemma month_order_table :
  forallb (fun m => (m =? 0) || (month_order_ok false m && month_order_ok true m))
          (zrange 13) = true.
Proof. vm_compute. reflexivity. Qed.

Lemma month_order (lp : bool) (m : Z) :
  1 <= m <= 12 ->
  0 <= dbm_of lp m
  /\ dbm_of lp m + dim_of lp m <= 365 + (if lp then 1 else 0)
  /\ forall m', m < m' <= 12 -> dbm_of lp m + dim_of lp m <= dbm_of lp m'.
Proof.
  intros H.
  pose proof (proj1 (forallb_forall _ _) month_order_table m
                    (in_zrange 13 m ltac:(lia))) as T.
  apply orb_true_iff in T. destruct T as [T | T]; [lia|].
  apply andb_true_iff in T.
  assert (T' : month_order_ok lp m = true) by (destruct lp; tauto).
  unfold month_order_ok in T'. rewrite !andb_true_iff in T'.
  destruct T' as [[A B] C]. repeat split; try lia.
  intros m' Hm'.
  pose proof (proj1 (forallb_forall _ _) C m' (in_zrange 13 m' ltac:(lia))) as D.
  apply orb_true_iff in D. lia.
Qed.

(** The ordinal is strictly monotone for the lexicographic order on
    well-formed dates. *)
Lemma ymd2ord_lt_year (y m d y' m' d' : Z) :
  1 <= m <= 12 -> 1 <= d <= _days_in_month y m ->
  1 <= m' <= 12 -> 1 <= d' <= _days_in_month y' m' ->
  y < y' -> _ymd2ord y m d < _ymd2ord y' m' d'.
Proof.
  intros Hm Hd Hm' Hd' Hy. unfold _ymd2ord.
  rewrite days_in_month_dim_of in Hd, Hd'. rewrite !days_before_month_dbm_of.
  pose proof (month_order (_is_leap y) m Hm) as [_ [U _]].
  pose proof (month_order (_is_leap y') m' Hm') as [L _].
  pose proof (days_before_year_succ y) as S.
  pose proof (days_before_year_mono (y + 1) y' ltac:(lia)) as M.
  destruct (_is_leap y); lia.
Qed.

Lemma ymd2ord_lt_month (y m d m' d' : Z) :
  1 <= m <= 12 -> 1 <= d <= _days_in_month y m ->
  1 <= m' <= 12 -> 1 <= d' <= _days_in_month y m' ->
  m < m' -> _ymd2ord y m d < _ymd2ord y m' d'.
Proof.
  intros Hm Hd Hm' Hd' Hlt. unfold _ymd2ord.
  rewrite days_in_month_dim_of in Hd, Hd'. rewrite !days_before_month_dbm_of.
  pose proof (month_order (_is_leap y) m Hm) as [_ [_ U]].
  specialize (U m' ltac:(lia)). lia.
Qed.

Lemma ymd2ord_inj (y m d y' m' d' : Z) :
  1 <= m <= 12 -> 1 <= d <= _days_in_month y m ->
  1 <= m' <= 12 -> 1 <= d' <= _days_in_month y' m' ->
  _ymd2ord y m d = _ymd2ord y' m' d' -> y = y' /\ m = m' /\ d = d'.
Proof.
  intros Hm Hd Hm' Hd' E.
  assert (y = y').
  { destruct (Z.lt_trichotomy y y') as [H | [H | H]]; [|assumption|].
    - pose proof (ymd2ord_lt_year y m d y' m' d' Hm Hd Hm' Hd' H). lia.
    - pose proof (ymd2ord_lt_year y' m' d' y m d Hm' Hd' Hm Hd H). lia. }
  subst y'.
  assert (m = m').
  { destruct (Z.lt_trichotomy m m') as [H | [H | H]]; [|assumption|].
    - pose proof (ymd2ord_lt_month y m d m' d' Hm Hd Hm' Hd' H). lia.
    - pose proof (ymd2ord_lt_month y m' d' m d Hm' Hd' Hm Hd H). lia. }
  subst m'. unfold _ymd2ord in E. repeat split; lia.
Qed.

Lemma ymd2ord_pos (y m d : Z) :
  1 <= y -> 1 <= m <= 12 -> 1 <= d <= _days_in_month y m -> 1 <= _ymd2ord y m d.
Proof.
  intros Hy Hm Hd. unfold _ymd2ord.
  rewrite days_in_month_dim_of in Hd. rewrite days_before_month_dbm_of.
  pose proof (month_order (_is_leap y) m Hm) as [L _].
  pose proof (days_before_year_mono 1 y Hy) as M.
  change (_days_before_year 1) with 0 in M. lia.
Qed.

Lemma ymd2ord_max (y m d : Z) :
  y <= MAXYEAR -> 1 <= m <= 12 -> 1 <= d <= _days_in_month y m ->
  _ymd2ord y m d <= _MAXORDINAL.
Proof.
  intros Hy Hm Hd. unfold _ymd2ord.
  rewrite days_in_month_dim_of in Hd. rewrite days_before_month_dbm_of.
  pose proof (month_order (_is_leap y) m Hm) as [_ [U _]].
  pose proof (days_before_year_succ y) as S.
  pose proof (days_before_year_mono (y + 1) 10000 ltac:(unfold MAXYEAR in Hy; lia)) as M.
  change (_days_before_year 10000) with 3652059 in M.
  unfold _MAXORDINAL. destruct (_is_leap y); lia.
Qed.

Lemma ord2ymd_ymd2ord (y m d : Z) :
  1 <= y -> 1 <= m <= 12 -> 1 <= d <= _days_in_month y m ->
  _ord2ymd (_ymd2ord y m d) = (y, m, d).
Proof.
  intros Hy Hm Hd.
  pose proof (ord2ymd_sound _ (ymd2ord_pos y m d Hy Hm Hd)) as S.
  destruct (_ord2ymd (_ymd2ord y m d)) as [[y' m'] d'].
  destruct S as [_ [Hm' [Hd' E]]].
  destruct (ymd2ord_inj _ _ _ _ _ _ Hm' Hd' Hm Hd E) as [-> [-> ->]].
  reflexivity.
Qed.

Lemma ord2ymd_year_max (n : Z) :
  1 <= n <= _MAXORDINAL -> fst (fst (_ord2ymd n)) <= MAXYEAR.
Proof.
  intros Hn. pose proof (ord2ymd_sound n (proj1 Hn)) as S.
  destruct (_ord2ymd n) as [[y m] d]. cbn [fst].
  destruct S as [Hy [Hm [Hd E]]].
  destruct (Z_le_gt_dec y MAXYEAR) as [|G]; [assumption|exfalso].
  unfold _ymd2ord in E. rewrite days_in_month_dim_of in Hd.
  rewrite days_before_month_dbm_of in E.
  pose proof (month_order (_is_leap y) m Hm) as [L _].
  pose proof (days_before_year_mono 10000 y ltac:(unfold MAXYEAR in G; lia)) as M.
  change (_days_before_year 10000) with 3652059 in M.
  unfold _MAXORDINAL in Hn. lia.
Qed.

End CalendarFacts.

(** ** Arithmetic on [datetime] and [timedelta] *)

Module DatetimeFacts.
Import Calendar CalendarFacts Datetime TimeAux.

Lemma valid_date_iff (y m d : Z) :
  valid_date y m d = true
  <-> 1 <= y <= 9999 /\ 1 <= m <= 12 /\ 1 <= d <= _days_in_month y m.
Proof.
  unfold valid_date, MINYEAR, MAXYEAR. rewrite !andb_true_iff, !Z.leb_le. tauto.
Qed.

Lemma valid_time_iff (hh mm ss us : Z) :
  valid_time hh mm ss us = true
  <-> 0 <= hh <= 23 /\ 0 <= mm <= 59 /\ 0 <= ss <= 59 /\ 0 <= us <= 999999.
Proof.
  unfold valid_time. rewrite !andb_true_iff, !Z.leb_le. tauto.
Qed.

Lemma valid_datetime_iff (t : datetime) :
  valid_datetime t = true
  <-> (1 <= year t <= 9999 /\ 1 <= month t <= 12
       /\ 1 <= day t <= _days_in_month (year t) (month t))
      /\ (0 <= hour t <= 23 /\ 0 <= minute t <= 59 /\ 0 <= second t <= 59
          /\ 0 <= microsecond t <= 999999).
Proof.
  unfold valid_datetime. rewrite andb_true_iff, valid_date_iff, valid_time_iff.
  tauto.
Qed.

Lemma datetime_new_ok (y m d hh mm ss us : Z) :
  valid_date y m d = true -> valid_time hh mm ss us = true ->
  datetime_new y m d hh mm ss us = Ok (mk_datetime y m d hh mm ss us).
Proof. intros D T. unfold datetime_new. rewrite D, T. reflexivity. Qed.

Lemma datetime_new_valid (y m d hh mm ss us : Z) (t : datetime) :
  datetime_new y m d hh mm ss us = Ok t ->
  t = mk_datetime y m d hh mm ss us /\ valid_datetime t = true.
Proof.
  unfold datetime_new. destruct (valid_date y m d && valid_time hh mm ss us) eqn:V.
  - intros [= <-]. split; [reflexivity | exact V].
  - discriminate.
Qed.

Lemma toordinal_bounds (t : datetime) :
  valid_datetime t = true -> 1 <= toordinal t <= _MAXORDINAL.
Proof.
  intros V. apply valid_datetime_iff in V. destruct V as [[Y [M D]] _].
  unfold toordinal. split.
  - apply ymd2ord_pos; lia.
  - apply ymd2ord_max; unfold MAXYEAR; lia.
Qed.

Lemma ticks_split (t : datetime) :
  valid_datetime t = true ->
  ticks t / US_PER_DAY = toordinal t
  /\ ticks t mod US_PER_DAY
     = (hour t * 3600 + minute t * 60 + second t) * US_PER_SECOND + microsecond t.
Proof.
  intros V. apply valid_datetime_iff in V. destruct V as [_ T].
  unfold ticks, US_PER_DAY, US_PER_SECOND. Z.div_mod_to_equations. lia.
Qed.

Lemma ticks_in_range (t : datetime) :
  valid_datetime t = true -> in_range (ticks t) = true.
Proof.
  intros V. pose proof (toordinal_bounds t V) as B.
  apply valid_datetime_iff in V. destruct V as [_ T].
  unfold in_range, ticks, US_PER_DAY, US_PER_SECOND, _MAXORDINAL in *.
  apply andb_true_iff. rewrite Z.leb_le, Z.ltb_lt. lia.
Qed.

Lemma ticks_inj (a b : datetime) :
  valid_datetime a = true -> valid_datetime b = true ->
  ticks a = ticks b -> a = b.
Proof.
  intros Va Vb E.
  pose proof (ticks_split a Va) as [Da Ra].
  pose proof (ticks_split b Vb) as [Db Rb].
  rewrite E in Da, Ra. rewrite Da in Db. rewrite Ra in Rb.
  apply valid_datetime_iff in Va, Vb.
  destruct Va as [[Ya [Ma Dya]] Ta], Vb as [[Yb [Mb Dyb]] Tb].
  unfold toordinal in Db.
  destruct (ymd2ord_inj _ _ _ _ _ _ Ma Dya Mb Dyb Db) as [Ey [Em Ed]].
  destruct a, b; cbn in *. subst.
  unfold US_PER_SECOND in Rb.
  assert (hour0 = hour1 /\ minute0 = minute1 /\ second0 = second1
          /\ microsecond0 = microsecond1) as [-> [-> [-> ->]]] by lia.
  reflexivity.
Qed.

Lemma timedelta_new_basic (d s u : Z) :
  timedelta_new d s u 0 0 0 0
  = if 999999999 <? Z.abs ((d * US_PER_DAY + s * US_PER_SECOND + u) / US_PER_DAY)
    then Raise OverflowError
    else Ok (mk_timedelta (d * US_PER_DAY + s * US_PER_SECOND + u)).
Proof.
  unfold timedelta_new.
  replace ((((0 * 7 + d) * 24 + 0) * 3600 + 0 * 60 + s) * US_PER_SECOND + 0 * 1000 + u)
    with (d * US_PER_DAY + s * US_PER_SECOND + u)
    by (unfold US_PER_DAY, US_PER_SECOND; lia).
  reflexivity.
Qed.

Lemma timedelta_parts (a : timedelta) :
  td_days a * US_PER_DAY + td_seconds a * US_PER_SECOND + td_microseconds a
  = _to_microseconds a.
Proof.
  unfold td_days, td_seconds, td_microseconds, US_PER_DAY, US_PER_SECOND.
  Z.div_mod_to_equations. lia.
Qed.

Lemma timedelta_add_spec (a b : timedelta) :
  timedelta_add a b
  = let us := _to_microseconds a + _to_microseconds b in
    if 999999999 <? Z.abs (us / US_PER_DAY) then Raise OverflowError
    else Ok (mk_timedelta us).
Proof.
  unfold timedelta_add. rewrite timedelta_new_basic. cbv zeta.
  replace ((td_days a + td_days b) * US_PER_DAY
           + (td_seconds a + td_seconds b) * US_PER_SECOND
           + (td_microseconds a + td_microseconds b))
    with (_to_microseconds a + _to_microseconds b)
    by (rewrite <- (timedelta_parts a), <- (timedelta_parts b); lia).
  reflexivity.
Qed.

Lemma timedelta_mul_spec (a : timedelta) (i : Z) :
  timedelta_mul a i
  = let us := _to_microseconds a * i in
    if 999999999 <? Z.abs (us / US_PER_DAY) then Raise OverflowError
    else Ok (mk_timedelta us).
Proof.
  unfold timedelta_mul. rewrite timedelta_new_basic. cbv zeta.
  replace (td_days a * i * US_PER_DAY + td_seconds a * i * US_PER_SECOND
           + td_microseconds a * i)
    with (_to_microseconds a * i)
    by (rewrite <- (timedelta_parts a) at 1; lia).
  reflexivity.
Qed.


Lemma in_range_iff (s : Z) :
  in_range s = true <-> 1 <= s / US_PER_DAY <= _MAXORDINAL.
Proof.
  unfold in_range, US_PER_DAY, _MAXORDINAL.
  rewrite andb_true_iff, Z.leb_le, Z.ltb_lt.
  Z.div_mod_to_equations. lia.
Qed.

Lemma datetime_add_start (self : datetime) :
  valid_datetime self = true ->
  timedelta_new (toordinal self) (second self) (microsecond self)
                0 (minute self) (hour self) 0
  = Ok (mk_timedelta (ticks self)).
Proof.
  intros V. pose proof (ticks_in_range self V) as R.
  apply in_range_iff in R.
  unfold timedelta_new.
  replace ((((0 * 7 + toordinal self) * 24 + hour self) * 3600
            + minute self * 60 + second self) * US_PER_SECOND
           + 0 * 1000 + microsecond self)
    with (ticks self) by (unfold ticks; lia).
  destruct (999999999 <? Z.abs (ticks self / US_PER_DAY)) eqn:O; [|reflexivity].
  apply Z.ltb_lt in O. unfold _MAXORDINAL in R. lia.
Qed.

Lemma of_ticks_spec (s : Z) :
  in_range s = true ->
  valid_datetime (of_ticks s) = true /\ ticks (of_ticks s) = s.
Proof.
  intros R. apply in_range_iff in R. unfold of_ticks.
  pose proof (ord2ymd_sound (s / US_PER_DAY) (proj1 R)) as S.
  pose proof (ord2ymd_year_max (s / US_PER_DAY) R) as Y.
  destruct (_ord2ymd (s / US_PER_DAY)) as [[y m] d]. cbn [fst] in Y.
  destruct S as [Hy [Hm [Hd E]]]. cbv zeta.
  set (secs := s mod US_PER_DAY / US_PER_SECOND).
  assert (Hsecs : 0 <= secs < 86400).
  { subst secs. unfold US_PER_DAY, US_PER_SECOND. Z.div_mod_to_equations. lia. }
  assert (Hus : s mod US_PER_DAY = secs * US_PER_SECOND + s mod US_PER_SECOND).
  { subst secs. unfold US_PER_DAY, US_PER_SECOND. Z.div_mod_to_equations. lia. }
  assert (Hu : 0 <= s mod US_PER_SECOND < 1000000)
    by (apply Z.mod_pos_bound; unfold US_PER_SECOND; lia).
  assert (VD : valid_date y m d = true)
    by (apply valid_date_iff; unfold MAXYEAR in Y; lia).
  assert (VT : valid_time (secs / 3600) (secs mod 3600 / 60) (secs mod 3600 mod 60)
                          (s mod US_PER_SECOND) = true).
  { apply valid_time_iff. Z.div_mod_to_equations. lia. }
  split.
  - unfold valid_datetime. cbn [year month day hour minute second microsecond].
    rewrite VD, VT. reflexivity.
  - unfold ticks, toordinal. cbn [year month day hour minute second microsecond].
    rewrite E.
    pose proof (Z.div_mod s US_PER_DAY ltac:(unfold US_PER_DAY; lia)) as DM.
    rewrite Hus in DM. clearbody secs.
    unfold US_PER_DAY, US_PER_SECOND in *. Z.div_mod_to_equations. lia.
Qed.

Lemma of_ticks_ticks (t : datetime) :
  valid_datetime t = true -> of_ticks (ticks t) = t.
Proof.
  intros V. pose proof (of_ticks_spec _ (ticks_in_range t V)) as [V' E].
  apply ticks_inj; assumption.
Qed.

Lemma datetime_add_finish (s : Z) :
  in_range s = true ->
  (let '(y, m, d) := _ord2ymd (s / US_PER_DAY) in
    datetime_new y m d (s mod US_PER_DAY / US_PER_SECOND / 3600)
      ((s mod US_PER_DAY / US_PER_SECOND) mod 3600 / 60)
      (((s mod US_PER_DAY / US_PER_SECOND) mod 3600) mod 60)
      (s mod US_PER_SECOND)) =
  Ok (of_ticks s).
Proof.
  intros R.
  pose proof (of_ticks_spec s R) as [V' _].
  unfold of_ticks in *. destruct (_ord2ymd (s / US_PER_DAY)) as [[y m] d].
  cbv zeta in V'. unfold valid_datetime in V'.
  cbn [year month day hour minute second microsecond] in V'.
  unfold datetime_new. rewrite V'. reflexivity.
Qed.

Lemma datetime_add_ok (self : datetime) (other : timedelta) :
  valid_datetime self = true ->
  in_range (ticks self + _to_microseconds other) = true ->
  datetime_add self other = Ok (of_ticks (ticks self + _to_microseconds other)).
Proof.
  intros V R. unfold datetime_add.
  rewrite (datetime_add_start self V). cbn [bind].
  rewrite timedelta_add_spec. cbn [_to_microseconds]. cbv zeta.
  set (s := ticks self + _to_microseconds other) in *. clearbody s.
  rewrite <- (datetime_add_finish s R).
  apply in_range_iff in R.
  destruct (999999999 <? Z.abs (s / US_PER_DAY)) eqn:O.
  { apply Z.ltb_lt in O. unfold _MAXORDINAL in R. lia. }
  cbn [bind]. unfold td_days, td_seconds, td_microseconds. cbn [_to_microseconds].
  replace ((0 <? s / US_PER_DAY) && (s / US_PER_DAY <=? _MAXORDINAL)) with true
    by (symmetry; apply andb_true_iff; rewrite Z.ltb_lt, Z.leb_le; lia).
  reflexivity.
Qed.

Lemma datetime_add_overflow (self : datetime) (other : timedelta) :
  valid_datetime self = true ->
  in_range (ticks self + _to_microseconds other) = false ->
  datetime_add self other = Raise OverflowError.
Proof.
  intros V R. unfold datetime_add.
  rewrite (datetime_add_start self V). cbn [bind].
  rewrite timedelta_add_spec. cbn [_to_microseconds]. cbv zeta.
  set (s := ticks self + _to_microseconds other) in *. clearbody s.
  destruct (999999999 <? Z.abs (s / US_PER_DAY)); [reflexivity|].
  cbn [bind]. unfold td_days. cbn [_to_microseconds].
  destruct ((0 <? s / US_PER_DAY) && (s / US_PER_DAY <=? _MAXORDINAL)) eqn:B;
    [|reflexivity].
  apply andb_true_iff in B. rewrite Z.ltb_lt, Z.leb_le in B.
  assert (in_range s = true) by (apply in_range_iff; lia). congruence.
Qed.

Lemma datetime_add_spec (self : datetime) (other : timedelta) :
  valid_datetime self = true ->
  datetime_add self other
  = if in_range (ticks self + _to_microseconds other)
    then Ok (of_ticks (ticks self + _to_microseconds other))
    else Raise OverflowError.
Proof.
  intros V. destruct (in_range _) eqn:R.
  - apply datetime_add_ok; assumption.
  - apply datetime_add_overflow; assumption.
Qed.

Lemma datetime_sub_spec (a b : datetime) :
  valid_datetime a = true -> valid_datetime b = true ->
  datetime_sub a b = Ok (mk_timedelta (ticks a - ticks b)).
Proof.
  intros Va Vb. unfold datetime_sub. cbv zeta. rewrite timedelta_new_basic.
  pose proof (ticks_in_range a Va) as Ra. pose proof (ticks_in_range b Vb) as Rb.
  replace ((toordinal a - toordinal b) * US_PER_DAY
           + (second a + minute a * 60 + hour a * 3600
              - (second b + minute b * 60 + hour b * 3600)) * US_PER_SECOND
           + (microsecond a - microsecond b))
    with (ticks a - ticks b)
    by (unfold ticks, US_PER_DAY, US_PER_SECOND; lia).
  destruct (999999999 <? Z.abs ((ticks a - ticks b) / US_PER_DAY)) eqn:O;
    [|reflexivity].
  apply Z.ltb_lt in O.
  unfold in_range, US_PER_DAY, _MAXORDINAL in *.
  rewrite andb_true_iff, Z.leb_le, Z.ltb_lt in Ra, Rb.
  Z.div_mod_to_equations. lia.
Qed.

Lemma timedelta_mod_spec (a b : timedelta) :
  _to_microseconds b <> 0 -> valid_timedelta b = true ->
  timedelta_mod a b = Ok (mk_timedelta (_to_microseconds a mod _to_microseconds b)).
Proof.
  intros NZ B. unfold valid_timedelta in B. apply Z.leb_le in B.
  unfold timedelta_mod, py_mod.
  destruct (_to_microseconds b =? 0) eqn:Z0; [apply Z.eqb_eq in Z0; lia|].
  cbn [bind]. rewrite timedelta_new_basic.
  replace (0 * US_PER_DAY + 0 * US_PER_SECOND
           + _to_microseconds a mod _to_microseconds b)
    with (_to_microseconds a mod _to_microseconds b) by lia.
  destruct (999999999 <? _) eqn:O; [|reflexivity].
  apply Z.ltb_lt in O.
  pose proof (Z.mod_bound_or (_to_microseconds a) (_to_microseconds b) NZ) as M.
  unfold US_PER_DAY in *. Z.div_mod_to_equations. lia.
Qed.

Lemma valid_timedelta_new (d s u ms m h w : Z) (t : timedelta) :
  timedelta_new d s u ms m h w = Ok t -> valid_timedelta t = true.
Proof.
  unfold timedelta_new, valid_timedelta. cbv zeta.
  destruct (999999999 <? _) eqn:O; [discriminate|].
  intros [= <-]. cbn [_to_microseconds].
  apply Z.ltb_ge in O. apply Z.leb_le. exact O.
Qed.

Lemma datetime_eqb_eq (a b : datetime) : datetime_eqb a b = true <-> a = b.
Proof.
  unfold datetime_eqb. rewrite !andb_true_iff, !Z.eqb_eq. split.
  - intros H. destruct a, b; cbn in *. f_equal; tauto.
  - intros ->. tauto.
Qed.

Lemma datetime_eqb_refl (a : datetime) : datetime_eqb a a = true.
Proof. apply datetime_eqb_eq. reflexivity. Qed.

Lemma datetime_eqb_neq (a b : datetime) : datetime_eqb a b = false <-> a <> b.
Proof.
  rewrite <- datetime_eqb_eq. destruct (datetime_eqb a b); split; congruence.
Qed.

Lemma tuple_ltb_total (a b : list Z) :
  List.length a = List.length b ->
  tuple_ltb a b = false -> a = b \/ tuple_ltb b a = true.
Proof.
  revert b. induction a as [|x a IH]; intros [|y b] L; try discriminate.
  - intros _. left. reflexivity.
  - cbn. intros H. apply orb_false_iff in H. destruct H as [H1 H2].
    apply Z.ltb_ge in H1.
    destruct (Z.eq_dec x y) as [->|N].
    + rewrite Z.eqb_refl in H2. cbn in H2. injection L as L.
      destruct (IH b L H2) as [->|T].
      * left. reflexivity.
      * right. rewrite T, Z.eqb_refl. apply orb_true_r.
    + right. apply orb_true_iff. left. apply Z.ltb_lt. lia.
Qed.

Lemma datetime_ltb_ticks (a b : datetime) :
  valid_datetime a = true -> valid_datetime b = true ->
  datetime_ltb a b = true -> ticks a < ticks b.
Proof.
  intros Va Vb. apply valid_datetime_iff in Va, Vb.
  destruct Va as [[Ya [Ma Da]] Ta], Vb as [[Yb [Mb Db]] Tb].
  unfold datetime_ltb, fields. cbn [tuple_ltb].
  repeat (rewrite orb_true_iff || rewrite andb_true_iff).
  rewrite !Z.ltb_lt, !Z.eqb_eq.
  unfold ticks, toordinal, US_PER_SECOND.
  intros [H | [E1 [H | [E2 H]]]].
  - pose proof (ymd2ord_lt_year _ _ _ _ _ _ Ma Da Mb Db H). lia.
  - rewrite E1 in *. pose proof (ymd2ord_lt_month _ _ _ _ _ Ma Da Mb Db H). lia.
  - rewrite E1, E2 in *. unfold _ymd2ord.
    destruct H as [H | [E3 [H | [E4 [H | [E5 [H | [E6 [H | [E7 H]]]]]]]]]];
      try discriminate; lia.
Qed.

Lemma datetime_ltb_iff (a b : datetime) :
  valid_datetime a = true -> valid_datetime b = true ->
  datetime_ltb a b = true <-> ticks a < ticks b.
Proof.
  intros Va Vb. split; [apply datetime_ltb_ticks; assumption|].
  intros L. destruct (datetime_ltb a b) eqn:F; [reflexivity|exfalso].
  destruct (tuple_ltb_total (fields a) (fields b) eq_refl F) as [E | T].
  - assert (a = b)
      by (destruct a, b; unfold fields in E; cbn in E; injection E; intros;
          subst; reflexivity).
    subst. lia.
  - pose proof (datetime_ltb_ticks b a Vb Va T). lia.
Qed.

End DatetimeFacts.

(** ** Dictionaries *)

Module DictFacts.
Import Datetime DatetimeFacts Dict.

Lemma get_set_same (k : datetime) (v : Z) (d : dict) :
  get k (set k v d) = Some v.
Proof.
  induction d as [|[k' v'] d IH]; cbn.
  - rewrite datetime_eqb_refl. reflexivity.
  - destruct (datetime_eqb k' k) eqn:E; cbn; rewrite E; [reflexivity | exact IH].
Qed.

Lemma get_set_other (k k' : datetime) (v : Z) (d : dict) :
  k <> k' -> get k' (set k v d) = get k' d.
Proof.
  intros N. induction d as [|[k0 v0] d IH]; cbn.
  - apply datetime_eqb_neq in N. rewrite N. reflexivity.
  - destruct (datetime_eqb k0 k) eqn:E; cbn.
    + apply datetime_eqb_eq in E. subst k0.
      apply datetime_eqb_neq in N. rewrite N. reflexivity.
    + rewrite IH. reflexivity.
Qed.

Lemma total_cons (k : datetime) (v : Z) (d : dict) :
  total ((k, v) :: d) = v + total d.
Proof. reflexivity. Qed.

Lemma total_set (k : datetime) (v : Z) (d : dict) :
  total (set k v d)
  = total d - (match get k d with Some v0 => v0 | None => 0 end) + v.
Proof.
  induction d as [|[k' v'] d IH]; cbn [set get].
  - cbn. lia.
  - destruct (datetime_eqb k' k); rewrite !total_cons; [|rewrite IH]; lia.
Qed.

Lemma keys_set (k k' : datetime) (v : Z) (d : dict) :
  In k' (keys d) -> In k' (keys (set k v d)).
Proof.
  induction d as [|[k0 v0] d IH]; cbn; [tauto|].
  destruct (datetime_eqb k0 k); cbn; tauto.
Qed.

Lemma values_set (P : Z -> Prop) (k : datetime) (v : Z) (d : dict) :
  P v -> Forall P (values d) -> Forall P (values (set k v d)).
Proof.
  intros Pv. induction d as [|[k0 v0] d IH]; cbn; intros F.
  - constructor; [assumption | constructor].
  - inversion F; subst. destruct (datetime_eqb k0 k); cbn; constructor; auto.
Qed.

Lemma get_in_values (k : datetime) (v : Z) (d : dict) :
  get k d = Some v -> In v (values d).
Proof.
  induction d as [|[k0 v0] d IH]; cbn; [discriminate|].
  destruct (datetime_eqb k0 k); [intros [= ->]; tauto | auto].
Qed.

Lemma get_in_keys (k : datetime) (d : dict) :
  In k (keys d) <-> exists v, get k d = Some v.
Proof.
  induction d as [|[k0 v0] d IH]; cbn.
  - split; [tauto | intros [v H]; discriminate].
  - destruct (datetime_eqb k0 k) eqn:E.
    + apply datetime_eqb_eq in E. split; [eauto | tauto].
    + apply datetime_eqb_neq in E. rewrite <- IH. tauto.
Qed.

Lemma set_fresh (k : datetime) (v : Z) (d : dict) :
  get k d = None -> set k v d = d ++ [(k, v)].
Proof.
  induction d as [|[k0 v0] d IH]; cbn; [reflexivity|].
  destruct (datetime_eqb k0 k); [discriminate|].
  intros H. rewrite (IH H). reflexivity.
Qed.

End DictFacts.

(** ** The two scans of [get_log_activity_interval] *)

Module ScanFacts.
Import Str Datetime TimeAux DatetimeFacts Dict DictFacts LogProcess LogAux.

Lemma strptime_valid (s : string) (t : datetime) :
  Strptime.strptime s = Ok t -> valid_datetime t = true.
Proof.
  unfold Strptime.strptime.
  destruct (Re.re_match _ _) as [[found rest]|]; [|discriminate].
  destruct rest; [|discriminate].
  intros H. apply datetime_new_valid in H. tauto.
Qed.

Lemma strptime_outcome (s : string) :
  (exists t, Strptime.strptime s = Ok t) \/ Strptime.strptime s = Raise ValueError.
Proof.
  unfold Strptime.strptime.
  destruct (Re.re_match _ _) as [[found rest]|]; [|tauto].
  destruct rest; [|tauto].
  unfold datetime_new. destruct (_ && _); eauto.
Qed.

Lemma get_datetime_valid (log_line : string) (t : datetime) :
  get_datetime_from_log_line log_line = Ok (Some t) -> valid_datetime t = true.
Proof.
  unfold get_datetime_from_log_line. destruct (startswith _ _); [|discriminate].
  destruct (Strptime.strptime _) eqn:E; cbn; try discriminate.
  intros [= <-]. eapply strptime_valid. eassumption.
Qed.

Lemma get_datetime_outcome (log_line : string) :
  get_datetime_from_log_line log_line = Ok None
  \/ (exists t, get_datetime_from_log_line log_line = Ok (Some t))
  \/ get_datetime_from_log_line log_line = Raise ValueError.
Proof.
  unfold get_datetime_from_log_line. destruct (startswith _ _); [|tauto].
  destruct (strptime_outcome (lstrip "[" (hd EmptyString (split "]" log_line))))
    as [[t ->] | ->]; cbn; eauto.
Qed.

Lemma total_count_one (k : datetime) (d : dict) :
  total (count_one k d) = total d + 1.
Proof.
  unfold count_one. destruct (get k d) eqn:G; rewrite total_set, G; lia.
Qed.

Lemma count_of_count_one (k k' : datetime) (d : dict) :
  count_of k' (count_one k d)
  = count_of k' d + (if datetime_eqb k k' then 1 else 0).
Proof.
  unfold count_of, count_one. destruct (datetime_eqb k k') eqn:E.
  - apply datetime_eqb_eq in E. subst k'.
    destruct (get k d); rewrite get_set_same; lia.
  - apply datetime_eqb_neq in E.
    destruct (get k d); rewrite (get_set_other _ _ _ _ E); lia.
Qed.

Lemma keys_count_one (k k' : datetime) (d : dict) :
  In k' (keys d) -> In k' (keys (count_one k d)).
Proof. unfold count_one. destruct (get k d); apply keys_set. Qed.

Lemma values_count_one (k : datetime) (d : dict) :
  Forall (fun v => 0 <= v) (values d) ->
  Forall (fun v => 0 <= v) (values (count_one k d)).
Proof.
  intros F. unfold count_one. destruct (get k d) as [v|] eqn:G.
  - apply values_set; [|assumption].
    apply get_in_values in G.
    pose proof (proj1 (Forall_forall _ _) F v G). cbn in *. lia.
  - apply values_set; [lia | assumption].
Qed.

Lemma count_timestamped_cons (l : string) (f : file) :
  count_timestamped (l :: f)
  = (if yields_timestamp l then 1 else 0) + count_timestamped f.
Proof.
  unfold count_timestamped. cbn [filter]. destruct (yields_timestamp l); cbn [List.length]; lia.
Qed.

Lemma hits_cons (delta : timedelta) (k : datetime) (l : string) (f : file) :
  hits delta k (l :: f)
  = (if hits_bucket delta k l then 1 else 0) + hits delta k f.
Proof.
  unfold hits. cbn [filter]. destruct (hits_bucket delta k l); cbn [List.length]; lia.
Qed.

Lemma hits_nonneg (delta : timedelta) (k : datetime) (f : file) :
  0 <= hits delta k f.
Proof. unfold hits. lia. Qed.

(** What one iteration of the second scan does. *)
Lemma count_lines_step (delta : timedelta) (l : string) (f : file) (acc : dict) :
  count_lines delta (l :: f) acc
  = match get_datetime_from_log_line l with
    | Ok None => count_lines delta f acc
    | Ok (Some t) =>
        match round_to_interval t delta with
        | Ok k => count_lines delta f (count_one k acc)
        | Raise e => Raise e
        | OutOfFuel => OutOfFuel
        end
    | Raise e => Raise e
    | OutOfFuel => OutOfFuel
    end.
Proof.
  cbn [count_lines]. destruct (get_datetime_from_log_line l) as [[t|]| |]; reflexivity.
Qed.

Lemma count_lines_spec (delta : timedelta) (f : file) :
  forall (acc h : dict),
  count_lines delta f acc = Ok h ->
  total h = total acc + count_timestamped f
  /\ (forall k, count_of k h = count_of k acc + hits delta k f)
  /\ (forall k, In k (keys acc) -> In k (keys h))
  /\ (Forall (fun v => 0 <= v) (values acc) -> Forall (fun v => 0 <= v) (values h)).
Proof.
  induction f as [|l f IH]; intros acc h.
  - cbn [count_lines]. intros [= <-]. unfold count_timestamped, hits. cbn.
    repeat split; intros; try lia; assumption.
  - rewrite count_lines_step, count_timestamped_cons.
    unfold yields_timestamp.
    destruct (get_datetime_from_log_line l) as [[t|]| |] eqn:G; try discriminate.
    + destruct (round_to_interval t delta) as [k| |] eqn:R; try discriminate.
      intros H. destruct (IH _ _ H) as [T [C [K V]]].
      rewrite T, total_count_one. repeat split.
      * lia.
      * intros k'. rewrite C, count_of_count_one, hits_cons.
        unfold hits_bucket. rewrite G, R. lia.
      * intros k' I. apply K, keys_count_one, I.
      * intros F. apply V, values_count_one, F.
    + intros H. destruct (IH _ _ H) as [T [C [K V]]].
      repeat split; try assumption; try lia.
      intros k'. rewrite C, hits_cons. unfold hits_bucket. rewrite G. lia.
Qed.

Lemma count_lines_ok (delta : timedelta) (f : file) :
  forallb (line_ok delta) f = true ->
  forall acc, exists h, count_lines delta f acc = Ok h.
Proof.
  induction f as [|l f IH]; intros A acc.
  - eexists. reflexivity.
  - cbn [forallb] in A. apply andb_true_iff in A. destruct A as [L A].
    rewrite count_lines_step. unfold line_ok in L.
    destruct (get_datetime_from_log_line l) as [[t|]| |]; try discriminate.
    + destruct (round_to_interval t delta); try discriminate. apply IH, A.
    + apply IH, A.
Qed.

(** A first scan that meets no datetime never ends. *)
Lemma first_datetime_diverges (f : file) :
  Forall (fun l => get_datetime_from_log_line l = Ok None) f ->
  forall fuel, first_datetime fuel f = OutOfFuel.
Proof.
  intros F fuel. revert f F. induction fuel as [|fuel IH]; intros f F.
  - reflexivity.
  - cbn [first_datetime]. destruct f as [|l f]; cbn [readline].
    + change (get_datetime_from_log_line EmptyString) with (@Ok (option datetime) None).
      cbn [bind]. apply IH. constructor.
    + inversion F; subst. rewrite H1. cbn [bind]. apply IH. assumption.
Qed.

Lemma first_datetime_found (pre : file) (l : string) (post : file) (t : datetime) :
  Forall (fun l => get_datetime_from_log_line l = Ok None) pre ->
  get_datetime_from_log_line l = Ok (Some t) ->
  forall fuel, (List.length pre < fuel)%nat ->
  first_datetime fuel (pre ++ l :: post) = Ok t.
Proof.
  intros F G. induction F as [|l0 pre H0 F IH]; intros fuel L.
  - destruct fuel; [cbn in L; lia|]. cbn. rewrite G. reflexivity.
  - destruct fuel; [cbn in L; lia|]. cbn [app first_datetime readline].
    rewrite H0. cbn [bind]. apply IH. cbn in L. lia.
Qed.

Lemma first_datetime_raises (pre : file) (l : string) (post : file) (e : exn) :
  Forall (fun l => get_datetime_from_log_line l = Ok None) pre ->
  get_datetime_from_log_line l = Raise e ->
  forall fuel, (List.length pre < fuel)%nat ->
  first_datetime fuel (pre ++ l :: post) = Raise e.
Proof.
  intros F G. induction F as [|l0 pre H0 F IH]; intros fuel L.
  - destruct fuel; [cbn in L; lia|]. cbn. rewrite G. reflexivity.
  - destruct fuel; [cbn in L; lia|]. cbn [app first_datetime readline].
    rewrite H0. cbn [bind]. apply IH. cbn in L. lia.
Qed.

Lemma first_datetime_short (pre rest : file) :
  Forall (fun l => get_datetime_from_log_line l = Ok None) pre ->
  forall fuel, (fuel <= List.length pre)%nat ->
  first_datetime fuel (pre ++ rest) = OutOfFuel.
Proof.
  intros F. induction F as [|l0 pre H0 F IH]; intros fuel L.
  - destruct fuel; [reflexivity | cbn in L; lia].
  - destruct fuel; [reflexivity|]. cbn [app first_datetime readline].
    rewrite H0. cbn [bind]. apply IH. cbn in L. lia.
Qed.

(** The first line of a file that is not skipped. *)
Lemma first_event (f : file) :
  Forall (fun l => get_datetime_from_log_line l = Ok None) f
  \/ exists pre l post,
       f = pre ++ l :: post
       /\ Forall (fun l => get_datetime_from_log_line l = Ok None) pre
       /\ get_datetime_from_log_line l <> Ok None.
Proof.
  induction f as [|l f IH].
  - left. constructor.
  - destruct (get_datetime_from_log_line l) as [[t|]| |] eqn:G.
    + right. exists [], l, f. repeat split; [constructor | congruence].
    + destruct IH as [F | [pre [l' [post [E [F N]]]]]].
      * left. constructor; assumption.
      * right. exists (l :: pre), l', post. subst f.
        repeat split; [constructor; assumption | assumption].
    + right. exists [], l, f. repeat split; [constructor | congruence].
    + right. exists [], l, f. repeat split; [constructor | congruence].
Qed.

Lemma first_datetime_valid (fuel : nat) (f : file) (t : datetime) :
  first_datetime fuel f = Ok t -> valid_datetime t = true.
Proof.
  revert f. induction fuel as [|fuel IH]; intros f; [discriminate|].
  cbn [first_datetime]. destruct (readline f) as [l f'].
  destruct (get_datetime_from_log_line l) as [[t'|]| |] eqn:G; cbn [bind];
    try discriminate.
  - intros [= <-]. eapply get_datetime_valid. eassumption.
  - apply IH.
Qed.

Lemma hits_in (delta : timedelta) (k : datetime) (f : file) (l : string) :
  In l f -> hits_bucket delta k l = true -> 1 <= hits delta k f.
Proof.
  intros I H. induction f as [|l0 f IH]; [contradiction|].
  rewrite hits_cons. pose proof (hits_nonneg delta k f).
  destruct I as [-> | I].
  - rewrite H. lia.
  - specialize (IH I). destruct (hits_bucket delta k l0); lia.
Qed.

End ScanFacts.

(** ** Rounding and pre-seeding *)

Module SeedFacts.
Import Calendar Datetime TimeAux DatetimeFacts Dict DictFacts LogProcess LogAux SeedAux.

Lemma valid_datetime_min : valid_datetime datetime_min = true.
Proof. reflexivity. Qed.

Lemma ticks_datetime_min : ticks datetime_min = US_PER_DAY.
Proof. reflexivity. Qed.

Lemma round_to_interval_spec (t : datetime) (delta : timedelta) :
  valid_datetime t = true -> valid_timedelta delta = true ->
  _to_microseconds delta <> 0 ->
  round_to_interval t delta
  = if in_range (rounded_ticks t delta)
    then Ok (of_ticks (rounded_ticks t delta))
    else Raise OverflowError.
Proof.
  intros V VD NZ. unfold round_to_interval.
  rewrite (datetime_sub_spec _ _ valid_datetime_min V). cbn [bind].
  rewrite (timedelta_mod_spec _ _ NZ VD). cbn [bind _to_microseconds].
  rewrite (datetime_add_spec _ _ V). cbn [_to_microseconds].
  unfold rounded_ticks, since_epoch.
  replace (- (ticks t - ticks datetime_min)) with (ticks datetime_min - ticks t) by lia.
  reflexivity.
Qed.

Lemma round_to_interval_zero (t : datetime) (delta : timedelta) :
  valid_datetime t = true -> _to_microseconds delta = 0 ->
  round_to_interval t delta = Raise ZeroDivisionError.
Proof.
  intros V Z0. unfold round_to_interval.
  rewrite (datetime_sub_spec _ _ valid_datetime_min V). cbn [bind].
  unfold timedelta_mod, py_mod. rewrite Z0. reflexivity.
Qed.

Lemma valid_midnight (t : datetime) :
  valid_datetime t = true -> valid_datetime (midnight t) = true.
Proof.
  unfold valid_datetime, midnight. cbn [year month day hour minute second microsecond].
  rewrite !andb_true_iff. intros [D _]. split; [exact D | reflexivity].
Qed.

Lemma combine_midnight_spec (t : datetime) :
  valid_datetime t = true -> combine_midnight t = Ok (midnight t).
Proof.
  intros V. unfold combine_midnight, midnight. apply datetime_new_ok.
  - unfold valid_datetime in V. apply andb_true_iff in V. tauto.
  - reflexivity.
Qed.

Lemma ticks_midnight (t : datetime) :
  ticks (midnight t) = toordinal t * US_PER_DAY.
Proof.
  unfold ticks, midnight, toordinal, US_PER_DAY, US_PER_SECOND.
  cbn [year month day hour minute second microsecond]. lia.
Qed.

(** Every index of the comprehension stays within the anchor's day. *)
Lemma range_within_day (w i : Z) :
  w <> 0 -> In i (range (US_PER_DAY / w)) -> 0 <= i /\ 0 <= w * i < US_PER_DAY.
Proof.
  intros NZ I. unfold range in I. apply in_map_iff in I.
  destruct I as [k [<- I]]. apply in_seq in I.
  assert (P : 0 < US_PER_DAY / w) by lia.
  assert (W : 0 < w).
  { destruct (Z_lt_le_dec 0 w) as [|N]; [assumption|exfalso].
    assert (US_PER_DAY / w <= 0); [|lia].
    unfold US_PER_DAY in *. Z.div_mod_to_equations. nia. }
  split; [lia|]. split; [nia|].
  assert (Z.of_nat k + 1 <= US_PER_DAY / w) by lia.
  pose proof (Z.mul_div_le US_PER_DAY w W). nia.
Qed.

Lemma bucket_key_spec (t : datetime) (delta : timedelta) (i : Z) :
  valid_datetime t = true ->
  0 <= _to_microseconds delta * i < US_PER_DAY ->
  in_range (ticks (midnight t) + _to_microseconds delta * i) = true.
Proof.
  intros V B. rewrite ticks_midnight.
  pose proof (toordinal_bounds t V) as O.
  unfold in_range. apply andb_true_iff. rewrite Z.leb_le, Z.ltb_lt.
  unfold US_PER_DAY, _MAXORDINAL in *. lia.
Qed.

Lemma get_app (k : datetime) (a b : dict) :
  get k (a ++ b) = match get k a with Some v => Some v | None => get k b end.
Proof.
  induction a as [|[k0 v0] a IH]; cbn; [reflexivity|].
  destruct (datetime_eqb k0 k); [reflexivity | exact IH].
Qed.

Lemma NoDup_range (n : Z) : NoDup (range n).
Proof.
  unfold range. generalize (seq_NoDup (Z.to_nat n) 0).
  induction (seq 0 (Z.to_nat n)) as [|a l IH]; intros ND; cbn; constructor.
  - inversion ND; subst. intros I. apply in_map_iff in I.
    destruct I as [b [E I]]. apply Nat2Z.inj in E. subst b. contradiction.
  - inversion ND; subst. apply IH. assumption.
Qed.

Lemma length_range (n : Z) : Z.of_nat (List.length (range n)) = Z.max 0 n.
Proof. unfold range. rewrite length_map, length_seq. lia. Qed.

Lemma nth_error_range (n i : Z) :
  0 <= i < n -> nth_error (range n) (Z.to_nat i) = Some i.
Proof.
  intros H. unfold range. rewrite nth_error_map.
  rewrite nth_error_seq.
  destruct (Nat.ltb_spec (Z.to_nat i) (Z.to_nat n)) as [|N]; [|lia].
  cbn. f_equal. lia.
Qed.

Section Seeding.

(** The first datetime of the file and a width that is not zero. *)
Variable t : datetime.
Variable delta : timedelta.
Hypothesis V : valid_datetime t = true.
Hypothesis NZ : _to_microseconds delta <> 0.

Lemma preseed_spec :
  forall (indices : list Z) (acc : dict),
  (forall i, In i indices -> 0 <= _to_microseconds delta * i < US_PER_DAY) ->
  NoDup indices ->
  (forall i, In i indices -> get (bucket_key (midnight t) delta i) acc = None) ->
  preseed (midnight t) delta indices acc
  = Ok (acc ++ map (fun i => (bucket_key (midnight t) delta i, 0)) indices).
Proof.
  unfold bucket_key.
  induction indices as [|i indices IH]; intros acc B ND F.
  - cbn. rewrite app_nil_r. reflexivity.
  - cbn [preseed map].
    pose proof (B i (or_introl eq_refl)) as Bi.
    rewrite timedelta_mul_spec. cbv zeta.
    destruct (999999999 <? _) eqn:O.
    { apply Z.ltb_lt in O. unfold US_PER_DAY in *. Z.div_mod_to_equations. lia. }
    cbn [bind]. rewrite (datetime_add_spec _ _ (valid_midnight t V)).
    cbn [_to_microseconds]. rewrite (bucket_key_spec t delta i V Bi).
    cbn [bind].
    rewrite (set_fresh _ _ _ (F i (or_introl eq_refl))).
    inversion ND as [|? ? NI ND']; subst.
    rewrite IH.
    + rewrite <- app_assoc. reflexivity.
    + intros j I. apply B. right. exact I.
    + exact ND'.
    + intros j I. rewrite get_app, (F j (or_intror I)). cbn [get].
      destruct (datetime_eqb _ _) eqn:E; [exfalso|reflexivity].
      apply datetime_eqb_eq in E.
      apply (f_equal ticks) in E.
      pose proof (B j (or_intror I)) as Bj.
      rewrite (proj2 (of_ticks_spec _ (bucket_key_spec t delta i V Bi))) in E.
      rewrite (proj2 (of_ticks_spec _ (bucket_key_spec t delta j V Bj))) in E.
      assert (i = j) by nia. subst j. contradiction.
Qed.

Lemma initialize_spec (fuel : nat) (f : file) :
  first_datetime fuel f = Ok t ->
  initialize fuel f delta = Ok (preseeded (midnight t) delta).
Proof.
  intros F. unfold initialize. rewrite F. cbn [bind].
  rewrite (combine_midnight_spec t V). cbn [bind].
  change (timedelta_new 1 0 0 0 0 0 0) with (Ok (mk_timedelta US_PER_DAY)).
  cbn [bind]. unfold timedelta_floordiv, py_floordiv. cbn [_to_microseconds].
  destruct (_to_microseconds delta =? 0) eqn:Z0; [apply Z.eqb_eq in Z0; lia|].
  cbn [bind]. rewrite preseed_spec.
  - reflexivity.
  - intros i I. apply (range_within_day _ i NZ I).
  - apply NoDup_range.
  - reflexivity.
Qed.

End Seeding.

Lemma initialize_zero (fuel : nat) (f : file) (delta : timedelta) (t : datetime) :
  first_datetime fuel f = Ok t ->
  valid_datetime t = true -> _to_microseconds delta = 0 ->
  initialize fuel f delta = Raise ZeroDivisionError.
Proof.
  intros F V Z0. unfold initialize. rewrite F. cbn [bind].
  rewrite (combine_midnight_spec t V). cbn [bind].
  change (timedelta_new 1 0 0 0 0 0 0) with (Ok (mk_timedelta US_PER_DAY)).
  cbn [bind]. unfold timedelta_floordiv, py_floordiv. rewrite Z0. reflexivity.
Qed.

Lemma preseeded_values (anchor : datetime) (delta : timedelta) :
  Forall (fun v => v = 0) (values (preseeded anchor delta)).
Proof.
  unfold preseeded, values. rewrite map_map. cbn [snd].
  apply Forall_forall. intros v I. apply in_map_iff in I.
  destruct I as [i [<- _]]. reflexivity.
Qed.

Lemma total_zero (d : dict) :
  Forall (fun v => v = 0) (values d) -> total d = 0.
Proof.
  unfold total. induction (values d) as [|v l IH]; intros F; [reflexivity|].
  inversion F; subst. cbn. rewrite IH; [reflexivity | assumption].
Qed.

Lemma count_of_zero (k : datetime) (d : dict) :
  Forall (fun v => v = 0) (values d) -> count_of k d = 0.
Proof.
  intros F. unfold count_of. destruct (get k d) as [v|] eqn:G; [|reflexivity].
  apply get_in_values in G. exact (proj1 (Forall_forall _ _) F v G).
Qed.

End SeedFacts.

(** ** The whole function *)

Module RunFacts.
Import Str Datetime TimeAux DatetimeFacts Dict DictFacts.
Import LogProcess LogAux SeedAux ScanFacts SeedFacts.

Lemma count_lines_lines_ok (delta : timedelta) (f : file) :
  forall acc h, count_lines delta f acc = Ok h -> forallb (line_ok delta) f = true.
Proof.
  induction f as [|l f IH]; intros acc h; [reflexivity|].
  rewrite count_lines_step. cbn [forallb]. unfold line_ok at 1.
  destruct (get_datetime_from_log_line l) as [[t|]| |]; try discriminate.
  - destruct (round_to_interval t delta); try discriminate. apply IH.
  - apply IH.
Qed.

Lemma count_lines_raises (delta : timedelta) (pre : file) (l : string)
    (post : file) (e : exn) :
  forallb (line_ok delta) pre = true ->
  get_datetime_from_log_line l = Raise e ->
  forall acc, count_lines delta (pre ++ l :: post) acc = Raise e.
Proof.
  intros A G. induction pre as [|l0 pre IH]; intros acc.
  - cbn [app]. rewrite count_lines_step, G. reflexivity.
  - cbn [forallb] in A. apply andb_true_iff in A. destruct A as [L A].
    cbn [app]. rewrite count_lines_step. unfold line_ok in L.
    destruct (get_datetime_from_log_line l0) as [[t|]| |]; try discriminate.
    + destruct (round_to_interval t delta); try discriminate. apply IH, A.
    + apply IH, A.
Qed.

(** The second scan has no handler for the rounding either. *)
Lemma count_lines_round_raises (delta : timedelta) (pre : file) (l : string)
    (post : file) (t : datetime) (e : exn) :
  forallb (line_ok delta) pre = true ->
  get_datetime_from_log_line l = Ok (Some t) ->
  round_to_interval t delta = Raise e ->
  forall acc, count_lines delta (pre ++ l :: post) acc = Raise e.
Proof.
  intros A G R. induction pre as [|l0 pre IH]; intros acc.
  - cbn [app]. rewrite count_lines_step, G, R. reflexivity.
  - cbn [forallb] in A. apply andb_true_iff in A. destruct A as [L A].
    cbn [app]. rewrite count_lines_step. unfold line_ok in L.
    destruct (get_datetime_from_log_line l0) as [[t0|]| |]; try discriminate.
    + destruct (round_to_interval t0 delta); try discriminate. apply IH, A.
    + apply IH, A.
Qed.

(** A successful run, taken apart. *)
Lemma run_inv (fuel : nat) (f : file) (iv : interval) (h : dict) :
  get_log_activity_interval fuel f iv = Ok h ->
  exists delta t,
    timedelta_of iv = Ok delta
    /\ valid_timedelta delta = true
    /\ _to_microseconds delta <> 0
    /\ first_datetime fuel f = Ok t
    /\ valid_datetime t = true
    /\ initialize fuel f delta = Ok (preseeded (midnight t) delta)
    /\ count_lines delta f (preseeded (midnight t) delta) = Ok h.
Proof.
  unfold get_log_activity_interval.
  destruct (timedelta_of iv) as [delta| |] eqn:D; cbn [bind]; try discriminate.
  destruct (initialize fuel f delta) as [seeded| |] eqn:I; cbn [bind];
    try discriminate.
  intros C. exists delta.
  destruct (first_datetime fuel f) as [t| |] eqn:F;
    try (unfold initialize in I; rewrite F in I; discriminate).
  exists t. pose proof (first_datetime_valid _ _ _ F) as V.
  assert (NZ : _to_microseconds delta <> 0).
  { intros Z0. rewrite (initialize_zero _ _ _ _ F V Z0) in I. discriminate. }
  pose proof (initialize_spec _ _ V NZ _ _ F) as I'.
  rewrite I' in I. injection I as <-.
  repeat split; try assumption.
  unfold timedelta_of in D. eapply valid_timedelta_new. eassumption.
Qed.

(** The first scan on a file whose lines all pass the second scan. *)
Lemma first_datetime_total (delta : timedelta) (f : file) :
  forallb (line_ok delta) f = true ->
  existsb yields_timestamp f = true ->
  forall fuel, (List.length f <= fuel)%nat ->
  exists t, first_datetime fuel f = Ok t.
Proof.
  induction f as [|l f IH]; intros A E fuel L; [discriminate|].
  cbn [forallb existsb] in A, E. apply andb_true_iff in A. destruct A as [Al A].
  destruct fuel; [cbn in L; lia|]. cbn [first_datetime readline].
  unfold line_ok in Al. unfold yields_timestamp in E at 1.
  destruct (get_datetime_from_log_line l) as [[t|]| |]; try discriminate; cbn [bind].
  - eauto.
  - cbn in E. apply IH; [assumption | assumption | cbn in L; lia].
Qed.

(** When the function returns. *)
Lemma run_returns (f : file) (iv : interval) (delta : timedelta) :
  timedelta_of iv = Ok delta ->
  _to_microseconds delta <> 0 ->
  existsb yields_timestamp f = true ->
  forallb (line_ok delta) f = true ->
  forall fuel, (List.length f <= fuel)%nat ->
  exists h, get_log_activity_interval fuel f iv = Ok h.
Proof.
  intros D NZ E A fuel L.
  destruct (first_datetime_total delta f A E fuel L) as [t F].
  pose proof (first_datetime_valid _ _ _ F) as V.
  unfold get_log_activity_interval. rewrite D. cbn [bind].
  rewrite (initialize_spec _ _ V NZ _ _ F). cbn [bind].
  apply count_lines_ok, A.
Qed.

End RunFacts.

(** ** Strings and the matcher *)

Module MatchFacts.
Import Str Re CalendarAux CalendarFacts FormatAux.

Lemma digit_cases (d : Z) :
  0 <= d <= 9 -> In d (zrange 10).
Proof. intros H. apply in_zrange. lia. Qed.

Lemma digit_char_props (d : Z) :
  0 <= d <= 9 ->
  is_digit (digit_char d) = true
  /\ char_between "0" "9" (digit_char d) = true
  /\ is_space (digit_char d) = false
  /\ code (digit_char d) - 48 = d.
Proof.
  intros H. apply digit_cases in H. revert d H. apply Forall_forall.
  forall_cases ltac:(vm_compute; repeat split; reflexivity).
Qed.

Lemma is_digit_not (c : ascii) :
  is_digit c = true -> Ascii.eqb c "]" = false /\ Ascii.eqb c "[" = false.
Proof.
  intros D. unfold is_digit in D. apply andb_true_iff in D.
  rewrite !Z.leb_le in D.
  split; apply Ascii.eqb_neq; intros ->; vm_compute in D; destruct D; congruence.
Qed.

Lemma pow10_pos (k : nat) : 0 < 10 ^ Z.of_nat k.
Proof. apply Z.pow_pos_nonneg; lia. Qed.

Lemma pad_digit_bounds (k : nat) (n : Z) :
  0 <= n < 10 ^ Z.of_nat (S k) ->
  0 <= n / 10 ^ Z.of_nat k <= 9
  /\ 0 <= n mod 10 ^ Z.of_nat k < 10 ^ Z.of_nat k.
Proof.
  intros H. pose proof (pow10_pos k) as P.
  rewrite Nat2Z.inj_succ, Z.pow_succ_r in H by lia.
  split; [|apply Z.mod_pos_bound; lia].
  split; [apply Z.div_pos; lia|].
  assert (n / 10 ^ Z.of_nat k < 10); [|lia].
  apply Z.div_lt_upper_bound; lia.
Qed.

Lemma pad_all_digits (k : nat) :
  forall n, 0 <= n < 10 ^ Z.of_nat k -> all_digits (pad k n) = true.
Proof.
  induction k as [|k IH]; intros n H; [reflexivity|].
  destruct (pad_digit_bounds k n H) as [D M].
  cbn [pad all_digits]. rewrite (proj1 (digit_char_props _ D)), (IH _ M).
  reflexivity.
Qed.

Lemma pad_length (k : nat) (n : Z) : String.length (pad k n) = k.
Proof.
  revert n. induction k as [|k IH]; intros n; [reflexivity|].
  cbn [pad String.length]. rewrite IH. reflexivity.
Qed.

Lemma digits_value_pad (k : nat) :
  forall n acc, 0 <= n < 10 ^ Z.of_nat k ->
  digits_value acc (pad k n) = acc * 10 ^ Z.of_nat k + n.
Proof.
  induction k as [|k IH]; intros n acc H.
  - cbn in *. lia.
  - destruct (pad_digit_bounds k n H) as [D M].
    cbn [pad digits_value].
    rewrite (proj2 (proj2 (proj2 (digit_char_props _ D)))), (IH _ _ M).
    rewrite Nat2Z.inj_succ, Z.pow_succ_r by lia.
    pose proof (Z.div_mod n (10 ^ Z.of_nat k)) as E.
    pose proof (pow10_pos k). specialize (E ltac:(lia)). nia.
Qed.

Lemma int_pad (k : nat) (n : Z) :
  0 <= n < 10 ^ Z.of_nat (S k) -> int (pad (S k) n) = n.
Proof.
  intros H. unfold int.
  destruct (pad_digit_bounds k n H) as [D M].
  replace (lstrip_space (pad (S k) n)) with (pad (S k) n).
  - rewrite (digits_value_pad (S k) n 0 H). lia.
  - cbn [pad lstrip_space].
    rewrite (proj1 (proj2 (proj2 (digit_char_props _ D)))). reflexivity.
Qed.

Lemma has_char_app (c : ascii) (a b : string) :
  has_char c (a ++ b) = has_char c a || has_char c b.
Proof.
  induction a as [|c' a IH]; cbn; [reflexivity|].
  rewrite IH. apply orb_assoc.
Qed.

Lemma all_digits_no_bracket (s : string) :
  all_digits s = true -> has_char "]" s = false.
Proof.
  induction s as [|c s IH]; cbn; [reflexivity|].
  intros H. apply andb_true_iff in H. destruct H as [D H].
  rewrite (proj1 (is_digit_not c D)), (IH H). reflexivity.
Qed.

Lemma split_hd (c : ascii) (a b : string) :
  has_char c a = false -> hd EmptyString (split c (a ++ String c b)) = a.
Proof.
  induction a as [|c' a IH]; cbn.
  - rewrite Ascii.eqb_refl. reflexivity.
  - intros H. apply orb_false_iff in H. destruct H as [E H].
    rewrite E. specialize (IH H).
    destruct (split c (a ++ String c b)) as [|h t]; cbn in *; congruence.
Qed.

Lemma split_hd_none (c : ascii) (a : string) :
  has_char c a = false -> hd EmptyString (split c a) = a.
Proof.
  induction a as [|c' a IH]; cbn; [reflexivity|].
  intros H. apply orb_false_iff in H. destruct H as [E H].
  rewrite E. specialize (IH H).
  destruct (split c a) as [|h t]; cbn in *; congruence.
Qed.

Lemma lstrip_brackets (n : nat) (body : string) :
  startswith body "[" = false -> lstrip "[" (brackets n ++ body) = body.
Proof.
  intros H. induction n as [|n IH]; cbn.
  - destruct body as [|c body]; [reflexivity|]. cbn.
    unfold startswith in H. cbn in H.
    destruct (Ascii.eqb c "[") eqn:E; [|reflexivity].
    apply Ascii.eqb_eq in E. subst c. cbn in H.
    destruct body; discriminate.
  - exact IH.
Qed.

Lemma has_char_brackets (n : nat) : has_char "]" (brackets n) = false.
Proof. induction n as [|n IH]; [reflexivity | exact IH]. Qed.

End MatchFacts.

Module RegexFacts.
Import Str Re Strptime CalendarAux CalendarFacts FormatAux MatchFacts.

Lemma length_append (a b : string) :
  String.length (a ++ b) = (String.length a + String.length b)%nat.
Proof. induction a as [|c a IH]; cbn; [reflexivity | rewrite IH; reflexivity]. Qed.

Lemma consumed_app (p tail : string) :
  consumed (p ++ tail) tail = String.length p.
Proof. unfold consumed. rewrite length_append. lia. Qed.

Lemma consumed_same (s : string) : consumed s s = 0%nat.
Proof. unfold consumed. lia. Qed.

Lemma substring_app (p tail : string) :
  substring 0 (String.length p) (p ++ tail) = p.
Proof.
  induction p as [|c p IH]; cbn.
  - destruct tail; reflexivity.
  - rewrite IH. reflexivity.
Qed.

Lemma append_empty_r (s : string) : (s ++ "")%string = s.
Proof. induction s as [|c s IH]; cbn; [reflexivity | rewrite IH; reflexivity]. Qed.

Lemma group_hd (g : group_name) (r : regex) (p tail : string) (g0 : groupdict) :
  hd_error (matches r (p ++ tail)) = Some (g0, tail) ->
  hd_error (matches (Group g r) (p ++ tail)) = Some ((g, p) :: g0, tail).
Proof.
  cbn [matches]. destruct (matches r (p ++ tail)) as [|[g1 s1] l]; [discriminate|].
  cbn [hd_error map]. intros [= -> ->].
  rewrite consumed_app, substring_app. reflexivity.
Qed.

Lemma cat_hd (r1 r2 : regex) (s s1 s2 : string) (g1 g2 : groupdict) :
  hd_error (matches r1 s) = Some (g1, s1) ->
  hd_error (matches r2 s1) = Some (g2, s2) ->
  hd_error (matches (Cat r1 r2) s) = Some (g1 ++ g2, s2).
Proof.
  cbn [matches]. destruct (matches r1 s) as [|[g1' s1'] l1]; [discriminate|].
  cbn [hd_error flat_map]. intros [= -> ->].
  destruct (matches r2 s1) as [|[g2' s2'] l2]; [discriminate|].
  cbn [hd_error map app]. intros [= -> ->]. reflexivity.
Qed.

Lemma chr_hd (c : ascii) (s : string) :
  hd_error (matches (Chr c) (String c s)) = Some ([], s).
Proof. cbn [matches]. rewrite Ascii.eqb_refl. reflexivity. Qed.

Lemma spaces_hd (c : ascii) (s : string) :
  is_space c = false ->
  hd_error (matches (Rep is_space 1 None) (String " " (String c s)))
  = Some ([], String c s).
Proof.
  intros H. cbn [matches String.length runs].
  change (is_space " ") with true. cbv iota. rewrite H.
  cbn [app filter].
  change (String " " (String c s)) with (" " ++ String c s)%string.
  rewrite consumed_app. reflexivity.
Qed.

Lemma digits4_hd (s tail : string) :
  all_digits s = true -> String.length s = 4%nat ->
  hd_error (matches (inner re_Y) (s ++ tail)) = Some ([], tail).
Proof.
  intros D L.
  destruct s as [|c1 [|c2 [|c3 [|c4 [|c5 s]]]]]; try discriminate.
  cbn [all_digits] in D. rewrite !andb_true_iff in D.
  destruct D as [D1 [D2 [D3 [D4 _]]]].
  cbn. rewrite D1. cbn. rewrite D2. cbn. rewrite D3. cbn. rewrite D4.
  reflexivity.
Qed.

Lemma digits6_hd (s : string) :
  all_digits s = true -> String.length s = 6%nat ->
  hd_error (matches (inner re_f) s) = Some ([], EmptyString).
Proof.
  intros D L.
  destruct s as [|c1 [|c2 [|c3 [|c4 [|c5 [|c6 [|c7 s]]]]]]]; try discriminate.
  cbn [all_digits] in D. rewrite !andb_true_iff in D.
  destruct D as [D1 [D2 [D3 [D4 [D5 [D6 _]]]]]].
  change (char_between "0" "9") with is_digit.
  cbn [inner re_f matches runs].
  change (char_between "0" "9") with is_digit.
  rewrite D1, D2, D3, D4, D5, D6. reflexivity.
Qed.

Lemma month_table : Forall (two_digit_ok (inner re_m)) (map (Z.add 1) (zrange 12)).
Proof.
  forall_cases ltac:(intros tail; vm_compute; reflexivity).
Qed.

Lemma day_table : Forall (two_digit_ok (inner re_d)) (map (Z.add 1) (zrange 31)).
Proof.
  forall_cases ltac:(intros tail; vm_compute; reflexivity).
Qed.

Lemma hour_table : Forall (two_digit_ok (inner re_H)) (zrange 24).
Proof.
  forall_cases ltac:(intros tail; vm_compute; reflexivity).
Qed.

Lemma minute_table : Forall (two_digit_ok (inner re_M)) (zrange 60).
Proof.
  forall_cases ltac:(intros tail; vm_compute; reflexivity).
Qed.

Lemma second_table : Forall (two_digit_ok (inner re_S)) (zrange 60).
Proof.
  forall_cases ltac:(intros tail; vm_compute; reflexivity).
Qed.

Lemma in_shifted (k : nat) (n : Z) :
  1 <= n <= Z.of_nat k -> In n (map (Z.add 1) (zrange k)).
Proof.
  intros H. apply in_map_iff. exists (n - 1). split; [lia|].
  apply in_zrange. lia.
Qed.

End RegexFacts.

(** ** Formatting, then parsing *)

Module RoundTrip.
Import Str Re Strptime Datetime DatetimeFacts LogProcess.
Import CalendarAux CalendarFacts FormatAux MatchFacts RegexFacts SpecAux.

Lemma days_in_month_le_31 (y m : Z) :
  1 <= m <= 12 -> Calendar._days_in_month y m <= 31.
Proof.
  intros Hm. rewrite days_in_month_dim_of.
  assert (I : In m (map (Z.add 1) (zrange 12))) by (apply in_shifted; lia).
  revert I. generalize m. apply Forall_forall.
  destruct (Calendar._is_leap y); forall_cases ltac:(vm_compute; discriminate).
Qed.

Lemma field2_hd (g : group_name) (r : regex) (n : Z) (tail : string) :
  two_digit_ok r n ->
  hd_error (matches (Group g r) (pad 2 n ++ tail)) = Some ([(g, pad 2 n)], tail).
Proof. intros H. apply group_hd, H. Qed.

Lemma year_hd (y : Z) (tail : string) :
  0 <= y < 10 ^ 4 ->
  hd_error (matches re_Y (pad 4 y ++ tail)) = Some ([(gY, pad 4 y)], tail).
Proof.
  intros H. apply (group_hd gY (inner re_Y)), digits4_hd.
  - apply pad_all_digits. exact H.
  - apply pad_length.
Qed.

Lemma fraction_hd (f : Z) :
  0 <= f < 10 ^ 6 ->
  hd_error (matches re_f (pad 6 f ++ "")) = Some ([(gf, pad 6 f)], EmptyString).
Proof.
  intros H. apply (group_hd gf (inner re_f)). rewrite append_empty_r.
  apply digits6_hd.
  - apply pad_all_digits. exact H.
  - apply pad_length.
Qed.

Lemma spaces_pad_hd (n : Z) (tail : string) :
  0 <= n < 10 ^ 2 ->
  hd_error (matches (Rep is_space 1 None) (" " ++ pad 2 n ++ tail))
  = Some ([], (pad 2 n ++ tail)%string).
Proof.
  intros H. destruct (pad_digit_bounds 1 n H) as [D _].
  cbn [pad append]. apply spaces_hd, (digit_char_props _ D).
Qed.

Lemma match_format (t : datetime) :
  valid_datetime t = true ->
  re_match format_regex (format_timestamp t)
  = Some ([(gY, pad 4 (year t)); (gm, pad 2 (month t)); (gd, pad 2 (day t));
           (gH, pad 2 (hour t)); (gM, pad 2 (minute t));
           (gS, pad 2 (second t)); (gf, pad 6 (microsecond t))],
          EmptyString).
Proof.
  intros V. apply valid_datetime_iff in V.
  destruct V as [[Hy [Hm Hd]] [HH [HM [HS Hf]]]].
  pose proof (days_in_month_le_31 (year t) (month t) Hm) as Hd'.
  assert (H : hd_error
                 (matches format_regex
                    (pad 4 (year t) ++ "-" ++ pad 2 (month t) ++ "-"
                     ++ pad 2 (day t) ++ " " ++ pad 2 (hour t) ++ ":"
                     ++ pad 2 (minute t) ++ ":" ++ pad 2 (second t) ++ "."
                     ++ pad 6 (microsecond t) ++ ""))
               = Some ([(gY, pad 4 (year t))] ++ [] ++ [(gm, pad 2 (month t))]
                       ++ [] ++ [(gd, pad 2 (day t))] ++ []
                       ++ [(gH, pad 2 (hour t))] ++ []
                       ++ [(gM, pad 2 (minute t))] ++ []
                       ++ [(gS, pad 2 (second t))] ++ []
                       ++ [(gf, pad 6 (microsecond t))], EmptyString));
    [|rewrite append_empty_r in H; exact H].
  unfold format_regex.
  eapply cat_hd; [apply year_hd; lia|].
  eapply cat_hd; [apply chr_hd|].
  eapply cat_hd.
  { apply (field2_hd gm (inner re_m)).
    apply (proj1 (Forall_forall _ _) month_table), in_shifted. lia. }
  eapply cat_hd; [apply chr_hd|].
  eapply cat_hd.
  { apply (field2_hd gd (inner re_d)).
    apply (proj1 (Forall_forall _ _) day_table), in_shifted. lia. }
  eapply cat_hd; [apply spaces_pad_hd; lia|].
  eapply cat_hd.
  { apply (field2_hd gH (inner re_H)).
    apply (proj1 (Forall_forall _ _) hour_table), in_zrange. lia. }
  eapply cat_hd; [apply chr_hd|].
  eapply cat_hd.
  { apply (field2_hd gM (inner re_M)).
    apply (proj1 (Forall_forall _ _) minute_table), in_zrange. lia. }
  eapply cat_hd; [apply chr_hd|].
  eapply cat_hd.
  { apply (field2_hd gS (inner re_S)).
    apply (proj1 (Forall_forall _ _) second_table), in_zrange. lia. }
  eapply cat_hd; [apply chr_hd|].
  apply fraction_hd. lia.
Qed.

Lemma strptime_format (t : datetime) :
  valid_datetime t = true -> strptime (format_timestamp t) = Ok t.
Proof.
  intros V. unfold strptime. rewrite (match_format t V).
  cbn [group group_eqb]. rewrite pad_length. cbn [Nat.sub zeros].
  rewrite append_empty_r.
  pose proof V as B. apply valid_datetime_iff in B.
  destruct B as [[Hy [Hm Hd]] [HH [HM [HS Hf]]]].
  pose proof (days_in_month_le_31 (year t) (month t) Hm) as Hd'.
  rewrite !int_pad by (cbn; lia).
  unfold valid_datetime in V. apply andb_true_iff in V. destruct V as [VD VT].
  rewrite (datetime_new_ok _ _ _ _ _ _ _ VD VT). destruct t. reflexivity.
Qed.

Lemma pad_no_bracket (k : nat) (n : Z) :
  0 <= n < 10 ^ Z.of_nat k -> has_char "]" (pad k n) = false.
Proof. intros H. apply all_digits_no_bracket, pad_all_digits, H. Qed.

Lemma format_no_bracket (t : datetime) :
  valid_datetime t = true -> has_char "]" (format_timestamp t) = false.
Proof.
  intros V. apply valid_datetime_iff in V.
  destruct V as [[Hy [Hm Hd]] [HH [HM [HS Hf]]]].
  pose proof (days_in_month_le_31 (year t) (month t) Hm) as Hd'.
  unfold format_timestamp. rewrite !has_char_app.
  rewrite !pad_no_bracket by (cbn; lia).
  reflexivity.
Qed.

Lemma format_starts_with_digit (t : datetime) :
  valid_datetime t = true -> startswith (format_timestamp t) "[" = false.
Proof.
  intros V. apply valid_datetime_iff in V. destruct V as [[Hy _] _].
  destruct (pad_digit_bounds 3 (year t) ltac:(cbn; lia)) as [D _].
  unfold format_timestamp. cbn [pad append]. unfold startswith. cbn [prefix].
  destruct (digit_char_props _ D) as [Dg _].
  destruct (is_digit_not _ Dg) as [_ N].
  apply Ascii.eqb_neq in N.
  destruct (ascii_dec "[" (digit_char (year t / 10 ^ Z.of_nat 3))) as [E|_];
    [congruence | reflexivity].
Qed.

Lemma startswith_cons (c : ascii) (s : string) :
  startswith (String c s) (String c EmptyString) = true.
Proof.
  unfold startswith. cbn [prefix].
  destruct (ascii_dec c c); [destruct s; reflexivity | congruence].
Qed.

Lemma bracketed_prefix (n : nat) (body tail : string) :
  has_char "]" body = false ->
  startswith body "[" = false ->
  tail = EmptyString \/ startswith tail "]" = true ->
  bracketed (brackets n ++ body ++ tail) = body.
Proof.
  intros NB NS T. unfold bracketed.
  assert (H : has_char "]" (brackets n ++ body) = false)
    by (rewrite has_char_app, has_char_brackets, NB; reflexivity).
  replace (hd EmptyString (split "]" (brackets n ++ body ++ tail)))
    with (brackets n ++ body)%string.
  - apply lstrip_brackets, NS.
  - symmetry. destruct T as [-> | T].
    + rewrite append_empty_r. apply split_hd_none, H.
    + destruct tail as [|c tail]; [discriminate|].
      unfold startswith in T. cbn [prefix] in T.
      destruct (ascii_dec "]" c) as [<-|]; [|discriminate].
      assert (A : forall a b c : string, (a ++ b ++ c = (a ++ b) ++ c)%string).
      { intros a b c. induction a as [|x a IH]; cbn; [reflexivity|].
        rewrite IH. reflexivity. }
      rewrite A. apply split_hd, H.
Qed.

End RoundTrip.

(** * The specification, property by property *)

Import Str Datetime TimeAux DatetimeFacts Dict DictFacts.
Import LogProcess LogAux SeedAux SpecAux ScenarioAux FormatAux.
Import ScanFacts SeedFacts RunFacts MatchFacts RegexFacts RoundTrip.

(** ** Timestamp Extractor *)

(** C5. A line that does not start with an opening bracket yields no
    timestamp: the extractor returns [None] and raises nothing. *)
Theorem no_bracket_no_timestamp (log_line : string) :
  startswith log_line "[" = false ->
  get_datetime_from_log_line log_line = Ok None.
Proof.
  intros H. unfold get_datetime_from_log_line. rewrite H. reflexivity.
Qed.

Lemma no_bracket_no_timestamp_witness :
  get_datetime_from_log_line "no timestamp here" = Ok None.
Proof. apply (no_bracket_no_timestamp "no timestamp here"). reflexivity. Defined.

(** C9, as the specification states it, fails on its own example: with only
    one bracket removed the text would not parse, but the function removes
    both and returns the timestamp. *)
Lemma single_bracket_counterexample :
  startswith "[[2021-05-01 21:10:30.781]" "[" = true
  /\ bracketed_spec "[[2021-05-01 21:10:30.781]" = "[2021-05-01 21:10:30.781"%string
  /\ Strptime.strptime "[2021-05-01 21:10:30.781" = Raise ValueError
  /\ bracketed "[[2021-05-01 21:10:30.781]" = "2021-05-01 21:10:30.781"%string
  /\ get_datetime_from_log_line "[[2021-05-01 21:10:30.781]"
     = Ok (Some scenario_time).
Proof. repeat split; vm_compute; reflexivity. Qed.

(** C9, amended.  For a line that starts with a bracket the extractor parses
    the text before the first closing bracket with ALL its leading opening
    brackets removed; a line that begins with two opening brackets is parsed
    like the line with one. *)
Theorem leading_brackets_all_stripped :
  (forall log_line,
      startswith log_line "[" = true ->
      get_datetime_from_log_line log_line
      = (t <- Strptime.strptime (bracketed log_line) ;; Ok (Some t)))
  /\ (forall n body tail,
         has_char "]" body = false ->
         startswith body "[" = false ->
         tail = EmptyString \/ startswith tail "]" = true ->
         bracketed (brackets (S n) ++ body ++ tail) = body
         /\ get_datetime_from_log_line (brackets (S n) ++ body ++ tail)
            = (t <- Strptime.strptime body ;; Ok (Some t)))
  /\ get_datetime_from_log_line "[[2021-05-01 21:10:30.781]"
     = Ok (Some scenario_time).
Proof.
  assert (G : forall log_line,
             startswith log_line "[" = true ->
             get_datetime_from_log_line log_line
             = (t <- Strptime.strptime (bracketed log_line) ;; Ok (Some t))).
  { intros log_line S. unfold get_datetime_from_log_line. rewrite S. reflexivity. }
  split; [exact G|]. split; [|vm_compute; reflexivity].
  intros n body tail NB NS T.
  pose proof (bracketed_prefix (S n) body tail NB NS T) as B.
  split; [exact B|]. rewrite G by (cbn [brackets append]; apply startswith_cons).
  rewrite B. reflexivity.
Qed.

Lemma leading_brackets_all_stripped_witness :
  bracketed "[[[2021-05-01 21:10:30.781] x" = "2021-05-01 21:10:30.781"%string
  /\ get_datetime_from_log_line "[[[2021-05-01 21:10:30.781] x"
     = Ok (Some scenario_time).
Proof.
  destruct leading_brackets_all_stripped as [_ [P _]].
  destruct (P 2%nat "2021-05-01 21:10:30.781"%string "] x"%string) as [B G].
  - reflexivity.
  - reflexivity.
  - right. reflexivity.
  - split; [exact B|].
    exact (eq_trans G eq_refl).
Defined.

(** C7. Extraction is a left inverse of formatting: a valid timestamp
    written in the fixed format parses back to itself, and so does a log
    line that begins with it in brackets, whatever follows. *)
Theorem extract_format_roundtrip (t : datetime) (rest : string) :
  valid_datetime t = true ->
  Strptime.strptime (format_timestamp t) = Ok t
  /\ get_datetime_from_log_line ("[" ++ format_timestamp t ++ "]" ++ rest)
     = Ok (Some t).
Proof.
  intros V. split; [apply strptime_format, V|].
  unfold get_datetime_from_log_line.
  change (startswith ("[" ++ format_timestamp t ++ "]" ++ rest) "[") with true.
  cbv iota. fold (bracketed ("[" ++ format_timestamp t ++ "]" ++ rest)).
  change ("[" ++ format_timestamp t ++ "]" ++ rest)%string
    with (brackets 1 ++ format_timestamp t ++ "]" ++ rest)%string.
  rewrite bracketed_prefix.
  - rewrite (strptime_format t V). reflexivity.
  - apply format_no_bracket, V.
  - apply format_starts_with_digit, V.
  - right. apply startswith_cons.
Qed.

Lemma extract_format_roundtrip_witness :
  format_timestamp scenario_time = "2021-05-01 21:10:30.781000"%string
  /\ get_datetime_from_log_line "[2021-05-01 21:10:30.781000] some text"
     = Ok (Some scenario_time).
Proof.
  split; [reflexivity|].
  apply (extract_format_roundtrip scenario_time " some text"). reflexivity.
Defined.

(** C6. A line that starts with a bracket and whose bracketed text does not
    parse makes the extractor raise [ValueError]; neither scan catches it:
    the first scan raises it when it reaches the line, the second scan
    raises it when the lines before got through, and so does the whole
    function, which returns no histogram for any file containing such a
    line. *)
Theorem malformed_timestamp_propagates (log_line : string) :
  startswith log_line "[" = true ->
  Strptime.strptime (bracketed log_line) = Raise ValueError ->
  get_datetime_from_log_line log_line = Raise ValueError
  /\ (forall pre post fuel,
         Forall (fun l => get_datetime_from_log_line l = Ok None) pre ->
         (List.length pre < fuel)%nat ->
         first_datetime fuel (pre ++ log_line :: post) = Raise ValueError)
  /\ (forall pre post delta acc,
         forallb (line_ok delta) pre = true ->
         count_lines delta (pre ++ log_line :: post) acc = Raise ValueError)
  /\ (forall pre post iv delta fuel,
         timedelta_of iv = Ok delta ->
         _to_microseconds delta <> 0 ->
         forallb (line_ok delta) pre = true ->
         (List.length pre < fuel)%nat ->
         get_log_activity_interval fuel (pre ++ log_line :: post) iv
         = Raise ValueError)
  /\ (forall pre post iv fuel h,
         get_log_activity_interval fuel (pre ++ log_line :: post) iv <> Ok h).
Proof.
  intros S P.
  assert (G : get_datetime_from_log_line log_line = Raise ValueError).
  { unfold get_datetime_from_log_line. rewrite S.
    fold (bracketed log_line). rewrite P. reflexivity. }
  split; [exact G|]. split; [|split; [|split]].
  - intros pre post fuel F L. apply first_datetime_raises; assumption.
  - intros pre post delta acc A. apply count_lines_raises; assumption.
  - intros pre post iv delta fuel D NZ A L.
    unfold get_log_activity_interval. rewrite D. cbn [bind].
    destruct (existsb yields_timestamp pre) eqn:E.
    + assert (F : exists t, first_datetime fuel (pre ++ log_line :: post) = Ok t).
      { clear - A E L. revert fuel L.
        induction pre as [|l pre IH]; intros fuel L; [discriminate|].
        cbn [forallb existsb] in A, E. apply andb_true_iff in A.
        destruct A as [Al A]. destruct fuel; [cbn in L; lia|].
        cbn [app first_datetime readline].
        unfold line_ok in Al. unfold yields_timestamp in E at 1.
        destruct (get_datetime_from_log_line l) as [[t|]| |]; try discriminate;
          cbn [bind].
        - eauto.
        - cbn in E. apply IH; [assumption | assumption | cbn in L; lia]. }
      destruct F as [t F]. pose proof (first_datetime_valid _ _ _ F) as V.
      rewrite (initialize_spec _ _ V NZ _ _ F). cbn [bind].
      apply count_lines_raises; assumption.
    + assert (F : Forall (fun l => get_datetime_from_log_line l = Ok None) pre).
      { clear - A E. induction pre as [|l pre IH]; constructor.
        - cbn [forallb existsb] in A, E. apply andb_true_iff in A.
          apply orb_false_iff in E. destruct A as [Al _], E as [El _].
          unfold line_ok in Al. unfold yields_timestamp in El.
          destruct (get_datetime_from_log_line l) as [[t|]| |]; congruence.
        - cbn [forallb existsb] in A, E. apply andb_true_iff in A.
          apply orb_false_iff in E. apply IH; tauto. }
      unfold initialize.
      rewrite (first_datetime_raises _ _ _ _ F G fuel L). reflexivity.
  - intros pre post iv fuel h R.
    destruct (run_inv _ _ _ _ R) as [delta [t [_ [_ [_ [_ [_ [_ C]]]]]]]].
    apply count_lines_lines_ok in C. rewrite forallb_app in C.
    apply andb_true_iff in C. destruct C as [_ C]. cbn [forallb] in C.
    apply andb_true_iff in C. destruct C as [C _].
    unfold line_ok in C. rewrite G in C. discriminate.
Qed.

Lemma malformed_timestamp_propagates_witness :
  get_datetime_from_log_line "[exthost] started" = Raise ValueError
  /\ get_log_activity_interval 3 [scenario_line; "[exthost] started"%string]
                               default_interval = Raise ValueError.
Proof.
  destruct (malformed_timestamp_propagates "[exthost] started")
    as [G [_ [_ [R _]]]].
  - reflexivity.
  - vm_compute. reflexivity.
  - split; [exact G|].
    apply (R [scenario_line] [] default_interval half_hour 3%nat).
    + reflexivity.
    + discriminate.
    + vm_compute. reflexivity.
    + cbn. lia.
Defined.

(** ** Interval Aggregator *)

(** The scenario of C1, evaluated: the line with the timestamp
    21:10:30.781 and a width of thirty minutes.  Rounding down gives 21:00,
    the bucket C1 names; the function counts the line under 21:30 and
    leaves the pre-seeded 21:00 bucket at zero. *)
Lemma scenario_bucket_evaluated :
  get_datetime_from_log_line scenario_line = Ok (Some scenario_time)
  /\ round_down_spec scenario_time half_hour = scenario_lower
  /\ round_to_interval scenario_time half_hour = Ok scenario_upper
  /\ round_to_interval scenario_time half_hour
     <> Ok (round_down_spec scenario_time half_hour)
  /\ exists h,
       get_log_activity_interval 1 [scenario_line] default_interval = Ok h
       /\ get scenario_lower h = Some 0
       /\ get scenario_upper h = Some 1.
Proof.
  split; [vm_compute; reflexivity|].
  split; [vm_compute; reflexivity|].
  split; [vm_compute; reflexivity|].
  split; [vm_compute; discriminate|].
  eexists. split; [vm_compute; reflexivity|].
  split; vm_compute; reflexivity.
Qed.

(** C1.  The function does not round down.  It rounds a timestamp [t] to
    [t + ((epoch - t) mod w)]: for a positive width [w] that is [t] rounded
    UP to the next multiple of [w] from the epoch, one whole width after
    the boundary C1 names whenever [t] is not on a boundary itself.  In the
    returned histogram the count of every bucket is the number of lines
    whose timestamp rounds to it, so every timestamped line is counted in
    the upper bucket.  When the upper boundary is past the last datetime
    the rounding raises [OverflowError], and so do the second scan and the
    function, which have no handler.  The scenario line is counted in
    bucket 21:30 and bucket 21:00 stays at zero; at the thirty seconds of
    the function's own example the same timestamp goes to 21:11:00, not to
    21:10:30; a line of the last half hour of the year 9999 makes the
    function raise. *)
Theorem bucket_rounds_up :
  (forall t delta,
      valid_datetime t = true -> valid_timedelta delta = true ->
      _to_microseconds delta <> 0 ->
      round_to_interval t delta
      = (if in_range (rounded_ticks t delta)
         then Ok (of_ticks (rounded_ticks t delta))
         else Raise OverflowError)
      /\ forall k,
           round_to_interval t delta = Ok k ->
           valid_datetime k = true
           /\ since_epoch k
              = since_epoch t + (- since_epoch t) mod _to_microseconds delta
           /\ since_epoch k mod _to_microseconds delta = 0
           /\ (0 < _to_microseconds delta ->
               since_epoch t <= since_epoch k
               < since_epoch t + _to_microseconds delta)
           /\ (0 < _to_microseconds delta ->
               since_epoch t mod _to_microseconds delta <> 0 ->
               since_epoch k
               = since_epoch t - since_epoch t mod _to_microseconds delta
                 + _to_microseconds delta))
  /\ (forall fuel log_file iv delta h,
         timedelta_of iv = Ok delta ->
         get_log_activity_interval fuel log_file iv = Ok h ->
         (forall k, count_of k h = hits delta k log_file)
         /\ (forall l t,
                In l log_file -> get_datetime_from_log_line l = Ok (Some t) ->
                exists k, round_to_interval t delta = Ok k /\ 1 <= count_of k h))
  /\ (forall fuel pre l post iv delta t0 t,
         timedelta_of iv = Ok delta ->
         _to_microseconds delta <> 0 ->
         first_datetime fuel (pre ++ l :: post) = Ok t0 ->
         forallb (line_ok delta) pre = true ->
         get_datetime_from_log_line l = Ok (Some t) ->
         in_range (rounded_ticks t delta) = false ->
         round_to_interval t delta = Raise OverflowError
         /\ (forall acc,
                count_lines delta (pre ++ l :: post) acc = Raise OverflowError)
         /\ get_log_activity_interval fuel (pre ++ l :: post) iv
            = Raise OverflowError)
  /\ (exists h,
         get_log_activity_interval 1 [scenario_line] default_interval = Ok h
         /\ get scenario_lower h = Some 0
         /\ get scenario_upper h = Some 1)
  /\ round_to_interval scenario_time (mk_timedelta (30 * US_PER_SECOND))
     = Ok (mk_datetime 2021 5 1 21 11 0 0)
  /\ get_log_activity_interval 1 ["[9999-12-31 23:40:00.000] some text"%string]
                               default_interval
     = Raise OverflowError.
Proof.
  split; [|split; [|split; [|split; [|split]]]].
  - intros t delta V VD NZ.
    pose proof (round_to_interval_spec t delta V VD NZ) as S.
    split; [exact S|]. intros k R. rewrite R in S.
    destruct (in_range (rounded_ticks t delta)) eqn:I; [|discriminate].
    injection S as ->. destruct (of_ticks_spec _ I) as [Vk Tk].
    split; [exact Vk|].
    assert (Ek : since_epoch (of_ticks (rounded_ticks t delta))
                 = since_epoch t + (- since_epoch t) mod _to_microseconds delta).
    { unfold since_epoch at 1. rewrite Tk. unfold rounded_ticks, since_epoch. lia. }
    rewrite Ek. set (x := since_epoch t).
    set (w := _to_microseconds delta) in *. clearbody x w.
    split; [reflexivity|]. split; [|split].
    + rewrite Z.add_mod_idemp_r by assumption.
      replace (x + - x) with 0 by lia. apply Z.mod_0_l. assumption.
    + intros P. pose proof (Z.mod_pos_bound (- x) w P). lia.
    + intros P M. rewrite (Z.mod_opp_l_nz x w NZ M). lia.
  - intros fuel log_file iv delta h D R.
    destruct (run_inv _ _ _ _ R) as [delta' [t0 [D' [VD [NZ [F [V [I C]]]]]]]].
    assert (delta' = delta) by congruence. subst delta'.
    destruct (count_lines_spec _ _ _ _ C) as [_ [Cnt _]].
    assert (H : forall k, count_of k h = hits delta k log_file).
    { intros k. rewrite Cnt, (count_of_zero _ _ (preseeded_values _ _)). lia. }
    split; [exact H|]. intros l t I' G.
    pose proof (count_lines_lines_ok _ _ _ _ C) as A.
    pose proof (proj1 (forallb_forall _ _) A l I') as L.
    unfold line_ok in L. rewrite G in L.
    destruct (round_to_interval t delta) as [k| |] eqn:Rk; try discriminate.
    exists k. split; [reflexivity|]. rewrite H.
    apply (hits_in _ _ _ l I'). unfold hits_bucket. rewrite G, Rk.
    apply datetime_eqb_refl.
  - intros fuel pre l post iv delta t0 t D NZ F A G I.
    assert (VD : valid_timedelta delta = true)
      by (unfold timedelta_of in D; exact (valid_timedelta_new _ _ _ _ _ _ _ _ D)).
    pose proof (get_datetime_valid _ _ G) as V.
    assert (R : round_to_interval t delta = Raise OverflowError)
      by (rewrite (round_to_interval_spec t delta V VD NZ), I; reflexivity).
    split; [exact R|]. split.
    + apply (count_lines_round_raises delta pre l post t); assumption.
    + unfold get_log_activity_interval. rewrite D. cbn [bind].
      rewrite (initialize_spec t0 delta (first_datetime_valid _ _ _ F) NZ
                               fuel _ F).
      cbn [bind].
      apply (count_lines_round_raises delta pre l post t); assumption.
  - eexists. split; [vm_compute; reflexivity|].
    split; vm_compute; reflexivity.
  - vm_compute. reflexivity.
  - vm_compute. reflexivity.
Qed.

Lemma bucket_rounds_up_witness :
  round_to_interval scenario_time half_hour = Ok scenario_upper
  /\ since_epoch scenario_upper mod _to_microseconds half_hour = 0
  /\ since_epoch scenario_time <= since_epoch scenario_upper
  /\ since_epoch scenario_upper
     = since_epoch scenario_lower + _to_microseconds half_hour
  /\ get_log_activity_interval 1 ["[9999-12-31 23:40:00.000] some text"%string]
                               default_interval
     = Raise OverflowError.
Proof.
  destruct bucket_rounds_up as [R [_ [O _]]].
  destruct (R scenario_time half_hour) as [S P].
  - reflexivity.
  - reflexivity.
  - discriminate.
  - split; [exact S|].
    destruct (P scenario_upper S) as [_ [_ [M [B U]]]].
    split; [exact M|]. split; [apply B; reflexivity|].
    split; [vm_compute; reflexivity|].
    apply (O 1%nat [] "[9999-12-31 23:40:00.000] some text"%string []
             default_interval half_hour
             (mk_datetime 9999 12 31 23 40 0 0)
             (mk_datetime 9999 12 31 23 40 0 0)).
    + reflexivity.
    + discriminate.
    + vm_compute; reflexivity.
    + reflexivity.
    + vm_compute; reflexivity.
    + vm_compute; reflexivity.
Defined.

(** C8. Rounding a timestamp that already lies on a bucket boundary returns
    that timestamp.  (The width is not zero: with a zero width the function
    raises [ZeroDivisionError] while pre-seeding and rounds nothing.) *)
Theorem rounding_idempotent (t : datetime) (delta : timedelta) :
  valid_datetime t = true -> valid_timedelta delta = true ->
  _to_microseconds delta <> 0 ->
  since_epoch t mod _to_microseconds delta = 0 ->
  round_to_interval t delta = Ok t.
Proof.
  intros V VD NZ B.
  rewrite (round_to_interval_spec t delta V VD NZ).
  unfold rounded_ticks. rewrite (Z.mod_opp_l_z _ _ NZ B), Z.add_0_r.
  rewrite (ticks_in_range t V), (of_ticks_ticks t V). reflexivity.
Qed.

Lemma rounding_idempotent_witness :
  round_to_interval scenario_lower half_hour = Ok scenario_lower.
Proof.
  apply (rounding_idempotent scenario_lower half_hour).
  - reflexivity.
  - reflexivity.
  - discriminate.
  - reflexivity.
Defined.

(** C4. For a width [w] that divides one day, the first [with] block
    builds exactly [86400 s / w] buckets that tile the anchor's day: all
    counts zero, the keys in order [anchor], [anchor + w], [anchor + 2 w],
    ..., each strictly before the next and [w] apart.  For thirty minutes
    and the anchor 2021-05-01 00:00:00 these are the 48 keys 00:00, 00:30,
    ..., 23:30. *)
Theorem preseed_buckets :
  (forall fuel log_file t delta,
      first_datetime fuel log_file = Ok t ->
      0 < _to_microseconds delta ->
      US_PER_DAY mod _to_microseconds delta = 0 ->
      let w := _to_microseconds delta in
      let n := US_PER_DAY / w in
      let key := bucket_key (midnight t) delta in
      exists seeded,
        initialize fuel log_file delta = Ok seeded
        /\ Z.of_nat (List.length seeded) = n
        /\ w * n = US_PER_DAY
        /\ (forall ws, w = ws * US_PER_SECOND -> n = 86400 / ws)
        /\ Forall (fun v => v = 0) (values seeded)
        /\ (forall i, 0 <= i < n ->
                      nth_error seeded (Z.to_nat i) = Some (key i, 0))
        /\ key 0 = midnight t
        /\ (forall i, 0 <= i < n ->
                      valid_datetime (key i) = true
                      /\ since_epoch (key i) = since_epoch (midnight t) + w * i)
        /\ (forall i, 0 <= i -> i + 1 < n ->
                      datetime_ltb (key i) (key (i + 1)) = true
                      /\ datetime_sub (key (i + 1)) (key i) = Ok delta))
  /\ preseed scenario_anchor half_hour
             (range (US_PER_DAY / _to_microseconds half_hour)) []
     = Ok (map (fun i => (mk_datetime 2021 5 1 (i / 2) (30 * (i mod 2)) 0 0, 0))
               (range 48))
  /\ initialize 1 [scenario_line] half_hour
     = Ok (map (fun i => (mk_datetime 2021 5 1 (i / 2) (30 * (i mod 2)) 0 0, 0))
               (range 48)).
Proof.
  split; [|split; vm_compute; reflexivity].
  intros fuel log_file t delta F W Dv w n key.
  pose proof (first_datetime_valid _ _ _ F) as V.
  assert (W' : 0 < w) by exact W.
  assert (NZ : w <> 0) by lia.
  assert (Day : US_PER_DAY = 86400000000) by reflexivity.
  exists (preseeded (midnight t) delta).
  assert (Hn : w * n = US_PER_DAY).
  { subst n. pose proof (Z.div_mod US_PER_DAY w NZ) as E. fold w in Dv. lia. }
  assert (Npos : 0 < n) by nia.
  assert (Hkey : forall i, 0 <= i < n ->
            in_range (ticks (midnight t) + w * i) = true).
  { intros i Hi. apply bucket_key_spec; [assumption|]. fold w. nia. }
  split; [apply initialize_spec; assumption|].
  split.
  { unfold preseeded. rewrite length_map, length_range. fold w. fold n.
    lia. }
  split; [exact Hn|].
  split.
  { intros ws Hws. subst n. rewrite Hws. unfold US_PER_DAY, US_PER_SECOND.
    replace (24 * 3600 * 1000000) with (86400 * 1000000) by lia.
    rewrite Z.div_mul_cancel_r; [reflexivity | | lia].
    intros ->. subst w. rewrite Hws in W. lia. }
  split; [apply preseeded_values|].
  split.
  { intros i Hi. unfold preseeded. rewrite nth_error_map. fold w. fold n.
    rewrite (nth_error_range n i Hi). reflexivity. }
  split.
  { subst key. unfold bucket_key. rewrite Z.mul_0_r, Z.add_0_r.
    apply of_ticks_ticks, valid_midnight, V. }
  split.
  { intros i Hi. subst key. unfold bucket_key. fold w.
    destruct (of_ticks_spec _ (Hkey i Hi)) as [Vk Tk].
    split; [exact Vk|]. unfold since_epoch. rewrite Tk. lia. }
  intros i Hi0 Hi1. subst key. unfold bucket_key. fold w.
  destruct (of_ticks_spec _ (Hkey i ltac:(lia))) as [Vi Ti].
  destruct (of_ticks_spec _ (Hkey (i + 1) ltac:(lia))) as [Vj Tj].
  split.
  - apply datetime_ltb_iff; try assumption. rewrite Ti, Tj. nia.
  - rewrite (datetime_sub_spec _ _ Vj Vi), Ti, Tj.
    replace (ticks (midnight t) + w * (i + 1) - (ticks (midnight t) + w * i))
      with w by lia.
    subst w. destruct delta. reflexivity.
Qed.

Lemma preseed_buckets_witness :
  exists seeded,
    initialize 1 [scenario_line] half_hour = Ok seeded
    /\ Z.of_nat (List.length seeded) = 48
    /\ nth_error seeded 47 = Some (mk_datetime 2021 5 1 23 30 0 0, 0).
Proof.
  destruct preseed_buckets as [P _].
  destruct (P 1%nat [scenario_line] scenario_time half_hour)
    as [seeded [I [L [_ [_ [_ [K _]]]]]]].
  - reflexivity.
  - reflexivity.
  - reflexivity.
  - exists seeded. split; [exact I|]. split; [exact L|].
    apply (K 47). vm_compute. split; [discriminate | reflexivity].
Defined.

(** C3. The counts of the returned histogram add up to the number of lines
    that yield a timestamp.  The function does return on a file with a
    timestamped line when the interval is not zero and every line gets
    through the second scan. *)
Theorem histogram_total (log_file : file) (iv : interval) :
  (forall fuel h,
      get_log_activity_interval fuel log_file iv = Ok h ->
      total h = count_timestamped log_file /\ 1 <= count_timestamped log_file)
  /\ (forall delta fuel,
         timedelta_of iv = Ok delta ->
         _to_microseconds delta <> 0 ->
         existsb yields_timestamp log_file = true ->
         forallb (line_ok delta) log_file = true ->
         (List.length log_file <= fuel)%nat ->
         exists h, get_log_activity_interval fuel log_file iv = Ok h
                   /\ total h = count_timestamped log_file).
Proof.
  assert (P : forall fuel h,
             get_log_activity_interval fuel log_file iv = Ok h ->
             total h = count_timestamped log_file
             /\ 1 <= count_timestamped log_file).
  { intros fuel h R.
    destruct (run_inv _ _ _ _ R) as [delta [t [D [VD [NZ [F [V [I C]]]]]]]].
    destruct (count_lines_spec _ _ _ _ C) as [T _].
    rewrite (total_zero _ (preseeded_values _ _)) in T.
    split; [lia|].
    clear - F. revert log_file F. induction fuel as [|fuel IH]; intros f F;
      [discriminate|].
    cbn [first_datetime] in F. destruct f as [|l f]; cbn [readline] in F.
    - change (get_datetime_from_log_line EmptyString)
        with (@Ok (option datetime) None) in F.
      cbn [bind] in F. specialize (IH _ F).
      unfold count_timestamped in IH. cbn in IH. lia.
    - rewrite count_timestamped_cons. unfold yields_timestamp.
      destruct (get_datetime_from_log_line l) as [[t'|]| |]; cbn [bind] in F;
        try discriminate.
      + unfold count_timestamped. lia.
      + specialize (IH _ F). lia. }
  split; [exact P|].
  intros delta fuel D NZ E A L.
  destruct (run_returns _ _ _ D NZ E A fuel L) as [h R].
  exists h. split; [exact R | apply (P _ _ R)].
Qed.

Lemma histogram_total_witness :
  exists h,
    get_log_activity_interval 2 [scenario_line; "no timestamp here"%string]
                              default_interval = Ok h
    /\ total h = 1.
Proof.
  destruct (histogram_total [scenario_line; "no timestamp here"%string]
                            default_interval) as [_ T].
  destruct (T half_hour 2%nat) as [h [R E]].
  - reflexivity.
  - discriminate.
  - reflexivity.
  - vm_compute. reflexivity.
  - cbn. lia.
  - exists h. split; [exact R | exact E].
Defined.

(** C10. Every pre-seeded key is a key of the returned histogram, with a
    count that is at least its initial one; every count of the returned
    histogram is non-negative; and one counting step either adds one to the
    count of an existing key or appends a new key with count 1, leaving
    every other entry as it was.  The function returns under the conditions
    of [histogram_total]. *)
Theorem preseeded_keys_kept (log_file : file) (iv : interval) :
  (forall fuel h,
      get_log_activity_interval fuel log_file iv = Ok h ->
      exists delta t,
        timedelta_of iv = Ok delta
        /\ first_datetime fuel log_file = Ok t
        /\ initialize fuel log_file delta = Ok (preseeded (midnight t) delta)
        /\ (forall k, In k (keys (preseeded (midnight t) delta)) -> In k (keys h))
        /\ (forall k v, get k (preseeded (midnight t) delta) = Some v ->
                        exists v', get k h = Some v' /\ v <= v')
        /\ Forall (fun v => 0 <= v) (values h))
  /\ (forall k acc,
         (forall v, get k acc = Some v ->
                    get k (count_one k acc) = Some (v + 1)
                    /\ keys (count_one k acc) = keys acc)
         /\ (get k acc = None -> count_one k acc = acc ++ [(k, 1)])
         /\ (forall k', k <> k' -> get k' (count_one k acc) = get k' acc))
  /\ (forall delta fuel,
         timedelta_of iv = Ok delta ->
         _to_microseconds delta <> 0 ->
         existsb yields_timestamp log_file = true ->
         forallb (line_ok delta) log_file = true ->
         (List.length log_file <= fuel)%nat ->
         exists h, get_log_activity_interval fuel log_file iv = Ok h).
Proof.
  split; [|split].
  - intros fuel h R.
    destruct (run_inv _ _ _ _ R) as [delta [t [D [VD [NZ [F [V [I C]]]]]]]].
    exists delta, t.
    destruct (count_lines_spec _ _ _ _ C) as [_ [Cnt [K Vs]]].
    repeat split; try assumption.
    + intros k v G.
      assert (I' : In k (keys (preseeded (midnight t) delta)))
        by (apply get_in_keys; eauto).
      apply K, get_in_keys in I'. destruct I' as [v' G']. exists v'.
      split; [assumption|].
      specialize (Cnt k). unfold count_of in Cnt. rewrite G, G' in Cnt.
      pose proof (hits_nonneg delta k log_file). lia.
    + apply Vs. eapply Forall_impl; [|apply preseeded_values].
      cbn. intros v ->. lia.
  - intros k acc. repeat split.
    + unfold count_one. rewrite H. apply get_set_same.
    + unfold count_one. rewrite H. revert H. unfold keys.
      induction acc as [|[k0 v0] acc IH]; cbn; [discriminate|].
      destruct (datetime_eqb k0 k) eqn:E; cbn; [reflexivity|].
      intros H. rewrite (IH H). reflexivity.
    + intros G. unfold count_one. rewrite G. apply set_fresh, G.
    + intros k' N. unfold count_one.
      destruct (get k acc); apply get_set_other, N.
  - intros delta fuel D NZ E A L. exact (run_returns _ _ _ D NZ E A fuel L).
Qed.

Lemma preseeded_keys_kept_witness :
  exists h,
    get_log_activity_interval 1 [scenario_line] default_interval = Ok h
    /\ In (mk_datetime 2021 5 1 0 0 0 0) (keys h)
    /\ Forall (fun v => 0 <= v) (values h).
Proof.
  destruct (preseeded_keys_kept [scenario_line] default_interval) as [P [_ T]].
  destruct (T half_hour 1%nat) as [h R].
  - reflexivity.
  - discriminate.
  - reflexivity.
  - vm_compute. reflexivity.
  - cbn. lia.
  - destruct (P _ _ R) as [delta [t [D [F [_ [K [_ V]]]]]]].
    exists h. split; [exact R|]. split; [|exact V].
    apply K. vm_compute in D. injection D as <-.
    vm_compute in F. injection F as <-.
    vm_compute. left. reflexivity.
Defined.

(** C2. On a file no line of which yields a timestamp the function never
    signals that no timestamped line was found.  When no line starts with a
    bracket the first scan reads past the end of the file for ever: whatever
    the fuel, the function has neither returned nor raised.  Otherwise the
    first scan stops at the first malformed bracket line with [ValueError]. *)
Theorem no_timestamp_never_returns
    (log_file : file) (iv : interval) (delta : timedelta) (fuel : nat) :
  timedelta_of iv = Ok delta ->
  (Forall (fun l => get_datetime_from_log_line l = Ok None) log_file ->
   get_log_activity_interval fuel log_file iv = OutOfFuel)
  /\ (existsb yields_timestamp log_file = false ->
      get_log_activity_interval fuel log_file iv = OutOfFuel
      \/ get_log_activity_interval fuel log_file iv = Raise ValueError).
Proof.
  intros D.
  assert (A : forall r, first_datetime fuel log_file = r ->
                        (forall t, r <> Ok t) ->
                        get_log_activity_interval fuel log_file iv
                        = match r with
                          | Ok _ => OutOfFuel
                          | Raise e => Raise e
                          | OutOfFuel => OutOfFuel
                          end).
  { intros r E N. unfold get_log_activity_interval, initialize.
    rewrite D. cbn [bind]. rewrite E.
    destruct r as [t| |]; [destruct (N t eq_refl) | reflexivity | reflexivity]. }
  split.
  - intros F. apply (A OutOfFuel); [apply first_datetime_diverges, F | discriminate].
  - intros E. destruct (first_event log_file) as [F | [pre [l [post [-> [F N]]]]]].
    + left. apply (A OutOfFuel);
        [apply first_datetime_diverges, F | discriminate].
    + assert (G : get_datetime_from_log_line l = Raise ValueError).
      { rewrite existsb_app in E. apply orb_false_iff in E. destruct E as [_ E].
        cbn [existsb] in E. apply orb_false_iff in E. destruct E as [E _].
        unfold yields_timestamp in E.
        destruct (get_datetime_outcome l) as [G | [[t G] | G]];
          [contradiction | rewrite G in E; discriminate | exact G]. }
      destruct (le_lt_dec fuel (List.length pre)) as [S | L].
      * left. apply (A OutOfFuel);
          [apply first_datetime_short; assumption | discriminate].
      * right. apply (A (Raise ValueError));
          [apply first_datetime_raises; assumption | discriminate].
Qed.

Lemma no_timestamp_never_returns_witness :
  get_log_activity_interval 1000 ["no timestamp here"%string] default_interval
  = OutOfFuel.
Proof.
  destruct (no_timestamp_never_returns ["no timestamp here"%string]
              default_interval half_hour 1000) as [P _].
  - reflexivity.
  - apply P. repeat constructor.
Defined.

(** * Lemmas for the further properties *)

(** ** The order of the keys *)

Module OrderFacts.
Import Calendar Datetime TimeAux DatetimeFacts Dict DictFacts.
Import LogProcess LogAux SeedAux ScanFacts SeedFacts RunFacts OrderAux.

Lemma get_none_iff (k : datetime) (d : dict) :
  get k d = None <-> existsb (datetime_eqb k) (keys d) = false.
Proof.
  induction d as [|[k0 v0] d IH]; cbn; [tauto|].
  destruct (datetime_eqb k0 k) eqn:E.
  - apply datetime_eqb_eq in E. subst k0. rewrite datetime_eqb_refl. cbn.
    split; discriminate.
  - apply datetime_eqb_neq in E.
    assert (E' : datetime_eqb k k0 = false) by (apply datetime_eqb_neq; congruence).
    rewrite E'. cbn. exact IH.
Qed.

Lemma keys_set_present (k : datetime) (v v0 : Z) (d : dict) :
  get k d = Some v0 -> keys (set k v d) = keys d.
Proof.
  unfold keys. induction d as [|[k0 v1] d IH]; cbn; [discriminate|].
  destruct (datetime_eqb k0 k); cbn; [reflexivity|].
  intros H. rewrite (IH H). reflexivity.
Qed.

Lemma keys_count_one_add (k : datetime) (d : dict) :
  keys (count_one k d) = add_key (keys d) k.
Proof.
  unfold count_one, add_key. destruct (get k d) as [v|] eqn:G.
  - rewrite (keys_set_present k (v + 1) v d G).
    destruct (existsb (datetime_eqb k) (keys d)) eqn:E; [reflexivity|].
    apply get_none_iff in E. congruence.
  - rewrite (set_fresh _ _ _ G). unfold keys. rewrite map_app. cbn.
    apply get_none_iff in G. fold (keys d). rewrite G. reflexivity.
Qed.

Lemma count_lines_keys (delta : timedelta) (f : file) :
  forall acc h,
  count_lines delta f acc = Ok h ->
  keys h = fold_left add_key (rounded_keys delta f) (keys acc).
Proof.
  induction f as [|l f IH]; intros acc h.
  - cbn. intros [= <-]. reflexivity.
  - rewrite count_lines_step. unfold rounded_keys. cbn [flat_map].
    fold (rounded_keys delta f).
    destruct (get_datetime_from_log_line l) as [[t|]| |]; try discriminate.
    + destruct (round_to_interval t delta) as [k| |]; try discriminate.
      intros H. rewrite (IH _ _ H), keys_count_one_add. reflexivity.
    + apply IH.
Qed.

Lemma add_key_NoDup (ks : list datetime) (k : datetime) :
  NoDup ks -> NoDup (add_key ks k).
Proof.
  intros N. unfold add_key. destruct (existsb (datetime_eqb k) ks) eqn:E;
    [assumption|].
  apply NoDup_app; [assumption | repeat constructor; intros [] |].
  intros x I [Ex | []]. subst x.
  assert (T : existsb (datetime_eqb k) ks = true).
  { apply existsb_exists. exists k. split; [assumption | apply datetime_eqb_refl]. }
  congruence.
Qed.

Lemma fold_add_key (l : list datetime) :
  forall ks,
  (NoDup ks -> NoDup (fold_left add_key l ks))
  /\ exists extra,
       fold_left add_key l ks = ks ++ extra
       /\ forall k, In k extra -> In k l /\ ~ In k ks.
Proof.
  induction l as [|k l IH]; intros ks.
  - cbn. split; [tauto|]. exists []. rewrite app_nil_r. split; [reflexivity|].
    intros k [].
  - cbn [fold_left]. destruct (IH (add_key ks k)) as [N [extra [E X]]].
    split; [intros H; apply N, add_key_NoDup, H|].
    unfold add_key in *. destruct (existsb (datetime_eqb k) ks) eqn:P.
    + exists extra. split; [exact E|]. intros k' I.
      destruct (X k' I). split; [right|]; assumption.
    + exists (k :: extra). rewrite E, <- app_assoc. split; [reflexivity|].
      intros k' [<- | I].
      * split; [left; reflexivity|]. intros I.
        assert (T : existsb (datetime_eqb k) ks = true).
        { apply existsb_exists. exists k. split; [assumption | apply datetime_eqb_refl]. }
        congruence.
      * destruct (X k' I) as [A B]. split; [right; assumption|].
        intros C. apply B, in_or_app. left. exact C.
Qed.

Lemma NoDup_map_inj (A B : Type) (f : A -> B) (l : list A) :
  NoDup l ->
  (forall x y, In x l -> In y l -> f x = f y -> x = y) ->
  NoDup (map f l).
Proof.
  induction l as [|a l IH]; intros ND Inj; cbn; constructor.
  - inversion ND; subst. intros I. apply in_map_iff in I.
    destruct I as [b [E I]].
    assert (b = a) by (apply Inj; [right | left |]; auto). subst b. contradiction.
  - inversion ND; subst. apply IH; [assumption|].
    intros x y Ix Iy. apply Inj; right; assumption.
Qed.

Lemma ticks_bucket_key (t : datetime) (delta : timedelta) (i : Z) :
  valid_datetime t = true ->
  0 <= _to_microseconds delta * i < US_PER_DAY ->
  valid_datetime (bucket_key (midnight t) delta i) = true
  /\ ticks (bucket_key (midnight t) delta i)
     = ticks (midnight t) + _to_microseconds delta * i.
Proof.
  intros V B. unfold bucket_key.
  exact (of_ticks_spec _ (bucket_key_spec t delta i V B)).
Qed.

Lemma bucket_key_inj (t : datetime) (delta : timedelta) (i j : Z) :
  valid_datetime t = true -> _to_microseconds delta <> 0 ->
  0 <= _to_microseconds delta * i < US_PER_DAY ->
  0 <= _to_microseconds delta * j < US_PER_DAY ->
  bucket_key (midnight t) delta i = bucket_key (midnight t) delta j -> i = j.
Proof.
  intros V NZ Bi Bj E.
  pose proof (proj2 (ticks_bucket_key t delta i V Bi)) as Ti.
  pose proof (proj2 (ticks_bucket_key t delta j V Bj)) as Tj.
  rewrite E in Ti. rewrite Ti in Tj. nia.
Qed.

Lemma keys_map_zero (A : Type) (f : A -> datetime) (l : list A) :
  keys (map (fun i => (f i, 0)) l) = map f l.
Proof. unfold keys. rewrite map_map. reflexivity. Qed.

Lemma preseeded_keys (anchor : datetime) (delta : timedelta) :
  keys (preseeded anchor delta)
  = map (bucket_key anchor delta) (range (US_PER_DAY / _to_microseconds delta)).
Proof. unfold preseeded. apply keys_map_zero. Qed.

Lemma preseeded_keys_NoDup (t : datetime) (delta : timedelta) :
  valid_datetime t = true -> _to_microseconds delta <> 0 ->
  NoDup (keys (preseeded (midnight t) delta)).
Proof.
  intros V NZ. rewrite preseeded_keys.
  apply NoDup_map_inj; [apply NoDup_range|].
  intros i j Ii Ij E.
  apply (bucket_key_inj t delta i j V NZ); [| |exact E].
  - apply (range_within_day _ i NZ Ii).
  - apply (range_within_day _ j NZ Ij).
Qed.

End OrderFacts.

(** ** Where the rounded datetimes fall *)

Module RoundFacts.
Import Calendar Datetime TimeAux DatetimeFacts Dict DictFacts.
Import LogProcess LogAux SeedAux ScanFacts SeedFacts RunFacts OrderAux OrderFacts.
Import WindowAux.

Lemma since_epoch_ticks (t : datetime) : ticks t = since_epoch t + US_PER_DAY.
Proof. unfold since_epoch. rewrite ticks_datetime_min. lia. Qed.

(** Rounding up to a multiple of a positive [w], and down for a negative
    one. *)
Lemma round_up_arith (x w : Z) :
  w <> 0 ->
  (x + (- x) mod w) mod w = 0
  /\ (0 < w -> 0 <= (- x) mod w < w)
  /\ (w < 0 -> w < (- x) mod w <= 0).
Proof.
  intros NZ. split; [|split].
  - rewrite Z.add_mod_idemp_r by assumption.
    replace (x + - x) with 0 by lia. apply Z.mod_0_l. assumption.
  - intros P. apply Z.mod_pos_bound. assumption.
  - intros N. apply Z.mod_neg_bound. assumption.
Qed.

Lemma round_ok (t k : datetime) (delta : timedelta) :
  valid_datetime t = true -> valid_timedelta delta = true ->
  _to_microseconds delta <> 0 ->
  round_to_interval t delta = Ok k ->
  valid_datetime k = true /\ ticks k = rounded_ticks t delta
  /\ in_range (rounded_ticks t delta) = true.
Proof.
  intros V VD NZ R. rewrite (round_to_interval_spec t delta V VD NZ) in R.
  destruct (in_range (rounded_ticks t delta)) eqn:I; [|discriminate].
  injection R as <-. destruct (of_ticks_spec _ I). tauto.
Qed.

Lemma since_epoch_rounded (t k : datetime) (delta : timedelta) :
  valid_datetime t = true -> valid_timedelta delta = true ->
  _to_microseconds delta <> 0 ->
  round_to_interval t delta = Ok k ->
  since_epoch k = since_epoch t + (- since_epoch t) mod _to_microseconds delta.
Proof.
  intros V VD NZ R. destruct (round_ok _ _ _ V VD NZ R) as [_ [Tk _]].
  unfold since_epoch at 1. rewrite Tk. unfold rounded_ticks, since_epoch. lia.
Qed.

Lemma toordinal_midnight (t : datetime) : toordinal (midnight t) = toordinal t.
Proof. reflexivity. Qed.

(** The rounded datetime is a whole number of widths from the anchor when
    the width divides the day. *)
Lemma rounded_from_anchor (t0 t : datetime) (delta : timedelta) :
  0 < _to_microseconds delta ->
  US_PER_DAY mod _to_microseconds delta = 0 ->
  exists i,
    rounded_ticks t delta = ticks (midnight t0) + _to_microseconds delta * i
    /\ ticks t <= rounded_ticks t delta < ticks t + _to_microseconds delta.
Proof.
  intros W Dv. unfold rounded_ticks. rewrite ticks_midnight.
  rewrite (since_epoch_ticks t). set (x := since_epoch t).
  set (w := _to_microseconds delta) in *. clearbody x w.
  assert (NZ : w <> 0) by lia.
  destruct (round_up_arith x w NZ) as [M [B _]]. specialize (B W).
  apply Z.mod_divide in M; [|assumption]. destruct M as [q Hq].
  apply Z.mod_divide in Dv; [|assumption]. destruct Dv as [n Hn].
  exists (q - (toordinal t0 - 1) * n). split; [|lia].
  rewrite Hn in *. nia.
Qed.

Lemma round_at (t : datetime) (delta : timedelta) (r : Z) :
  valid_datetime t = true -> valid_timedelta delta = true ->
  _to_microseconds delta <> 0 ->
  rounded_ticks t delta = r ->
  round_to_interval t delta
  = if in_range r then Ok (of_ticks r) else Raise OverflowError.
Proof. intros V VD NZ <-. apply round_to_interval_spec; assumption. Qed.

Lemma next_midnight_spec (a : datetime) :
  in_range (ticks a + US_PER_DAY) = true ->
  valid_datetime (next_midnight a) = true
  /\ ticks (next_midnight a) = ticks a + US_PER_DAY.
Proof. intros I. unfold next_midnight. exact (of_ticks_spec _ I). Qed.

Lemma round_next_midnight (a t : datetime) (delta : timedelta) :
  valid_datetime t = true -> valid_timedelta delta = true ->
  _to_microseconds delta <> 0 ->
  rounded_ticks t delta = ticks a + US_PER_DAY ->
  round_to_interval t delta
  = if in_range (ticks a + US_PER_DAY) then Ok (next_midnight a)
    else Raise OverflowError.
Proof. intros V VD NZ E. unfold next_midnight. apply round_at; assumption. Qed.

Lemma round_bucket_key (t0 t : datetime) (delta : timedelta) (i : Z) :
  valid_datetime t0 = true ->
  valid_datetime t = true -> valid_timedelta delta = true ->
  _to_microseconds delta <> 0 ->
  0 <= _to_microseconds delta * i < US_PER_DAY ->
  rounded_ticks t delta = ticks (midnight t0) + _to_microseconds delta * i ->
  round_to_interval t delta = Ok (bucket_key (midnight t0) delta i).
Proof.
  intros V0 V VD NZ B E.
  rewrite (round_at t delta _ V VD NZ E), (bucket_key_spec t0 delta i V0 B).
  unfold bucket_key. reflexivity.
Qed.

Lemma same_day_window (t0 t : datetime) (delta : timedelta) :
  valid_datetime t0 = true -> valid_datetime t = true ->
  valid_timedelta delta = true ->
  0 < _to_microseconds delta ->
  US_PER_DAY mod _to_microseconds delta = 0 ->
  ticks (midnight t0) - _to_microseconds delta < ticks t ->
  ticks t <= ticks (midnight t0) + US_PER_DAY - _to_microseconds delta ->
  exists i,
    0 <= i < US_PER_DAY / _to_microseconds delta
    /\ round_to_interval t delta = Ok (bucket_key (midnight t0) delta i)
    /\ In (bucket_key (midnight t0) delta i) (keys (preseeded (midnight t0) delta))
    /\ ticks t <= ticks (bucket_key (midnight t0) delta i)
       < ticks t + _to_microseconds delta.
Proof.
  intros V0 V VD W Dv Lo Hi.
  destruct (rounded_from_anchor t0 t delta W Dv) as [i [E B]].
  assert (NZ : _to_microseconds delta <> 0) by lia.
  assert (Hn : _to_microseconds delta * (US_PER_DAY / _to_microseconds delta)
               = US_PER_DAY).
  { pose proof (Z.div_mod US_PER_DAY _ NZ). lia. }
  assert (Hi' : 0 <= i < US_PER_DAY / _to_microseconds delta) by nia.
  assert (Bi : 0 <= _to_microseconds delta * i < US_PER_DAY) by nia.
  destruct (ticks_bucket_key t0 delta i V0 Bi) as [Vk Tk].
  exists i. split; [exact Hi'|]. split; [|split].
  - apply round_bucket_key; assumption.
  - rewrite preseeded_keys. apply in_map.
    unfold range. apply in_map_iff. exists (Z.to_nat i). split; [lia|].
    apply in_seq. lia.
  - rewrite Tk, <- E. exact B.
Qed.

End RoundFacts.

(** ** More on the matcher *)

Module SuffixFacts.
Import Str Re Strptime FormatAux MatchFacts RegexFacts ExtractAux.

Lemma runs_suffix (p : ascii -> bool) (max : nat) :
  forall s rest, In rest (runs p max s) -> exists q, s = (q ++ rest)%string.
Proof.
  induction max as [|k IH]; intros s rest I.
  - destruct s; cbn in I; destruct I as [<- | []]; exists EmptyString; reflexivity.
  - destruct s as [|c s]; cbn [runs] in I.
    + destruct I as [<- | []]. exists EmptyString. reflexivity.
    + destruct (p c).
      * apply in_app_or in I. destruct I as [I | [<- | []]].
        -- destruct (IH _ _ I) as [q ->]. exists (String c q). reflexivity.
        -- exists EmptyString. reflexivity.
      * destruct I as [<- | []]. exists EmptyString. reflexivity.
Qed.

Lemma append_assoc (a b c : string) : ((a ++ b) ++ c = a ++ b ++ c)%string.
Proof. induction a as [|x a IH]; cbn; [reflexivity | rewrite IH; reflexivity]. Qed.

(** What a match leaves is a suffix of the text. *)
Lemma matches_suffix (r : regex) :
  forall s g rest, In (g, rest) (matches r s) -> exists q, s = (q ++ rest)%string.
Proof.
  induction r as [c | p | r1 IH1 r2 IH2 | r1 IH1 r2 IH2 | p lo hi | gn r IH];
    intros s g rest I; cbn [matches] in I.
  - destruct s as [|c' s]; [destruct I|].
    destruct (Ascii.eqb c' c); [|destruct I].
    destruct I as [[= <- <-] | []]. exists (String c' EmptyString). reflexivity.
  - destruct s as [|c' s]; [destruct I|].
    destruct (p c'); [|destruct I].
    destruct I as [[= <- <-] | []]. exists (String c' EmptyString). reflexivity.
  - apply in_flat_map in I. destruct I as [[g1 s1] [I1 I2]].
    apply in_map_iff in I2. destruct I2 as [[g2 s2] [[= <- <-] I2]].
    destruct (IH1 _ _ _ I1) as [q1 ->]. destruct (IH2 _ _ _ I2) as [q2 ->].
    exists (q1 ++ q2)%string. symmetry. apply append_assoc.
  - apply in_app_or in I. destruct I as [I | I]; eauto.
  - apply in_map_iff in I. destruct I as [rest' [[= <- <-] I]].
    apply filter_In in I. destruct I as [I _]. eapply runs_suffix. eassumption.
  - apply in_map_iff in I. destruct I as [[g' rest'] [[= <- <-] I]]. eauto.
Qed.

Lemma last_is_digit_app (a b : string) :
  b <> EmptyString -> last_is_digit (a ++ b) = last_is_digit b.
Proof.
  intros N. induction a as [|c a IH]; [reflexivity|].
  cbn [append last_is_digit]. rewrite IH.
  destruct (a ++ b)%string eqn:E; [|reflexivity].
  destruct a; cbn in E; [contradiction | discriminate].
Qed.

Lemma runs_all_digits (max : nat) :
  forall s rest, In rest (runs is_digit max s) ->
  exists q, s = (q ++ rest)%string /\ all_digits q = true.
Proof.
  induction max as [|k IH]; intros s rest I.
  - destruct s; cbn in I; destruct I as [<- | []]; exists EmptyString;
      split; reflexivity.
  - destruct s as [|c s]; cbn [runs] in I.
    + destruct I as [<- | []]. exists EmptyString. split; reflexivity.
    + destruct (is_digit c) eqn:D.
      * apply in_app_or in I. destruct I as [I | [<- | []]].
        -- destruct (IH _ _ I) as [q [-> A]]. exists (String c q).
           split; [reflexivity|]. cbn. rewrite D, A. reflexivity.
        -- exists EmptyString. split; reflexivity.
      * destruct I as [<- | []]. exists EmptyString. split; reflexivity.
Qed.

Lemma all_digits_last (q : string) :
  all_digits q = true -> q <> EmptyString -> last_is_digit q = true.
Proof.
  induction q as [|c q IH]; intros A N; [contradiction|].
  cbn in A. apply andb_true_iff in A. destruct A as [D A].
  destruct q as [|c' q]; [exact D|].
  change (last_is_digit (String c (String c' q)))
    with (last_is_digit (String c' q)).
  apply IH; [exact A | discriminate].
Qed.

Lemma fraction_ends_with_digit : ends_with_digit re_f.
Proof.
  intros s g rest I. unfold re_f in I. cbn [matches] in I.
  apply in_map_iff in I. destruct I as [[g' rest'] [[= <- <-] I]].
  apply in_map_iff in I. destruct I as [rest'' [[= <- <-] I]].
  apply filter_In in I. destruct I as [I C].
  change (char_between "0" "9") with is_digit in I.
  destruct (runs_all_digits _ _ _ I) as [q [-> A]].
  exists q. split; [reflexivity|]. apply all_digits_last; [exact A|].
  intros ->. cbn [append] in C. rewrite consumed_same in C. discriminate.
Qed.

Lemma cat_ends_with_digit (r1 r2 : regex) :
  ends_with_digit r2 -> ends_with_digit (Cat r1 r2).
Proof.
  intros H s g rest I. cbn [matches] in I.
  apply in_flat_map in I. destruct I as [[g1 s1] [I1 I2]].
  apply in_map_iff in I2. destruct I2 as [[g2 s2] [[= <- <-] I2]].
  destruct (matches_suffix _ _ _ _ I1) as [q1 ->].
  destruct (H _ _ _ I2) as [q2 [-> L]].
  exists (q1 ++ q2)%string. split; [symmetry; apply append_assoc|].
  rewrite last_is_digit_app; [exact L|]. intros ->. discriminate.
Qed.

Lemma format_ends_with_digit : ends_with_digit format_regex.
Proof.
  unfold format_regex.
  repeat apply cat_ends_with_digit. apply fraction_ends_with_digit.
Qed.

Lemma strptime_last_digit (s : string) (t : Datetime.datetime) :
  strptime s = Ok t -> last_is_digit s = true.
Proof.
  unfold strptime, re_match.
  destruct (matches format_regex s) as [|[found rest] l] eqn:M; cbn [hd_error];
    [discriminate|].
  destruct rest; [|discriminate]. intros _.
  destruct (format_ends_with_digit s found EmptyString) as [q [E L]].
  - rewrite M. left. reflexivity.
  - rewrite append_empty_r in E. subst q. exact L.
Qed.

Lemma lstrip_newline_last (c : ascii) (a : string) :
  Ascii.eqb (ascii_of_nat 10) c = false ->
  last_is_digit (lstrip c (a ++ newline)) = false.
Proof.
  intros N. induction a as [|x a IH].
  - unfold newline. cbn [append lstrip]. rewrite N. reflexivity.
  - cbn [append lstrip]. destruct (Ascii.eqb x c); [exact IH|].
    change (String x (a ++ newline)) with (String x a ++ newline)%string.
    rewrite last_is_digit_app; [reflexivity | discriminate].
Qed.

End SuffixFacts.

(** ** Fractions of fewer than six digits *)

Module FractionFacts.
Import Str Re Strptime Datetime DatetimeFacts LogProcess.
Import CalendarAux CalendarFacts FormatAux MatchFacts RegexFacts RoundTrip.
Import SpecAux ExtractAux SuffixFacts.

Lemma digits_hd (s : string) :
  all_digits s = true ->
  (1 <= String.length s <= 6)%nat ->
  hd_error (matches (inner re_f) s) = Some ([], EmptyString).
Proof.
  intros D L.
  destruct s as [|c1 [|c2 [|c3 [|c4 [|c5 [|c6 [|c7 s]]]]]]];
    cbn [String.length] in L; try lia;
    cbn [all_digits] in D; rewrite ?andb_true_iff in D;
    cbn [inner re_f matches runs];
    change (char_between "0" "9") with is_digit;
    repeat match goal with
           | H : _ /\ _ |- _ => destruct H
           end;
    repeat match goal with
           | H : is_digit _ = true |- _ => rewrite H; clear H
           end;
    reflexivity.
Qed.

Lemma fraction_digits_hd (f : string) :
  all_digits f = true ->
  (1 <= String.length f <= 6)%nat ->
  hd_error (matches re_f (f ++ "")) = Some ([(gf, f)], EmptyString).
Proof.
  intros D L. apply (group_hd gf (inner re_f)). rewrite append_empty_r.
  apply digits_hd; assumption.
Qed.

Lemma match_format_digits (t : datetime) (f : string) :
  valid_datetime t = true ->
  all_digits f = true ->
  (1 <= String.length f <= 6)%nat ->
  re_match format_regex
    (pad 4 (year t) ++ "-" ++ pad 2 (month t) ++ "-" ++ pad 2 (day t) ++ " "
     ++ pad 2 (hour t) ++ ":" ++ pad 2 (minute t) ++ ":" ++ pad 2 (second t)
     ++ "." ++ f)
  = Some ([(gY, pad 4 (year t)); (gm, pad 2 (month t)); (gd, pad 2 (day t));
           (gH, pad 2 (hour t)); (gM, pad 2 (minute t));
           (gS, pad 2 (second t)); (gf, f)],
          EmptyString).
Proof.
  intros V D L. apply valid_datetime_iff in V.
  destruct V as [[Hy [Hm Hd]] [HH [HM [HS Hf]]]].
  pose proof (days_in_month_le_31 (year t) (month t) Hm) as Hd'.
  unfold re_match.
  assert (H : hd_error
                 (matches format_regex
                    (pad 4 (year t) ++ "-" ++ pad 2 (month t) ++ "-"
                     ++ pad 2 (day t) ++ " " ++ pad 2 (hour t) ++ ":"
                     ++ pad 2 (minute t) ++ ":" ++ pad 2 (second t) ++ "."
                     ++ f ++ ""))
               = Some ([(gY, pad 4 (year t))] ++ [] ++ [(gm, pad 2 (month t))]
                       ++ [] ++ [(gd, pad 2 (day t))] ++ []
                       ++ [(gH, pad 2 (hour t))] ++ []
                       ++ [(gM, pad 2 (minute t))] ++ []
                       ++ [(gS, pad 2 (second t))] ++ []
                       ++ [(gf, f)], EmptyString));
    [|rewrite append_empty_r in H; exact H].
  unfold format_regex.
  eapply cat_hd; [apply year_hd; lia|].
  eapply cat_hd; [apply chr_hd|].
  eapply cat_hd.
  { apply (field2_hd gm (inner re_m)).
    apply (proj1 (Forall_forall _ _) month_table), in_shifted. lia. }
  eapply cat_hd; [apply chr_hd|].
  eapply cat_hd.
  { apply (field2_hd gd (inner re_d)).
    apply (proj1 (Forall_forall _ _) day_table), in_shifted. lia. }
  eapply cat_hd; [apply spaces_pad_hd; lia|].
  eapply cat_hd.
  { apply (field2_hd gH (inner re_H)).
    apply (proj1 (Forall_forall _ _) hour_table), in_zrange. lia. }
  eapply cat_hd; [apply chr_hd|].
  eapply cat_hd.
  { apply (field2_hd gM (inner re_M)).
    apply (proj1 (Forall_forall _ _) minute_table), in_zrange. lia. }
  eapply cat_hd; [apply chr_hd|].
  eapply cat_hd.
  { apply (field2_hd gS (inner re_S)).
    apply (proj1 (Forall_forall _ _) second_table), in_zrange. lia. }
  eapply cat_hd; [apply chr_hd|].
  apply fraction_digits_hd; assumption.
Qed.

Lemma digits_value_app (a b : string) :
  forall acc, digits_value acc (a ++ b) = digits_value (digits_value acc a) b.
Proof.
  induction a as [|c a IH]; intros acc; [reflexivity|].
  cbn [append digits_value]. apply IH.
Qed.

Lemma digits_value_zeros (j : nat) :
  forall acc, digits_value acc (zeros j) = acc * 10 ^ Z.of_nat j.
Proof.
  induction j as [|j IH]; intros acc.
  - cbn. lia.
  - cbn [zeros digits_value]. rewrite IH.
    change (code "0" - 48) with 0.
    rewrite Nat2Z.inj_succ, Z.pow_succ_r by lia. lia.
Qed.

(** [int] of a fraction of [k] digits padded to six. *)
Lemma int_padded_fraction (k : nat) (m : Z) :
  (1 <= k <= 6)%nat -> 0 <= m < 10 ^ Z.of_nat k ->
  int (pad k m ++ zeros (6 - String.length (pad k m)))
  = m * 10 ^ Z.of_nat (6 - k).
Proof.
  intros K M. rewrite pad_length. unfold int.
  destruct k as [|k]; [lia|].
  destruct (pad_digit_bounds k m M) as [D _].
  replace (lstrip_space (pad (S k) m ++ zeros (6 - S k)))
    with (pad (S k) m ++ zeros (6 - S k))%string.
  - rewrite digits_value_app, (digits_value_pad (S k) m 0 M), digits_value_zeros.
    lia.
  - cbn [pad append lstrip_space].
    rewrite (proj1 (proj2 (proj2 (digit_char_props _ D)))). reflexivity.
Qed.

Lemma fraction_bounds (k : nat) (us : Z) :
  (1 <= k <= 6)%nat -> 0 <= us <= 999999 ->
  us mod 10 ^ Z.of_nat (6 - k) = 0 ->
  0 <= us / 10 ^ Z.of_nat (6 - k) < 10 ^ Z.of_nat k
  /\ us / 10 ^ Z.of_nat (6 - k) * 10 ^ Z.of_nat (6 - k) = us.
Proof.
  intros K U M. pose proof (pow10_pos (6 - k)) as P.
  pose proof (Z.div_mod us (10 ^ Z.of_nat (6 - k)) ltac:(lia)) as E.
  rewrite M in E.
  assert (T : 10 ^ Z.of_nat k * 10 ^ Z.of_nat (6 - k) = 1000000).
  { rewrite <- Z.pow_add_r by lia.
    replace (Z.of_nat k + Z.of_nat (6 - k)) with 6 by lia. reflexivity. }
  split; [|lia]. split; [apply Z.div_pos; lia|].
  apply Z.div_lt_upper_bound; [lia|]. nia.
Qed.

Lemma strptime_format_digits (k : nat) (t : datetime) :
  valid_datetime t = true -> (1 <= k <= 6)%nat ->
  microsecond t mod 10 ^ Z.of_nat (6 - k) = 0 ->
  strptime (format_timestamp_digits k t) = Ok t.
Proof.
  intros V K M. pose proof V as B. apply valid_datetime_iff in B.
  destruct B as [[Hy [Hm Hd]] [HH [HM [HS Hf]]]].
  destruct (fraction_bounds k (microsecond t) K Hf M) as [Fb Fe].
  unfold strptime, format_timestamp_digits.
  rewrite (match_format_digits t _ V).
  - cbn [group group_eqb].
    rewrite (int_padded_fraction k _ K Fb), Fe.
    pose proof (days_in_month_le_31 (year t) (month t) Hm) as Hd'.
    rewrite !int_pad by (cbn; lia).
    unfold valid_datetime in V. apply andb_true_iff in V. destruct V as [VD VT].
    rewrite (datetime_new_ok _ _ _ _ _ _ _ VD VT). destruct t. reflexivity.
  - apply pad_all_digits, Fb.
  - rewrite pad_length. exact K.
Qed.

Lemma format_digits_no_bracket (k : nat) (t : datetime) :
  valid_datetime t = true -> (1 <= k <= 6)%nat ->
  microsecond t mod 10 ^ Z.of_nat (6 - k) = 0 ->
  has_char "]" (format_timestamp_digits k t) = false.
Proof.
  intros V K M. apply valid_datetime_iff in V.
  destruct V as [[Hy [Hm Hd]] [HH [HM [HS Hf]]]].
  destruct (fraction_bounds k (microsecond t) K Hf M) as [Fb _].
  pose proof (days_in_month_le_31 (year t) (month t) Hm) as Hd'.
  unfold format_timestamp_digits. rewrite !has_char_app.
  rewrite (pad_no_bracket k _ Fb).
  rewrite !pad_no_bracket by (cbn; lia).
  reflexivity.
Qed.

Lemma format_digits_starts_with_digit (k : nat) (t : datetime) :
  valid_datetime t = true ->
  startswith (format_timestamp_digits k t) "[" = false.
Proof.
  intros V. apply valid_datetime_iff in V. destruct V as [[Hy _] _].
  destruct (pad_digit_bounds 3 (year t) ltac:(cbn; lia)) as [D _].
  unfold format_timestamp_digits. cbn [pad append]. unfold startswith.
  cbn [prefix].
  destruct (digit_char_props _ D) as [Dg _].
  destruct (is_digit_not _ Dg) as [_ N].
  apply Ascii.eqb_neq in N.
  destruct (ascii_dec "[" (digit_char (year t / 10 ^ Z.of_nat 3))) as [E|_];
    [congruence | reflexivity].
Qed.

End FractionFacts.

(** * Further properties of the code *)

Import Calendar Datetime TimeAux DatetimeFacts Dict DictFacts.
Import LogProcess LogAux SeedAux SpecAux ScenarioAux.
Import ScanFacts SeedFacts RunFacts OrderAux OrderFacts WindowAux RoundFacts.

(** ** get_log_activity_interval *)

(** X1. The keys of the returned histogram are the pre-seeded keys, in their
    order, followed by the rounded datetimes that are not among them, each
    once, in the order in which the file first meets them. *)
Theorem histogram_key_order
    (fuel : nat) (log_file : file) (iv : interval) (h : dict) :
  get_log_activity_interval fuel log_file iv = Ok h ->
  exists delta t extra,
    timedelta_of iv = Ok delta
    /\ first_datetime fuel log_file = Ok t
    /\ keys h = fold_left add_key (rounded_keys delta log_file)
                          (keys (preseeded (midnight t) delta))
    /\ keys h = keys (preseeded (midnight t) delta) ++ extra
    /\ (forall k, In k extra ->
                  In k (rounded_keys delta log_file)
                  /\ ~ In k (keys (preseeded (midnight t) delta)))
    /\ NoDup (keys h).
Proof.
  intros R.
  destruct (run_inv _ _ _ _ R) as [delta [t [D [VD [NZ [F [V [I C]]]]]]]].
  pose proof (count_lines_keys _ _ _ _ C) as K.
  destruct (fold_add_key (rounded_keys delta log_file)
                         (keys (preseeded (midnight t) delta)))
    as [N [extra [E X]]].
  exists delta, t, extra. rewrite K.
  repeat split; try assumption.
  - apply X. assumption.
  - apply X. assumption.
  - apply N, preseeded_keys_NoDup; assumption.
Qed.

Lemma histogram_key_order_witness :
  exists h,
    get_log_activity_interval 1
      ["[2021-05-01 23:40:00.000] a"%string; "[2021-05-01 23:50:00.000] b"%string;
       "[2021-05-01 00:10:00.000] c"%string]
      default_interval = Ok h
    /\ List.length h = 49%nat
    /\ nth_error (keys h) 48 = Some (mk_datetime 2021 5 2 0 0 0 0)
    /\ NoDup (keys h).
Proof.
  eexists. split; [vm_compute; reflexivity|].
  split; [reflexivity|]. split; [reflexivity|].
  match goal with
  | |- NoDup (keys ?d) =>
      destruct (histogram_key_order 1
        ["[2021-05-01 23:40:00.000] a"%string; "[2021-05-01 23:50:00.000] b"%string;
         "[2021-05-01 00:10:00.000] c"%string] default_interval d)
        as [delta [t [extra [_ [_ [_ [_ [_ N]]]]]]]];
      [vm_compute; reflexivity | exact N]
  end.
Defined.

(** X2. When the width divides the day, a timestamp later than one width
    before the anchor and not later than the last pre-seeded boundary is
    counted in a pre-seeded bucket: the first boundary at or after it. *)
Theorem same_day_bucket_preseeded (t0 t : datetime) (delta : timedelta) :
  valid_datetime t0 = true -> valid_datetime t = true ->
  valid_timedelta delta = true ->
  0 < _to_microseconds delta ->
  US_PER_DAY mod _to_microseconds delta = 0 ->
  ticks (midnight t0) - _to_microseconds delta < ticks t ->
  ticks t <= ticks (midnight t0) + US_PER_DAY - _to_microseconds delta ->
  exists i,
    0 <= i < US_PER_DAY / _to_microseconds delta
    /\ round_to_interval t delta = Ok (bucket_key (midnight t0) delta i)
    /\ In (bucket_key (midnight t0) delta i) (keys (preseeded (midnight t0) delta))
    /\ ticks t <= ticks (bucket_key (midnight t0) delta i)
       < ticks t + _to_microseconds delta.
Proof. apply same_day_window. Qed.

Lemma same_day_bucket_preseeded_witness :
  exists i,
    0 <= i < 48
    /\ round_to_interval scenario_time half_hour
       = Ok (bucket_key (midnight scenario_time) half_hour i).
Proof.
  destruct (same_day_bucket_preseeded scenario_time scenario_time half_hour)
    as [i [Hi [R _]]].
  - vm_compute; reflexivity.
  - vm_compute; reflexivity.
  - vm_compute; reflexivity.
  - vm_compute; reflexivity.
  - vm_compute; reflexivity.
  - vm_compute. reflexivity.
  - vm_compute. discriminate.
  - exists i. split; [exact Hi | exact R].
Defined.

(** X3. When the width divides the day, a timestamp of the anchor's day
    later than the last pre-seeded boundary is counted under the next
    midnight, which is not a pre-seeded key; when the anchor's day is the
    last day there is, the rounding overflows instead. *)
Theorem last_interval_spills (t0 t : datetime) (delta : timedelta) :
  valid_datetime t0 = true -> valid_datetime t = true ->
  valid_timedelta delta = true ->
  0 < _to_microseconds delta ->
  US_PER_DAY mod _to_microseconds delta = 0 ->
  ticks (midnight t0) + US_PER_DAY - _to_microseconds delta < ticks t ->
  ticks t <= ticks (midnight t0) + US_PER_DAY ->
  round_to_interval t delta
  = (if in_range (ticks (midnight t0) + US_PER_DAY)
     then Ok (next_midnight (midnight t0))
     else Raise OverflowError)
  /\ (in_range (ticks (midnight t0) + US_PER_DAY) = true ->
      ~ In (next_midnight (midnight t0)) (keys (preseeded (midnight t0) delta))).
Proof.
  intros V0 V VD W Dv Lo Hi.
  destruct (rounded_from_anchor t0 t delta W Dv) as [i [E B]].
  assert (NZ : _to_microseconds delta <> 0) by lia.
  assert (Hn : _to_microseconds delta * (US_PER_DAY / _to_microseconds delta)
               = US_PER_DAY).
  { pose proof (Z.div_mod US_PER_DAY _ NZ). lia. }
  assert (Ei : _to_microseconds delta * i = US_PER_DAY).
  { set (n := US_PER_DAY / _to_microseconds delta) in *.
    set (w := _to_microseconds delta) in *.
    assert (w * (n - 1) < w * i) by lia.
    assert (w * i < w * (n + 1)) by lia.
    assert (n - 1 < i) by (apply (Z.mul_lt_mono_pos_l w); assumption).
    assert (i < n + 1) by (apply (Z.mul_lt_mono_pos_l w); assumption).
    assert (i = n) by lia. subst i. exact Hn. }
  split.
  - apply round_next_midnight; try assumption. lia.
  - intros I K. rewrite preseeded_keys in K. apply in_map_iff in K.
    destruct K as [j [Ej Ij]].
    pose proof (range_within_day _ j NZ Ij) as [_ Bj].
    destruct (ticks_bucket_key t0 delta j V0 Bj) as [_ Tj].
    rewrite Ej, (proj2 (next_midnight_spec _ I)) in Tj. lia.
Qed.

Lemma last_interval_spills_witness :
  round_to_interval (mk_datetime 2021 5 1 23 40 0 0) half_hour
  = Ok (mk_datetime 2021 5 2 0 0 0 0).
Proof.
  destruct (last_interval_spills scenario_time (mk_datetime 2021 5 1 23 40 0 0)
                                 half_hour) as [R _].
  - vm_compute; reflexivity.
  - vm_compute; reflexivity.
  - vm_compute; reflexivity.
  - vm_compute; reflexivity.
  - vm_compute; reflexivity.
  - vm_compute. reflexivity.
  - vm_compute. discriminate.
  - rewrite R. vm_compute. reflexivity.
Defined.

Lemma fold_add_key_present (l ks : list datetime) :
  (forall k, In k l -> In k ks) -> fold_left add_key l ks = ks.
Proof.
  induction l as [|k l IH]; intros H; [reflexivity|].
  cbn [fold_left]. unfold add_key at 2.
  assert (E : existsb (datetime_eqb k) ks = true).
  { apply existsb_exists. exists k.
    split; [apply H; left; reflexivity | apply datetime_eqb_refl]. }
  rewrite E. apply IH. intros k' I. apply H. right. exact I.
Qed.

Lemma in_rounded_keys (delta : timedelta) (f : file) (k : datetime) :
  In k (rounded_keys delta f) ->
  exists l t, In l f /\ get_datetime_from_log_line l = Ok (Some t)
              /\ round_to_interval t delta = Ok k.
Proof.
  unfold rounded_keys. intros I. apply in_flat_map in I.
  destruct I as [l [Il I]]. exists l.
  destruct (get_datetime_from_log_line l) as [[t|]| |]; try contradiction.
  exists t. destruct (round_to_interval t delta) as [k'| |]; try contradiction.
  destruct I as [<- | []]. repeat split; assumption.
Qed.

(** X4. When the width divides the day and every timestamp of the file is
    later than one width before the anchor and not later than the last
    pre-seeded boundary, the returned histogram has exactly the pre-seeded
    keys: one per interval of the day and no other. *)
Theorem single_day_histogram_keys
    (fuel : nat) (log_file : file) (iv : interval) (delta : timedelta)
    (t0 : datetime) (h : dict) :
  timedelta_of iv = Ok delta ->
  0 < _to_microseconds delta ->
  US_PER_DAY mod _to_microseconds delta = 0 ->
  first_datetime fuel log_file = Ok t0 ->
  (forall l t,
      In l log_file -> get_datetime_from_log_line l = Ok (Some t) ->
      ticks (midnight t0) - _to_microseconds delta < ticks t
      <= ticks (midnight t0) + US_PER_DAY - _to_microseconds delta) ->
  get_log_activity_interval fuel log_file iv = Ok h ->
  keys h = keys (preseeded (midnight t0) delta)
  /\ Z.of_nat (List.length h) = US_PER_DAY / _to_microseconds delta.
Proof.
  intros D W Dv F Win R.
  destruct (run_inv _ _ _ _ R) as [delta' [t [D' [VD [NZ [F' [V [I C]]]]]]]].
  assert (delta' = delta) by congruence. subst delta'.
  assert (t = t0) by congruence. subst t.
  pose proof (count_lines_keys _ _ _ _ C) as K.
  rewrite fold_add_key_present in K.
  - split; [exact K|].
    assert (L : List.length h = List.length (keys h))
      by (unfold keys; rewrite length_map; reflexivity).
    rewrite L, K, preseeded_keys, length_map, length_range.
    assert (0 <= US_PER_DAY / _to_microseconds delta)
      by (apply Z.div_pos; [unfold US_PER_DAY|]; lia).
    lia.
  - intros k Ik. destruct (in_rounded_keys _ _ _ Ik) as [l [t [Il [G Rk]]]].
    pose proof (get_datetime_valid _ _ G) as Vt.
    destruct (Win l t Il G) as [Lo Hi].
    destruct (same_day_window t0 t delta V Vt VD W Dv Lo Hi) as [i [_ [Ri [Ii _]]]].
    assert (k = bucket_key (midnight t0) delta i) by congruence. subst k.
    exact Ii.
Qed.

Lemma single_day_histogram_keys_witness :
  exists h,
    get_log_activity_interval 2 [scenario_line; "no timestamp here"%string]
                              default_interval = Ok h
    /\ Z.of_nat (List.length h) = 48.
Proof.
  eexists. split; [vm_compute; reflexivity|].
  match goal with
  | |- Z.of_nat (List.length ?d) = _ =>
      apply (single_day_histogram_keys 2
               [scenario_line; "no timestamp here"%string]
               default_interval half_hour scenario_time d)
  end.
  - vm_compute; reflexivity.
  - vm_compute; reflexivity.
  - vm_compute; reflexivity.
  - vm_compute; reflexivity.
  - intros l t [<- | [<- | []]] G; vm_compute in G.
    + injection G as <-. vm_compute. split; [reflexivity | discriminate].
    + discriminate.
  - vm_compute; reflexivity.
Defined.

(** X5. Rounding keeps the order of timestamps: the bucket of a later
    timestamp is never before the bucket of an earlier one. *)
Theorem rounding_monotone (t1 t2 k1 k2 : datetime) (delta : timedelta) :
  valid_datetime t1 = true -> valid_datetime t2 = true ->
  valid_timedelta delta = true ->
  0 < _to_microseconds delta ->
  datetime_ltb t2 t1 = false ->
  round_to_interval t1 delta = Ok k1 ->
  round_to_interval t2 delta = Ok k2 ->
  datetime_ltb k2 k1 = false.
Proof.
  intros V1 V2 VD W L R1 R2.
  assert (NZ : _to_microseconds delta <> 0) by lia.
  destruct (round_ok _ _ _ V1 VD NZ R1) as [Vk1 [T1 _]].
  destruct (round_ok _ _ _ V2 VD NZ R2) as [Vk2 [T2 _]].
  assert (L' : ticks t1 <= ticks t2).
  { destruct (Z_le_gt_dec (ticks t1) (ticks t2)) as [|G]; [assumption|].
    assert (datetime_ltb t2 t1 = true) by (apply datetime_ltb_iff; [| |lia]; assumption).
    congruence. }
  destruct (datetime_ltb k2 k1) eqn:F; [exfalso|reflexivity].
  apply datetime_ltb_iff in F; [|assumption|assumption].
  rewrite T1, T2 in F. unfold rounded_ticks in F.
  rewrite (since_epoch_ticks t1), (since_epoch_ticks t2) in F, L'.
  set (x := since_epoch t1) in *. set (y := since_epoch t2) in *.
  set (w := _to_microseconds delta) in *. clearbody x y w.
  destruct (round_up_arith x w NZ) as [Mx [Bx _]].
  destruct (round_up_arith y w NZ) as [My [By _]].
  specialize (Bx W). specialize (By W).
  apply Z.mod_divide in Mx; [|assumption]. destruct Mx as [p Hp].
  apply Z.mod_divide in My; [|assumption]. destruct My as [q Hq].
  assert (q < p) by nia. assert (q + 1 <= p) by lia. nia.
Qed.

Lemma rounding_monotone_witness :
  datetime_ltb scenario_upper (mk_datetime 2021 5 1 21 0 0 0) = false.
Proof.
  apply (rounding_monotone (mk_datetime 2021 5 1 20 59 0 0) scenario_time
                           _ _ half_hour); vm_compute; reflexivity.
Defined.

(** X6. Rounding is idempotent: the bucket of a bucket key is the key
    itself. *)
Theorem rounding_twice (t k : datetime) (delta : timedelta) :
  valid_datetime t = true -> valid_timedelta delta = true ->
  _to_microseconds delta <> 0 ->
  round_to_interval t delta = Ok k ->
  round_to_interval k delta = Ok k.
Proof.
  intros V VD NZ R.
  destruct (round_ok _ _ _ V VD NZ R) as [Vk [Tk I]].
  rewrite (round_at k delta (ticks k) Vk VD NZ).
  - rewrite (ticks_in_range k Vk), (of_ticks_ticks k Vk). reflexivity.
  - unfold rounded_ticks.
    assert (E : since_epoch k mod _to_microseconds delta = 0).
    { rewrite (since_epoch_rounded _ _ _ V VD NZ R). apply round_up_arith, NZ. }
    rewrite (Z.mod_opp_l_z _ _ NZ E). lia.
Qed.

Lemma rounding_twice_witness :
  round_to_interval scenario_upper half_hour = Ok scenario_upper.
Proof.
  apply (rounding_twice scenario_time scenario_upper half_hour);
    vm_compute; try reflexivity; discriminate.
Defined.

Lemma preseeded_negative (anchor : datetime) (delta : timedelta) :
  _to_microseconds delta < 0 -> preseeded anchor delta = [].
Proof.
  intros N. unfold preseeded, range.
  assert (US_PER_DAY / _to_microseconds delta < 0)
    by (unfold US_PER_DAY; Z.div_mod_to_equations; nia).
  replace (Z.to_nat (US_PER_DAY / _to_microseconds delta)) with 0%nat by lia.
  reflexivity.
Qed.

Lemma count_lines_positive (delta : timedelta) (f : file) :
  forall acc h,
  Forall (fun v => 1 <= v) (values acc) ->
  count_lines delta f acc = Ok h ->
  Forall (fun v => 1 <= v) (values h).
Proof.
  induction f as [|l f IH]; intros acc h A.
  - cbn. intros [= <-]. exact A.
  - rewrite count_lines_step.
    destruct (get_datetime_from_log_line l) as [[t'|]| |]; try discriminate.
    + destruct (round_to_interval t' delta) as [k| |]; try discriminate.
      apply IH. unfold count_one. destruct (get k acc) as [v|] eqn:Gk.
      * apply values_set; [|assumption]. apply get_in_values in Gk.
        pose proof (proj1 (Forall_forall _ _) A v Gk). cbn in *. lia.
      * apply values_set; [lia | assumption].
    + apply IH, A.
Qed.

(** X7. With a negative width nothing is pre-seeded and every timestamp is
    rounded DOWN, to the multiple of the width at or before it; every
    bucket of the returned histogram then counts at least one line. *)
Theorem negative_width_rounds_down (delta : timedelta) :
  valid_timedelta delta = true -> _to_microseconds delta < 0 ->
  (forall fuel log_file t,
      first_datetime fuel log_file = Ok t ->
      initialize fuel log_file delta = Ok [])
  /\ (forall t k,
         valid_datetime t = true -> round_to_interval t delta = Ok k ->
         since_epoch k mod _to_microseconds delta = 0
         /\ since_epoch t + _to_microseconds delta < since_epoch k
            <= since_epoch t)
  /\ (forall fuel log_file iv h,
         timedelta_of iv = Ok delta ->
         get_log_activity_interval fuel log_file iv = Ok h ->
         Forall (fun v => 1 <= v) (values h)).
Proof.
  intros VD N. assert (NZ : _to_microseconds delta <> 0) by lia.
  split; [|split].
  - intros fuel log_file t F.
    rewrite (initialize_spec _ _ (first_datetime_valid _ _ _ F) NZ _ _ F).
    rewrite (preseeded_negative _ _ N). reflexivity.
  - intros t k V R. rewrite (since_epoch_rounded _ _ _ V VD NZ R).
    destruct (round_up_arith (since_epoch t) _ NZ) as [M [_ B]].
    specialize (B N). split; [exact M | lia].
  - intros fuel log_file iv h D R.
    destruct (run_inv _ _ _ _ R) as [delta' [t [D' [_ [_ [_ [_ [_ C]]]]]]]].
    assert (delta' = delta) by congruence. subst delta'.
    rewrite (preseeded_negative _ _ N) in C.
    apply (count_lines_positive delta log_file [] h); [constructor | exact C].
Qed.

Lemma negative_width_rounds_down_witness :
  round_to_interval scenario_time (mk_timedelta (- (30 * 60 * 1000000)))
  = Ok scenario_lower
  /\ since_epoch scenario_lower <= since_epoch scenario_time.
Proof.
  destruct (negative_width_rounds_down (mk_timedelta (- (30 * 60 * 1000000))))
    as [_ [P _]].
  - vm_compute; reflexivity.
  - vm_compute; reflexivity.
  - split; [vm_compute; reflexivity|].
    apply (P scenario_time scenario_lower); vm_compute; reflexivity.
Defined.

(** X8. With a zero width the function raises [ZeroDivisionError] as soon as
    the first scan has found a datetime, before anything is counted. *)
Theorem zero_width_raises
    (pre : file) (l : string) (post : file) (t : datetime)
    (iv : interval) (delta : timedelta) (fuel : nat) :
  timedelta_of iv = Ok delta -> _to_microseconds delta = 0 ->
  Forall (fun l => get_datetime_from_log_line l = Ok None) pre ->
  get_datetime_from_log_line l = Ok (Some t) ->
  (List.length pre < fuel)%nat ->
  get_log_activity_interval fuel (pre ++ l :: post) iv = Raise ZeroDivisionError.
Proof.
  intros D Z0 F G L. unfold get_log_activity_interval. rewrite D. cbn [bind].
  pose proof (first_datetime_found pre l post t F G fuel L) as Fd.
  rewrite (initialize_zero _ _ _ _ Fd (get_datetime_valid _ _ G) Z0).
  reflexivity.
Qed.

Lemma zero_width_raises_witness :
  get_log_activity_interval 2 ["no timestamp here"%string; scenario_line]
                            (mk_interval 0 0 0 0 0 0 0)
  = Raise ZeroDivisionError.
Proof.
  apply (zero_width_raises ["no timestamp here"%string] scenario_line []
                           scenario_time _ (mk_timedelta 0)).
  - reflexivity.
  - reflexivity.
  - repeat constructor.
  - vm_compute; reflexivity.
  - cbn. lia.
Defined.

Import Str FormatAux MatchFacts RegexFacts RoundTrip ExtractAux SuffixFacts FractionFacts.

(** ** get_datetime_from_log_line *)

Lemma startswith_char (x c : ascii) (s : string) :
  startswith (String x s) (String c EmptyString) = Ascii.eqb c x.
Proof.
  unfold startswith. cbn [prefix]. destruct (ascii_dec c x) as [<- | N].
  - rewrite Ascii.eqb_refl. destruct s; reflexivity.
  - symmetry. apply Ascii.eqb_neq. exact N.
Qed.

(** X9. Nothing after the first closing bracket of a line matters: two
    lines that agree up to it give the same result. *)
Theorem text_after_bracket_ignored (body rest1 rest2 : string) :
  has_char "]" body = false ->
  get_datetime_from_log_line (body ++ "]" ++ rest1)
  = get_datetime_from_log_line (body ++ "]" ++ rest2).
Proof.
  intros N. unfold get_datetime_from_log_line.
  assert (S : forall r, startswith (body ++ "]" ++ r) "["
                        = startswith (body ++ "]") "[").
  { intros r. destruct body as [|x body]; cbn [append];
      rewrite !startswith_char; reflexivity. }
  rewrite (S rest1), (S rest2).
  cbn [append]. rewrite !(split_hd "]" body _ N). reflexivity.
Qed.

Lemma text_after_bracket_ignored_witness :
  get_datetime_from_log_line "[2021-05-01 21:10:30.781] some text"
  = get_datetime_from_log_line "[2021-05-01 21:10:30.781]] [x] other".
Proof.
  apply (text_after_bracket_ignored "[2021-05-01 21:10:30.781"
                                    " some text" "] [x] other").
  reflexivity.
Defined.

(** X10. A valid timestamp written with one to six digits after the point
    (three in the log files) parses back to itself when its microseconds
    have no more digits than were written; the missing digits are read as
    zeros on the right. *)
Theorem short_fraction_roundtrip (k : nat) (t : datetime) (rest : string) :
  valid_datetime t = true -> (1 <= k <= 6)%nat ->
  microsecond t mod 10 ^ Z.of_nat (6 - k) = 0 ->
  Strptime.strptime (format_timestamp_digits k t) = Ok t
  /\ get_datetime_from_log_line ("[" ++ format_timestamp_digits k t ++ "]" ++ rest)
     = Ok (Some t).
Proof.
  intros V K M. split; [apply strptime_format_digits; assumption|].
  unfold get_datetime_from_log_line.
  cbn [append]. rewrite startswith_cons.
  fold (bracketed (String "[" (format_timestamp_digits k t ++ String "]" rest))).
  change (String "[" (format_timestamp_digits k t ++ String "]" rest))
    with (brackets 1 ++ format_timestamp_digits k t ++ String "]" rest)%string.
  rewrite bracketed_prefix.
  - rewrite (strptime_format_digits k t V K M). reflexivity.
  - apply format_digits_no_bracket; assumption.
  - apply format_digits_starts_with_digit, V.
  - right. apply startswith_cons.
Qed.

Lemma short_fraction_roundtrip_witness :
  format_timestamp_digits 3 scenario_time = "2021-05-01 21:10:30.781"%string
  /\ get_datetime_from_log_line scenario_line = Ok (Some scenario_time).
Proof.
  split; [vm_compute; reflexivity|].
  apply (short_fraction_roundtrip 3 scenario_time " some text").
  - vm_compute; reflexivity.
  - lia.
  - vm_compute; reflexivity.
Defined.

Lemma not_digit_raises (log_line : string) :
  startswith log_line "[" = true ->
  last_is_digit (bracketed log_line) = false ->
  get_datetime_from_log_line log_line = Raise ValueError.
Proof.
  intros S L. unfold get_datetime_from_log_line. rewrite S.
  fold (bracketed log_line).
  destruct (strptime_outcome (bracketed log_line)) as [[t E] | E].
  - apply strptime_last_digit in E. congruence.
  - rewrite E. reflexivity.
Qed.

(** X11. The text handed to the parser must end with a digit: a line that
    starts with a bracket and whose text up to the first closing bracket,
    leading brackets removed, ends with anything else (or is empty) raises
    [ValueError]. *)
Theorem parsed_text_ends_with_digit (log_line : string) :
  startswith log_line "[" = true ->
  last_is_digit (bracketed log_line) = false ->
  get_datetime_from_log_line log_line = Raise ValueError.
Proof.
  exact (not_digit_raises log_line).
Qed.

Lemma parsed_text_ends_with_digit_witness :
  get_datetime_from_log_line "[2021-05-01 21:10:30.781 ] some text"
  = Raise ValueError.
Proof.
  apply parsed_text_ends_with_digit; vm_compute; reflexivity.
Defined.

(** X12. A line that starts with a bracket and has no closing bracket
    raises [ValueError] when it is read with its line end, however
    well-formed its timestamp is. *)
Theorem unclosed_bracket_raises (body : string) :
  has_char "]" body = false ->
  get_datetime_from_log_line ("[" ++ body ++ newline) = Raise ValueError.
Proof.
  intros N. apply not_digit_raises.
  - cbn [append]. apply startswith_cons.
  - unfold bracketed. rewrite split_hd_none.
    + change ("[" ++ body ++ newline)%string
        with (("[" ++ body) ++ newline)%string.
      apply lstrip_newline_last. reflexivity.
    + cbn [append has_char]. rewrite has_char_app, N. reflexivity.
Qed.

Lemma unclosed_bracket_raises_witness :
  get_datetime_from_log_line ("[2021-05-01 21:10:30.781" ++ newline)
  = Raise ValueError.
Proof.
  apply (unclosed_bracket_raises "2021-05-01 21:10:30.781"%string).
  reflexivity.
Defined.

(** * Further properties: lines without a timestamp *)

Lemma filter_untimestamped (pre : file) :
  Forall (fun l => get_datetime_from_log_line l = Ok None) pre ->
  filter yields_timestamp pre = [].
Proof.
  induction 1 as [|l pre G _ IH]; [reflexivity|].
  cbn [filter]. unfold yields_timestamp at 1. rewrite G. exact IH.
Qed.

Lemma first_datetime_filter (fuel : nat) (f : file) (t : datetime) :
  first_datetime fuel f = Ok t ->
  first_datetime fuel (filter yields_timestamp f) = Ok t.
Proof.
  intros F.
  destruct (first_event f) as [A | [pre [l [post [-> [A N]]]]]].
  - rewrite (first_datetime_diverges f A) in F. discriminate.
  - destruct (le_lt_dec fuel (List.length pre)) as [S | L].
    + rewrite (first_datetime_short pre _ A fuel S) in F. discriminate.
    + destruct (get_datetime_outcome l) as [G | [[t' G] | G]].
      * contradiction.
      * rewrite (first_datetime_found pre l post t' A G fuel L) in F.
        injection F as ->.
        rewrite filter_app, (filter_untimestamped pre A). cbn [app filter].
        unfold yields_timestamp at 1. rewrite G.
        apply (first_datetime_found [] l _ t); [constructor | exact G |].
        cbn [List.length]. lia.
      * rewrite (first_datetime_raises pre l post _ A G fuel L) in F.
        discriminate.
Qed.

Lemma count_lines_filter (delta : timedelta) (f : file) :
  forall acc h,
  count_lines delta f acc = Ok h ->
  count_lines delta (filter yields_timestamp f) acc = Ok h.
Proof.
  induction f as [|l f IH]; intros acc h C; [exact C|].
  rewrite count_lines_step in C. cbn [filter]. unfold yields_timestamp at 1.
  destruct (get_datetime_from_log_line l) as [[t|]| |] eqn:G;
    try discriminate.
  - rewrite count_lines_step, G.
    destruct (round_to_interval t delta) as [k| |]; try discriminate.
    apply IH, C.
  - apply IH, C.
Qed.

(** ** get_log_activity_interval *)

(** X13. Lines that yield no datetime play no part in the result: when the
    function returns a histogram for a file, it returns the same histogram,
    keys in the same order, for the file without those lines. *)
Theorem untimestamped_lines_ignored
    (fuel : nat) (log_file : file) (iv : interval) (h : dict) :
  get_log_activity_interval fuel log_file iv = Ok h ->
  get_log_activity_interval fuel (filter yields_timestamp log_file) iv = Ok h.
Proof.
  intros R.
  destruct (run_inv _ _ _ _ R) as [delta [t [D [VD [NZ [F [V [I C]]]]]]]].
  unfold get_log_activity_interval. rewrite D. cbn [bind].
  rewrite (initialize_spec t delta V NZ fuel _ (first_datetime_filter _ _ _ F)).
  cbn [bind]. apply count_lines_filter, C.
Qed.

Lemma untimestamped_lines_ignored_witness :
  exists h,
    get_log_activity_interval 2 ["no timestamp here"%string; scenario_line]
                              default_interval = Ok h
    /\ get_log_activity_interval 2 [scenario_line] default_interval = Ok h.
Proof.
  eexists. split; [vm_compute; reflexivity|].
  match goal with
  | |- _ = Ok ?d =>
      apply (untimestamped_lines_ignored 2
               ["no timestamp here"%string; scenario_line] default_interval d)
  end.
  vm_compute; reflexivity.
Defined.

(** ** Paths *)

Module PathFacts.
Import Str StrMore Posixpath FormatAux MatchFacts SuffixFacts.
Import LogProcessMain MainAux.

Lemma eqb_app_cons (a : string) (x : ascii) (b : string) :
  String.eqb (a ++ String x b) EmptyString = false.
Proof. destruct a; reflexivity. Qed.

Lemma endswith_app_cons (a : string) (x : ascii) (b : string) (c : ascii) :
  endswith (a ++ String x b) (String c EmptyString)
  = endswith (String x b) (String c EmptyString).
Proof.
  induction a as [|y a IH]; [reflexivity|].
  cbn [append]. cbn [endswith]. rewrite IH.
  assert (E : String.eqb (String y (a ++ String x b)) (String c EmptyString)
              = false).
  { cbn [String.eqb]. destruct (Ascii.eqb y c); [|reflexivity].
    apply eqb_app_cons. }
  rewrite E. reflexivity.
Qed.

Lemma startswith_no_sep (c : ascii) (n : string) :
  has_char c n = false -> startswith n (String c EmptyString) = false.
Proof.
  destruct n as [|x n]; [reflexivity|]. cbn [has_char]. intros H.
  apply orb_false_iff in H. destruct H as [E _].
  rewrite startswith_char, Ascii.eqb_sym. exact E.
Qed.

Lemma endswith_no_sep (c : ascii) (n : string) :
  has_char c n = false -> endswith n (String c EmptyString) = false.
Proof.
  induction n as [|x n IH]; [reflexivity|]. cbn [has_char]. intros H.
  apply orb_false_iff in H. destruct H as [E H].
  cbn [endswith String.eqb]. rewrite E. apply IH, H.
Qed.

Lemma entry_name_spec (n : string) :
  entry_name n = true ->
  n <> EmptyString /\ n <> "."%string /\ has_char "/" n = false.
Proof.
  unfold entry_name. intros H.
  apply andb_true_iff in H. destruct H as [H H3].
  apply andb_true_iff in H. destruct H as [H1 H2].
  apply negb_true_iff in H1, H2, H3.
  apply String.eqb_neq in H1. apply String.eqb_neq in H2. auto.
Qed.

(** The log directory is not empty and does not end with a slash. *)
Lemma log_dir_shape (w : world) :
  String.eqb (CODE_SERVER_LOG_PATH w) EmptyString = false
  /\ endswith (CODE_SERVER_LOG_PATH w) "/" = false.
Proof.
  unfold CODE_SERVER_LOG_PATH. split.
  - apply eqb_app_cons.
  - rewrite endswith_app_cons. reflexivity.
Qed.

Lemma join_entry (root n : string) :
  String.eqb root EmptyString = false -> endswith root "/" = false ->
  n <> EmptyString -> has_char "/" n = false ->
  join root [n; "extension-host/exthost.log"%string]
  = (root ++ "/" ++ n ++ "/extension-host/exthost.log")%string.
Proof.
  intros R1 R2 N1 N2. unfold join. cbn [fold_left].
  assert (S1 : join_step root n = (root ++ "/" ++ n)%string).
  { unfold join_step. rewrite (startswith_no_sep _ _ N2), R1, R2. reflexivity. }
  rewrite S1. unfold join_step.
  change (startswith "extension-host/exthost.log" "/") with false. cbv iota.
  destruct n as [|x n]; [congruence|].
  assert (E : (root ++ "/" ++ String x n)%string
              = ((root ++ "/") ++ String x n)%string)
    by (symmetry; apply append_assoc).
  rewrite E at 1 2. rewrite eqb_app_cons, endswith_app_cons.
  rewrite (endswith_no_sep _ _ N2). cbn [orb].
  rewrite !append_assoc. reflexivity.
Qed.

Lemma split_nonempty (c : ascii) (s : string) : split c s <> [].
Proof.
  destruct s as [|x s]; cbn [split]; [discriminate|].
  destruct (Ascii.eqb x c); [discriminate|].
  destruct (split c s); discriminate.
Qed.

(** Splitting at a one-character separator goes through concatenation at
    the separator. *)
Lemma split_app (c : ascii) (a b : string) :
  split c (a ++ String c b) = split c a ++ split c b.
Proof.
  induction a as [|x a IH]; cbn [append split].
  - rewrite Ascii.eqb_refl. reflexivity.
  - rewrite IH. destruct (Ascii.eqb x c); [reflexivity|].
    pose proof (split_nonempty c a) as N.
    destruct (split c a) as [|h t]; [congruence | reflexivity].
Qed.

Lemma split_no_sep (c : ascii) (n : string) :
  has_char c n = false -> split c n = [n].
Proof.
  induction n as [|x n IH]; [reflexivity|]. cbn [has_char split]. intros H.
  apply orb_false_iff in H. destruct H as [E H].
  rewrite E, (IH H). reflexivity.
Qed.

Lemma lstrip_keeps (c x : ascii) (a s : string) :
  Ascii.eqb x c = false ->
  exists q, lstrip c (a ++ String x s) = (q ++ String x s)%string.
Proof.
  intros X. induction a as [|y a IH]; cbn [append lstrip].
  - rewrite X. exists EmptyString. reflexivity.
  - destruct (Ascii.eqb y c); [exact IH|].
    exists (String y a). reflexivity.
Qed.

(** The parts of a path that ends with a directory entry and the two
    fixed components: whatever comes first, these three come last. *)
Lemma parts_of_log_path (a n : string) :
  entry_name n = true ->
  exists root front,
    Pathlib.Path (a ++ "/.local/share/code-server/logs/" ++ n
                    ++ "/extension-host/exthost.log")
    = Pathlib.mk_path root
        (front ++ ["logs"; n; "extension-host"; "exthost.log"]%string).
Proof.
  intros N. destruct (entry_name_spec n N) as [N1 [N2 N3]].
  set (tail := (".local/share/code-server/logs/" ++ n
                 ++ "/extension-host/exthost.log")%string).
  assert (P : (a ++ "/.local/share/code-server/logs/" ++ n
                 ++ "/extension-host/exthost.log")%string
              = ((a ++ "/") ++ tail)%string)
    by (rewrite append_assoc; reflexivity).
  rewrite P. clear P.
  assert (R : exists root q,
             Pathlib.splitroot ((a ++ "/") ++ tail) = (root, (q ++ tail)%string)).
  { unfold Pathlib.splitroot.
    destruct ((a ++ "/") ++ tail)%string as [|c0 s0] eqn:E.
    - destruct a; discriminate.
    - destruct (Ascii.eqb c0 "/").
      + rewrite <- E.
        destruct (lstrip_keeps "/" "." (a ++ "/")
                    ("local/share/code-server/logs/" ++ n
                       ++ "/extension-host/exthost.log") eq_refl) as [q Q].
        change (String "." ("local/share/code-server/logs/" ++ n
                       ++ "/extension-host/exthost.log"))%string with tail in Q.
        rewrite Q.
        destruct (String.length ((a ++ "/") ++ tail)
                  - String.length (q ++ tail) =? 2)%nat; eauto.
      + exists EmptyString, (a ++ "/")%string. rewrite E. reflexivity. }
  destruct R as [root [q R]].
  assert (NE : String.eqb ((a ++ "/") ++ tail) EmptyString = false).
  { unfold tail. cbn [append]. apply eqb_app_cons. }
  unfold Pathlib.Path, Pathlib.parse_parts. rewrite NE, R.
  assert (T : (q ++ tail)%string
              = ((q ++ ".local/share/code-server") ++ String "/" ("logs"
                   ++ String "/" (n ++ String "/" ("extension-host"
                   ++ String "/" "exthost.log"))))%string).
  { unfold tail. rewrite append_assoc. reflexivity. }
  assert (H : has_char "/" (q ++ tail) = true).
  { rewrite T, has_char_app. cbn [has_char]. rewrite Ascii.eqb_refl.
    apply orb_true_r. }
  rewrite H.
  assert (Sp : split "/" (q ++ tail)
               = split "/" (q ++ ".local/share/code-server")
                 ++ ["logs"; n; "extension-host"; "exthost.log"]%string).
  { rewrite T, split_app. f_equal.
    rewrite (split_app "/" "logs"), (split_app "/" n), (split_no_sep _ _ N3).
    reflexivity. }
  rewrite Sp. clear Sp T H R NE.
  set (L := split "/" (q ++ ".local/share/code-server")).
  assert (K : filter Pathlib.kept (rev (L ++ ["logs"; n; "extension-host"; "exthost.log"]%string))
              = rev (filter Pathlib.kept L ++ ["logs"; n; "extension-host"; "exthost.log"]%string)).
  { rewrite filter_rev, filter_app. do 2 f_equal.
    cbn [filter]. unfold Pathlib.kept at 2.
    apply String.eqb_neq in N1, N2. rewrite N1, N2. reflexivity. }
  rewrite K.
  destruct (String.eqb root EmptyString).
  - exists root, (filter Pathlib.kept L). rewrite rev_involutive. reflexivity.
  - exists root, (root :: filter Pathlib.kept L).
    rewrite rev_app_distr, rev_involutive. reflexivity.
Qed.

Lemma name_of_grandparent (root : string) (front : list string)
    (a n c d : string) :
  Pathlib.name (Pathlib.parent (Pathlib.parent
                  (Pathlib.mk_path root (front ++ [a; n; c; d]))))
  = n.
Proof.
  assert (P : forall x (l : list string) y z,
             Pathlib.parent (Pathlib.mk_path root (l ++ [x; y; z]))
             = Pathlib.mk_path root (l ++ [x; y])).
  { intros x l y z. unfold Pathlib.parent. cbn [Pathlib._parts Pathlib._root].
    assert (E : (List.length (l ++ [x; y; z]) =? 1)%nat = false).
    { apply Nat.eqb_neq. rewrite length_app. cbn. lia. }
    rewrite E. cbn [andb]. f_equal.
    change [x; y; z] with ([x; y] ++ [z]). rewrite app_assoc.
    apply removelast_last. }
  change (front ++ [a; n; c; d]) with (front ++ [a] ++ [n; c; d]).
  rewrite app_assoc, P.
  change ((front ++ [a]) ++ [n; c]) with ((front ++ [a]) ++ [] ++ [n; c]).
  rewrite <- app_assoc.
  change ([a] ++ [] ++ [n; c]) with [a; n; c]. rewrite P.
  unfold Pathlib.name. cbn [Pathlib._parts Pathlib._root].
  assert (E : (List.length (front ++ [a; n])
               =? (if String.eqb root EmptyString then 0 else 1))%nat = false).
  { apply Nat.eqb_neq. rewrite length_app. cbn.
    destruct (String.eqb root EmptyString); lia. }
  rewrite E. change [a; n] with ([a] ++ [n]). rewrite app_assoc.
  apply last_last.
Qed.

End PathFacts.

(** ** Centring *)

Module CenterFacts.
Import Str StrMore MatchFacts RegexFacts SuffixFacts.

Lemma length_replicate (n : nat) (c : ascii) :
  String.length (replicate n c) = n.
Proof. induction n as [|n IH]; cbn; [reflexivity | rewrite IH; reflexivity]. Qed.

Lemma length_app_string (a b : string) :
  String.length (a ++ b) = (String.length a + String.length b)%nat.
Proof. induction a as [|x a IH]; cbn; [reflexivity | rewrite IH; reflexivity]. Qed.

(** The correction that [center] adds to the left margin is one exactly
    when the margin and the width are both odd. *)
Lemma low_bit (m w : nat) :
  Nat.land (Nat.land m w) 1 = Nat.b2n (Nat.odd m && Nat.odd w).
Proof.
  change 1%nat with (Nat.ones 1) at 1. rewrite Nat.land_ones.
  change (2 ^ 1)%nat with 2%nat. rewrite <- Nat.bit0_mod, Nat.land_spec.
  rewrite !Nat.bit0_odd. reflexivity.
Qed.

Lemma half_odd (m : nat) : (m = 2 * (m / 2) + Nat.b2n (Nat.odd m))%nat.
Proof.
  rewrite <- Nat.bit0_odd, Nat.bit0_mod. apply Nat.div_mod. discriminate.
Qed.

Lemma center_shape (s : string) (width : nat) (fillchar : ascii) :
  String.length (center s width fillchar) = Nat.max width (String.length s)
  /\ exists l r,
       center s width fillchar
       = (replicate l fillchar ++ s ++ replicate r fillchar)%string
       /\ (l + r = width - String.length s)%nat
       /\ (Nat.odd width = false -> (l <= r <= l + 1)%nat)
       /\ (Nat.odd width = true -> (r <= l <= r + 1)%nat).
Proof.
  unfold center. destruct (width <=? String.length s)%nat eqn:L.
  - apply Nat.leb_le in L. split; [lia|].
    exists 0%nat, 0%nat. cbn [replicate append]. rewrite append_empty_r.
    repeat split; lia.
  - apply Nat.leb_gt in L.
    set (marg := (width - String.length s)%nat).
    rewrite low_bit. pose proof (half_odd marg) as H.
    assert (B : (marg / 2 + Nat.b2n (Nat.odd marg && Nat.odd width) <= marg)%nat).
    { destruct (Nat.odd marg), (Nat.odd width); cbn [andb Nat.b2n] in *; lia. }
    split.
    + rewrite !length_app_string, !length_replicate. lia.
    + eexists _, _. split; [reflexivity|]. split; [lia|].
      split; intros O; rewrite O in *;
        destruct (Nat.odd marg); cbn [andb Nat.b2n] in *; lia.
Qed.

End CenterFacts.

(** ** The main loop *)

Module MainFacts.
Import Datetime Str StrMore Posixpath Dict LogProcess LogAux ScanFacts RunFacts.
Import LogProcessMain MainAux PathFacts SuffixFacts.

Lemma log_path_join (w : world) (n : string) :
  entry_name n = true ->
  join (CODE_SERVER_LOG_PATH w) [n; "extension-host/exthost.log"%string]
  = log_path_of w n.
Proof.
  intros N. destruct (entry_name_spec n N) as [N1 [_ N3]].
  destruct (log_dir_shape w) as [R1 R2].
  apply join_entry; assumption.
Qed.

Lemma paths_of_entries (w : world) (names : list string) :
  (forall n, In n names -> entry_name n = true) ->
  map (fun n => join (CODE_SERVER_LOG_PATH w)
                     [n; "extension-host/exthost.log"%string]) names
  = map (log_path_of w) names.
Proof.
  intros A. apply map_ext_in. intros n I. apply log_path_join, A, I.
Qed.

Lemma identifying_folder_entry (w : world) (n : string) :
  entry_name n = true -> identifying_folder (log_path_of w n) = n.
Proof.
  intros N. unfold identifying_folder, log_path_of, CODE_SERVER_LOG_PATH.
  assert (E : ((home w ++ "/.local/share/code-server/logs") ++ "/" ++ n
                 ++ "/extension-host/exthost.log")%string
              = (home w ++ "/.local/share/code-server/logs/" ++ n
                   ++ "/extension-host/exthost.log")%string)
    by (rewrite append_assoc; reflexivity).
  rewrite E. destruct (parts_of_log_path (home w) n N) as [root [front P]].
  rewrite P. apply name_of_grandparent.
Qed.





Lemma run_diverges (f : file) :
  Forall (fun l => get_datetime_from_log_line l = Ok None) f ->
  forall fuel, get_log_activity_interval fuel f default_interval = OutOfFuel.
Proof.
  intros F fuel. unfold get_log_activity_interval.
  change (timedelta_of default_interval) with (Ok SpecAux.half_hour).
  cbn [bind]. unfold initialize. rewrite (first_datetime_diverges f F).
  reflexivity.
Qed.

Lemma main_loop_never_returns (fuel : nat) (w : world) (p : string)
    (paths : list string) :
  In p paths ->
  (forall h, get_log_activity_interval_at fuel w p default_interval
             <> Return h) ->
  snd (main_loop fuel w paths) <> Return tt.
Proof.
  intros I F. induction paths as [|q paths IH]; [destruct I|].
  cbn [main_loop].
  destruct (get_log_activity_interval_at fuel w q default_interval)
    as [h|e|] eqn:E; cbn [snd]; try discriminate.
  destruct I as [-> | I]; [destruct (F h E)|].
  destruct (main_loop fuel w paths) as [later e]. cbn [snd] in *.
  apply IH, I.
Qed.

End MainFacts.

(** * Further properties: the locator and [main] *)

Import StrMore Posixpath LogProcessMain MainAux PathFacts CenterFacts MainFacts.

(** ** get_exthost_log_paths *)

(** X14. When the log directory can be listed, the locator returns one path
    per entry, in the order of the listing: the log directory, the entry
    and [extension-host/exthost.log] with one slash between them.  Nothing
    is checked about the entry: whether it is a directory and whether the
    file exists plays no part. *)
Theorem log_paths_follow_listing (w : world) (names : list string) :
  listdir w (CODE_SERVER_LOG_PATH w) = Some names ->
  (forall n, In n names -> entry_name n = true) ->
  get_exthost_log_paths w = Return (map (log_path_of w) names).
Proof.
  intros L A. unfold get_exthost_log_paths. rewrite L.
  rewrite (paths_of_entries w names A). reflexivity.
Qed.

Lemma log_paths_follow_listing_witness :
  get_exthost_log_paths
    (mk_world "/home/u" (fun _ => Some ["20210501T211030"; "notes.txt"]%string)
              (fun _ => None))
  = Return
      ["/home/u/.local/share/code-server/logs/20210501T211030/extension-host/exthost.log";
       "/home/u/.local/share/code-server/logs/notes.txt/extension-host/exthost.log"]%string.
Proof.
  apply (log_paths_follow_listing
           (mk_world "/home/u"
                     (fun _ => Some ["20210501T211030"; "notes.txt"]%string)
                     (fun _ => None))
           ["20210501T211030"; "notes.txt"]%string).
  - reflexivity.
  - intros n [<- | [<- | []]]; reflexivity.
Defined.

(** ** main *)

(** X15. The folder name that [main] prints and saves under is the
    directory entry the path was built from, whatever the home directory
    is. *)
Theorem identifying_folder_is_entry (w : world) (n : string) :
  entry_name n = true ->
  identifying_folder
    (join (CODE_SERVER_LOG_PATH w) [n; "extension-host/exthost.log"%string])
  = n.
Proof.
  intros N. rewrite (log_path_join w n N). apply identifying_folder_entry, N.
Qed.

Lemma identifying_folder_is_entry_witness :
  identifying_folder
    "//srv/./.local/share/code-server/logs/20210501T211030/extension-host/exthost.log"
  = "20210501T211030"%string.
Proof.
  apply (identifying_folder_is_entry
           (mk_world "//srv/." (fun _ => None) (fun _ => None))
           "20210501T211030").
  reflexivity.
Defined.

(** X16. The banner of a log is its folder name between two runs of [=]
    that fill the line to 50 characters; the run on the right is the
    longer one when they differ, by one character.  A name of 50 characters
    or more is printed as it is. *)
Theorem banner_shape (n : string) :
  String.length (center n 50 "=") = Nat.max 50 (String.length n)
  /\ exists l r,
       center n 50 "=" = (replicate l "=" ++ n ++ replicate r "=")%string
       /\ (l + r = 50 - String.length n)%nat
       /\ (l <= r <= l + 1)%nat.
Proof.
  destruct (center_shape n 50 "=") as [L [l [r [E [S [Ev _]]]]]].
  split; [exact L|]. exists l, r. repeat split; try assumption;
    apply Ev; reflexivity.
Qed.





(** X19. When the log directory holds a log without a single line that
    starts with a bracket (an empty file, say), [main] never returns
    normally: however long it runs, it has either raised on an earlier log
    or is still reading. *)
Theorem main_never_returns_on_blank_log
    (w : world) (names : list string) (n : string) (f : file) :
  listdir w (CODE_SERVER_LOG_PATH w) = Some names ->
  In n names -> entry_name n = true ->
  open_ w (log_path_of w n) = Some f ->
  Forall (fun l => get_datetime_from_log_line l = Ok None) f ->
  forall fuel, snd (main fuel w) <> Return tt.
Proof.
  intros L I N O F fuel. unfold main, get_exthost_log_paths. rewrite L.
  apply (main_loop_never_returns fuel w (log_path_of w n)).
  - rewrite <- (log_path_join w n N).
    apply (in_map (fun n => join (CODE_SERVER_LOG_PATH w)
                                 [n; "extension-host/exthost.log"%string])).
    exact I.
  - intros h. unfold get_log_activity_interval_at.
    change (timedelta_of default_interval) with (Ok SpecAux.half_hour).
    cbv iota. rewrite O, (run_diverges f F fuel). discriminate.
Qed.

Lemma main_never_returns_on_blank_log_witness :
  main 1000 (mk_world "/home/u" (fun _ => Some ["20210501T211030"%string])
                      (fun _ => Some []))
  = ([Print [VStr "=================20210501T211030=================="]], Spin).
Proof.
  pose proof (main_never_returns_on_blank_log
                (mk_world "/home/u" (fun _ => Some ["20210501T211030"%string])
                          (fun _ => Some []))
                ["20210501T211030"%string] "20210501T211030" []
                eq_refl (or_introl eq_refl) eq_refl eq_refl
                (Forall_nil _) 1000%nat) as H.
  destruct (main 1000 (mk_world "/home/u"
                         (fun _ => Some ["20210501T211030"%string])
                         (fun _ => Some []))) as [tr e] eqn:E.
  vm_compute in E. injection E as <- <-. reflexivity.
Defined.

(** ** The labels of the bars *)

Module BarFacts.
Import Calendar Datetime TimeAux DatetimeFacts Dict DictFacts.
Import LogProcess LogAux SeedAux ScanFacts SeedFacts RunFacts.
Import OrderAux OrderFacts WindowAux RoundFacts.
Import Str FormatAux MatchFacts RegexFacts SuffixFacts BarPlot.

Lemma append_inj_length (a a' b b' : string) :
  String.length a = String.length a' ->
  (a ++ b = a' ++ b')%string -> a = a' /\ b = b'.
Proof.
  revert a'. induction a as [|x a IH]; intros [|x' a'] L E;
    try discriminate; cbn [append] in *.
  - split; [reflexivity | exact E].
  - injection L as L. injection E as -> E.
    destruct (IH a' L E) as [-> ->]. split; reflexivity.
Qed.

Lemma cons_inj (c : ascii) (a b : string) : String c a = String c b -> a = b.
Proof. intros [= E]. exact E. Qed.

Lemma pad_inj (k : nat) (n n' : Z) :
  0 <= n < 10 ^ Z.of_nat k -> 0 <= n' < 10 ^ Z.of_nat k ->
  pad k n = pad k n' -> n = n'.
Proof.
  intros H H' E.
  pose proof (digits_value_pad k n 0 H) as D.
  pose proof (digits_value_pad k n' 0 H') as D'.
  rewrite E in D. lia.
Qed.

(** Two datetimes with the same label have the same time of day. *)
Lemma time_isoformat_inj (a b : datetime) :
  valid_datetime a = true -> valid_datetime b = true ->
  time_isoformat a = time_isoformat b ->
  hour a = hour b /\ minute a = minute b /\ second a = second b
  /\ microsecond a = microsecond b.
Proof.
  intros Va Vb E.
  apply valid_datetime_iff in Va, Vb.
  destruct Va as [_ [Ha [Ma [Sa Ua]]]], Vb as [_ [Hb [Mb [Sb Ub]]]].
  unfold time_isoformat in E.
  apply append_inj_length in E; [|rewrite !pad_length; reflexivity].
  destruct E as [Eh E]. cbn [append] in E. apply cons_inj in E.
  apply append_inj_length in E; [|rewrite !pad_length; reflexivity].
  destruct E as [Em E]. cbn [append] in E. apply cons_inj in E.
  apply append_inj_length in E; [|rewrite !pad_length; reflexivity].
  destruct E as [Es E].
  apply pad_inj in Eh; [|cbn; lia|cbn; lia].
  apply pad_inj in Em; [|cbn; lia|cbn; lia].
  apply pad_inj in Es; [|cbn; lia|cbn; lia].
  repeat (split; [assumption|]).
  destruct (microsecond a =? 0) eqn:Za, (microsecond b =? 0) eqn:Zb;
    try discriminate.
  - apply Z.eqb_eq in Za, Zb. lia.
  - cbn [append] in E. apply cons_inj in E.
    apply pad_inj in E; [exact E|cbn; lia|cbn; lia].
Qed.

(** The time of day is the ticks within the day. *)
Lemma same_time_of_day (a b : datetime) :
  valid_datetime a = true -> valid_datetime b = true ->
  ticks a mod US_PER_DAY = ticks b mod US_PER_DAY ->
  time_isoformat a = time_isoformat b.
Proof.
  intros Va Vb E.
  rewrite (proj2 (ticks_split a Va)), (proj2 (ticks_split b Vb)) in E.
  apply valid_datetime_iff in Va, Vb.
  destruct Va as [_ [Ha [Ma [Sa Ua]]]], Vb as [_ [Hb [Mb [Sb Ub]]]].
  unfold US_PER_SECOND in E.
  assert (E1 : hour a = hour b) by lia.
  assert (E2 : minute a = minute b) by lia.
  assert (E3 : second a = second b) by lia.
  assert (E4 : microsecond a = microsecond b) by lia.
  unfold time_isoformat. rewrite E1, E2, E3, E4. reflexivity.
Qed.

Lemma time_isoformat_midnight (t : datetime) :
  time_isoformat (midnight t) = "00:00:00"%string.
Proof. reflexivity. Qed.

Lemma time_isoformat_next_midnight (t : datetime) :
  valid_datetime t = true ->
  in_range (ticks (midnight t) + US_PER_DAY) = true ->
  time_isoformat (next_midnight (midnight t)) = "00:00:00"%string.
Proof.
  intros V I. destruct (next_midnight_spec _ I) as [Vn Tn].
  rewrite <- (time_isoformat_midnight t).
  apply same_time_of_day; [assumption | apply valid_midnight, V |].
  rewrite Tn.
  replace (ticks (midnight t) + US_PER_DAY)
    with (ticks (midnight t) + 1 * US_PER_DAY) by lia.
  apply Z.mod_add. discriminate.
Qed.

(** Within the pre-seeded day different keys have different labels. *)
Lemma preseeded_labels_NoDup (t : datetime) (delta : timedelta) :
  valid_datetime t = true -> _to_microseconds delta <> 0 ->
  NoDup (map time_isoformat (keys (preseeded (midnight t) delta))).
Proof.
  intros V NZ. rewrite preseeded_keys, map_map.
  apply NoDup_map_inj; [apply NoDup_range|].
  intros i j Ii Ij E.
  destruct (range_within_day _ i NZ Ii) as [_ Bi].
  destruct (range_within_day _ j NZ Ij) as [_ Bj].
  destruct (ticks_bucket_key t delta i V Bi) as [Vi Ti].
  destruct (ticks_bucket_key t delta j V Bj) as [Vj Tj].
  destruct (time_isoformat_inj _ _ Vi Vj E) as [Eh [Em [Es Eu]]].
  pose proof (proj2 (ticks_split _ Vi)) as Si.
  pose proof (proj2 (ticks_split _ Vj)) as Sj.
  rewrite Eh, Em, Es, Eu, <- Sj in Si.
  rewrite Ti, Tj, ticks_midnight in Si.
  rewrite !(Z.add_comm (toordinal t * US_PER_DAY)), !Z.mod_add in Si
    by discriminate.
  rewrite !Z.mod_small in Si by assumption.
  apply (Z.mul_reg_l _ _ _ NZ Si).
Qed.

Lemma fold_add_key_in (l : list datetime) :
  forall ks k, In k l \/ In k ks -> In k (fold_left add_key l ks).
Proof.
  induction l as [|x l IH]; intros ks k [I | I]; cbn [fold_left].
  - destruct I.
  - exact I.
  - apply IH. destruct I as [-> | I]; [right | left; exact I].
    unfold add_key. destruct (existsb (datetime_eqb k) ks) eqn:E.
    + apply existsb_exists in E. destruct E as [y [Iy Ey]].
      apply datetime_eqb_eq in Ey. subst y. exact Iy.
    + apply in_or_app. right. left. reflexivity.
  - apply IH. right. unfold add_key.
    destruct (existsb (datetime_eqb x) ks); [exact I|].
    apply in_or_app. left. exact I.
Qed.

Lemma rounded_key_in (delta : timedelta) (f : file) (l : string)
    (t k : datetime) :
  In l f -> get_datetime_from_log_line l = Ok (Some t) ->
  round_to_interval t delta = Ok k -> In k (rounded_keys delta f).
Proof.
  intros I G R. unfold rounded_keys. apply in_flat_map. exists l.
  split; [exact I|]. rewrite G, R. left. reflexivity.
Qed.

End BarFacts.

Lemma keys_of_single_day
    (fuel : nat) (log_file : file) (iv : interval) (delta : timedelta)
    (t0 : datetime) (h : dict) :
  timedelta_of iv = Ok delta ->
  0 < _to_microseconds delta ->
  US_PER_DAY mod _to_microseconds delta = 0 ->
  first_datetime fuel log_file = Ok t0 ->
  (forall l t,
      In l log_file -> get_datetime_from_log_line l = Ok (Some t) ->
      ticks (midnight t0) - _to_microseconds delta < ticks t
      <= ticks (midnight t0) + US_PER_DAY - _to_microseconds delta) ->
  get_log_activity_interval fuel log_file iv = Ok h ->
  keys h = keys (preseeded (midnight t0) delta).
Proof.
  intros D W Dv F Win R.
  destruct (run_inv _ _ _ _ R) as [delta' [t [D' [VD [NZ [F' [V [I C]]]]]]]].
  assert (delta' = delta) by congruence. subst delta'.
  assert (t = t0) by congruence. subst t.
  rewrite (count_lines_keys _ _ _ _ C). apply fold_add_key_present.
  intros k Ik. destruct (in_rounded_keys _ _ _ Ik) as [l [t [Il [G Rk]]]].
  pose proof (get_datetime_valid _ _ G) as Vt.
  destruct (Win l t Il G) as [Lo Hi].
  destruct (same_day_window t0 t delta V Vt VD W Dv Lo Hi) as [i [_ [Ri [Ii _]]]].
  assert (k = bucket_key (midnight t0) delta i) by congruence. subst k.
  exact Ii.
Qed.

(** * Further properties: the bar plot *)

Import BarPlot BarFacts.

(** ** draw_bar_plot_from_time_dict *)

(** X20. The label of a bar tells the time of day of its key and nothing
    of its date: two keys get the same label exactly when their hours,
    minutes, seconds and microseconds agree. *)
Theorem bar_label_tells_time_only (a b : datetime) :
  valid_datetime a = true -> valid_datetime b = true ->
  (time_isoformat a = time_isoformat b
   <-> hour a = hour b /\ minute a = minute b /\ second a = second b
       /\ microsecond a = microsecond b).
Proof.
  intros Va Vb. split.
  - apply time_isoformat_inj; assumption.
  - intros [E1 [E2 [E3 E4]]]. unfold time_isoformat.
    rewrite E1, E2, E3, E4. reflexivity.
Qed.

Lemma bar_label_tells_time_only_witness :
  time_isoformat (mk_datetime 2021 5 1 21 30 0 0)
  = time_isoformat (mk_datetime 2021 5 2 21 30 0 0).
Proof.
  apply (bar_label_tells_time_only (mk_datetime 2021 5 1 21 30 0 0)
                                   (mk_datetime 2021 5 2 21 30 0 0)).
  - reflexivity.
  - reflexivity.
  - repeat split.
Defined.

(** X21. When the width divides the day and every timestamp of the file is
    later than one width before the anchor and not later than the last
    pre-seeded boundary, the bars of the returned histogram have pairwise
    different labels. *)
Theorem bar_labels_distinct_within_day
    (fuel : nat) (log_file : file) (iv : interval) (delta : timedelta)
    (t0 : datetime) (h : dict) :
  timedelta_of iv = Ok delta ->
  0 < _to_microseconds delta ->
  US_PER_DAY mod _to_microseconds delta = 0 ->
  first_datetime fuel log_file = Ok t0 ->
  (forall l t,
      In l log_file -> get_datetime_from_log_line l = Ok (Some t) ->
      ticks (midnight t0) - _to_microseconds delta < ticks t
      <= ticks (midnight t0) + US_PER_DAY - _to_microseconds delta) ->
  get_log_activity_interval fuel log_file iv = Ok h ->
  NoDup (times h).
Proof.
  intros D W Dv F Win R. unfold times.
  rewrite (keys_of_single_day fuel log_file iv delta t0 h D W Dv F Win R).
  apply preseeded_labels_NoDup; [|lia].
  apply (first_datetime_valid _ _ _ F).
Qed.

Lemma bar_labels_distinct_within_day_witness :
  exists h,
    get_log_activity_interval 2 [scenario_line; "no timestamp here"%string]
                              default_interval = Ok h
    /\ NoDup (times h).
Proof.
  eexists. split; [vm_compute; reflexivity|].
  match goal with
  | |- NoDup (times ?d) =>
      apply (bar_labels_distinct_within_day 2
               [scenario_line; "no timestamp here"%string]
               default_interval half_hour scenario_time d)
  end.
  - vm_compute; reflexivity.
  - vm_compute; reflexivity.
  - vm_compute; reflexivity.
  - vm_compute; reflexivity.
  - intros l t [<- | [<- | []]] G; vm_compute in G.
    + injection G as <-. vm_compute. split; [reflexivity | discriminate].
    + discriminate.
  - vm_compute; reflexivity.
Defined.

(** X22. When the width divides the day and the file has a timestamp of
    the anchor's day later than the last pre-seeded boundary, two bars of
    the returned histogram carry the label [00:00:00]: the first one, for
    the anchor's midnight, and a later one, for the midnight after it. *)
Theorem bar_labels_repeat_after_spill
    (fuel : nat) (log_file : file) (iv : interval) (delta : timedelta)
    (t0 t : datetime) (l : string) (h : dict) :
  timedelta_of iv = Ok delta ->
  0 < _to_microseconds delta ->
  US_PER_DAY mod _to_microseconds delta = 0 ->
  first_datetime fuel log_file = Ok t0 ->
  In l log_file -> get_datetime_from_log_line l = Ok (Some t) ->
  ticks (midnight t0) + US_PER_DAY - _to_microseconds delta < ticks t ->
  ticks t <= ticks (midnight t0) + US_PER_DAY ->
  get_log_activity_interval fuel log_file iv = Ok h ->
  (exists mid post,
     times h = "00:00:00"%string :: mid ++ "00:00:00"%string :: post)
  /\ ~ NoDup (times h).
Proof.
  intros D W Dv F Il G Lo Hi R.
  destruct (run_inv _ _ _ _ R) as [delta' [t' [D' [VD [NZ [F' [V0 [I C]]]]]]]].
  assert (delta' = delta) by congruence. subst delta'.
  assert (t' = t0) by congruence. subst t'.
  pose proof (get_datetime_valid _ _ G) as V.
  (* the line is counted under the next midnight *)
  destruct (rounded_from_anchor t0 t delta W Dv) as [i [E B]].
  assert (Hn : _to_microseconds delta * (US_PER_DAY / _to_microseconds delta)
               = US_PER_DAY).
  { pose proof (Z.div_mod US_PER_DAY _ NZ). lia. }
  assert (N1 : 1 <= US_PER_DAY / _to_microseconds delta).
  { destruct (Z_lt_le_dec (US_PER_DAY / _to_microseconds delta) 1) as [L|L];
      [|exact L].
    assert (0 <= US_PER_DAY / _to_microseconds delta)
      by (apply Z.div_pos; [unfold US_PER_DAY|]; lia).
    assert (Z0 : US_PER_DAY / _to_microseconds delta = 0) by lia.
    rewrite Z0 in Hn. unfold US_PER_DAY in Hn. lia. }
  assert (Ei : _to_microseconds delta * i = US_PER_DAY).
  { set (n := US_PER_DAY / _to_microseconds delta) in *.
    set (w := _to_microseconds delta) in *.
    assert (w * (n - 1) < w * i) by lia.
    assert (w * i < w * (n + 1)) by lia.
    assert (n - 1 < i) by (apply (Z.mul_lt_mono_pos_l w); assumption).
    assert (i < n + 1) by (apply (Z.mul_lt_mono_pos_l w); assumption).
    assert (i = n) by lia. subst i. exact Hn. }
  assert (Rt : round_to_interval t delta
               = if in_range (ticks (midnight t0) + US_PER_DAY)
                 then Ok (next_midnight (midnight t0))
                 else Raise OverflowError).
  { apply round_next_midnight; try assumption. lia. }
  assert (Ok_l : line_ok delta l = true).
  { pose proof (count_lines_lines_ok _ _ _ _ C) as A.
    apply (proj1 (forallb_forall _ _) A l Il). }
  unfold line_ok in Ok_l. rewrite G, Rt in Ok_l.
  destruct (in_range (ticks (midnight t0) + US_PER_DAY)) eqn:IR;
    [|discriminate].
  destruct (next_midnight_spec _ IR) as [Vn Tn].
  (* its key comes after the pre-seeded ones *)
  pose proof (count_lines_keys _ _ _ _ C) as K.
  destruct (fold_add_key (rounded_keys delta log_file)
                         (keys (preseeded (midnight t0) delta)))
    as [_ [extra [Ex X]]].
  rewrite Ex in K.
  assert (In_h : In (next_midnight (midnight t0))
                    (fold_left add_key (rounded_keys delta log_file)
                               (keys (preseeded (midnight t0) delta)))).
  { apply fold_add_key_in. left. apply (rounded_key_in delta log_file l t);
      assumption. }
  rewrite Ex in In_h. apply in_app_or in In_h.
  assert (In_x : In (next_midnight (midnight t0)) extra).
  { destruct In_h as [P | P]; [|exact P]. exfalso.
    rewrite preseeded_keys in P. apply in_map_iff in P.
    destruct P as [j [Ej Ij]].
    pose proof (range_within_day _ j NZ Ij) as [_ Bj].
    destruct (ticks_bucket_key t0 delta j V0 Bj) as [_ Tj].
    rewrite Ej, Tn in Tj. lia. }
  (* the first pre-seeded key is the anchor *)
  assert (P0 : exists ks, keys (preseeded (midnight t0) delta)
                          = midnight t0 :: ks).
  { rewrite preseeded_keys.
    assert (N0 : nth_error (range (US_PER_DAY / _to_microseconds delta))
                           (Z.to_nat 0) = Some 0)
      by (apply nth_error_range; lia).
    change (Z.to_nat 0) with 0%nat in N0.
    destruct (range (US_PER_DAY / _to_microseconds delta)) as [|j js];
      [discriminate|].
    cbn [nth_error] in N0. injection N0 as ->.
    exists (map (bucket_key (midnight t0) delta) js). cbn [map]. f_equal.
    unfold bucket_key. rewrite Z.mul_0_r, Z.add_0_r.
    apply of_ticks_ticks, valid_midnight, V0. }
  destruct P0 as [ks P0].
  assert (Sh : exists mid post,
             times h = "00:00:00"%string :: mid ++ "00:00:00"%string :: post).
  { unfold times. rewrite K, P0, map_app. cbn [map app].
    rewrite time_isoformat_midnight.
    destruct (in_split _ _ In_x) as [e1 [e2 ->]].
    rewrite map_app. cbn [map].
    rewrite (time_isoformat_next_midnight t0 V0 IR).
    exists (map time_isoformat ks ++ map time_isoformat e1),
           (map time_isoformat e2).
    rewrite <- app_assoc. reflexivity. }
  split; [exact Sh|].
  destruct Sh as [mid [post Sh]]. rewrite Sh. intros ND.
  inversion ND as [|x xs Nin _]. subst. apply Nin.
  apply in_or_app. right. left. reflexivity.
Qed.

Lemma bar_labels_repeat_after_spill_witness :
  exists h,
    get_log_activity_interval 1 ["[2021-05-01 23:40:00.000] a"%string]
                              default_interval = Ok h
    /\ ~ NoDup (times h).
Proof.
  eexists. split; [vm_compute; reflexivity|].
  match goal with
  | |- ~ NoDup (times ?d) =>
      apply (bar_labels_repeat_after_spill 1
               ["[2021-05-01 23:40:00.000] a"%string]
               default_interval half_hour
               (mk_datetime 2021 5 1 23 40 0 0) (mk_datetime 2021 5 1 23 40 0 0)
               "[2021-05-01 23:40:00.000] a"%string d)
  end.
  - vm_compute; reflexivity.
  - vm_compute; reflexivity.
  - vm_compute; reflexivity.
  - vm_compute; reflexivity.
  - left; reflexivity.
  - vm_compute; reflexivity.
  - vm_compute; reflexivity.
  - vm_compute; discriminate.
  - vm_compute; reflexivity.
Defined.
